(** * Decision-bound model selection for cat_learn_automaticity

    A shallow embedding of the table pipeline of
    [cat_learn_auto_pace_2025_s2/code/inspect_results.py] (file routing, the
    canonical trial table, the dual-task, button-switch, lab and merged
    tables, the Fit Result table and the BIC model selector), of the trial
    state machine of [cat_learn_auto_pace_2026_s1/code/run_exp.py], of the
    trial loop of [cat_learn_auto_pace_2025_s2/code/run_exp.py] and of the
    class [EEGPort] the two experiment scripts share.

    Conventions.  Python integers are [Z]; pandas columns holding strings are
    [string]; a DataFrame is the list of its rows in row order, a row being a
    record with one field per column.  An exception is [None]: functions
    that can raise return an [option].  BIC values are finite floats in the
    script; the selector only compares them, so it is written over any type
    carrying a decidable total preorder ([Score]), instantiated at [Q] (every
    finite float is a rational) and at [R].  NaN is outside the model.  Where
    the experiment scripts compute with clock readings (reaction times, the
    due time of an EEG pulse) the numbers are binary64 floats and the
    operations those of [PrimFloat].

    The first part of the file is the embedding; the properties follow under
    the heading Properties. *)

From Stdlib Require Import List ZArith QArith Bool String Ascii Lia.
From Stdlib Require Import Sorting.Sorted Structures.OrderedTypeEx.
From Stdlib Require Import Sorting.Permutation.
From Stdlib Require Import Reals Lra Qreals.
From Stdlib Require Import Floats.
Import ListNotations.

#[local] Set Warnings "-inexact-float".

Set Implicit Arguments.

(** ** Generic list utilities used by the pandas / numpy operations *)

Section SortUnique.
Variable A : Type.
Variable le : A -> A -> bool.

(** Insertion into a strictly increasing list; an element equal (both
    comparisons hold) to one already present is not inserted twice. *)
Fixpoint insert_unique (x : A) (l : list A) : list A :=
  match l with
  | [] => [x]
  | y :: l' =>
      if le x y
      then (if le y x then y :: l' else x :: y :: l')
      else y :: insert_unique x l'
  end.

(** [np.unique] and the sorted group keys of [groupby]: the sorted list of
    distinct values. *)
Definition sort_unique (l : list A) : list A :=
  fold_right insert_unique [] l.

Hypothesis le_total : forall x y, le x y = true \/ le y x = true.
Hypothesis le_trans :
  forall x y z, le x y = true -> le y z = true -> le x z = true.
Hypothesis le_antisym : forall x y, le x y = true -> le y x = true -> x = y.

Definition lt_strict (x y : A) : Prop := le x y = true /\ le y x = false.

Lemma le_refl : forall x, le x x = true.
Proof. intro x. destruct (le_total x x); assumption. Qed.

Lemma lt_strict_trans :
  forall x y z, lt_strict x y -> lt_strict y z -> lt_strict x z.
Proof.
  intros x y z [Hxy Hyx] [Hyz Hzy]. split.
  - eauto.
  - destruct (le z x) eqn:E; trivial.
    assert (le z y = true) by eauto. congruence.
Qed.

Lemma insert_unique_In :
  forall x y l, In y (insert_unique x l) <-> y = x \/ In y l.
Proof.
  intros x y l. induction l as [|z l IH]; simpl.
  - intuition.
  - destruct (le x z) eqn:Hxz.
    + destruct (le z x) eqn:Hzx; simpl.
      * assert (x = z) by (apply le_antisym; assumption). subst. intuition.
      * intuition.
    + simpl. rewrite IH. intuition.
Qed.

Lemma sort_unique_In : forall x l, In x (sort_unique l) <-> In x l.
Proof.
  intros x l. induction l as [|y l IH]; simpl.
  - tauto.
  - rewrite insert_unique_In, IH. intuition.
Qed.

Lemma insert_unique_sorted :
  forall x l, StronglySorted lt_strict l ->
              StronglySorted lt_strict (insert_unique x l).
Proof.
  intros x l Hs. induction Hs as [|z l Hs IH Hall]; simpl.
  - repeat constructor.
  - destruct (le x z) eqn:Hxz.
    + destruct (le z x) eqn:Hzx.
      * constructor; assumption.
      * constructor.
        -- constructor; assumption.
        -- constructor.
           ++ split; assumption.
           ++ rewrite Forall_forall in *. intros w Hw.
              apply lt_strict_trans with z; [split; assumption|auto].
    + constructor; [assumption|].
      rewrite Forall_forall in *. intros w Hw.
      apply insert_unique_In in Hw. destruct Hw as [->|Hw]; [|auto].
      split; [|assumption].
      destruct (le_total x z) as [H|H]; [congruence|assumption].
Qed.

Lemma sort_unique_sorted : forall l, StronglySorted lt_strict (sort_unique l).
Proof.
  induction l as [|x l IH]; simpl.
  - constructor.
  - apply insert_unique_sorted. assumption.
Qed.

Lemma sorted_NoDup : forall l, StronglySorted lt_strict l -> NoDup l.
Proof.
  intros l Hs. induction Hs as [|z l Hs IH Hall].
  - constructor.
  - constructor; [|assumption].
    intro Hin. rewrite Forall_forall in Hall.
    destruct (Hall z Hin) as [H1 H2]. congruence.
Qed.

Lemma sort_unique_NoDup : forall l, NoDup (sort_unique l).
Proof. intro l. apply sorted_NoDup, sort_unique_sorted. Qed.

(** The first element of [np.unique(l)] is below every element of [l]. *)
Lemma sort_unique_head_least :
  forall l m rest, sort_unique l = m :: rest ->
                   In m l /\ forall x, In x l -> le m x = true.
Proof.
  intros l m rest E. split.
  - apply sort_unique_In. rewrite E. left. reflexivity.
  - intros x Hx. apply sort_unique_In in Hx. rewrite E in Hx.
    pose proof (sort_unique_sorted l) as Hs. rewrite E in Hs.
    inversion Hs as [|? ? _ Hall]; subst.
    destruct Hx as [<-|Hx]; [apply le_refl|].
    rewrite Forall_forall in Hall. apply Hall. assumption.
Qed.

Lemma sort_unique_nonempty : forall l, l <> [] -> sort_unique l <> [].
Proof.
  intros l Hl E. destruct l as [|x l]; [congruence|].
  assert (In x (sort_unique (x :: l))) by (apply sort_unique_In; left; reflexivity).
  rewrite E in H. contradiction.
Qed.
End SortUnique.

Section DropDuplicates.
Variable A : Type.
Variable eqb : A -> A -> bool.

(** [DataFrame.drop_duplicates()] with the default [keep='first']: a row is
    dropped when an equal row occurs earlier. *)
Fixpoint drop_duplicates (l : list A) : list A :=
  match l with
  | [] => []
  | x :: l' => x :: filter (fun y => negb (eqb x y)) (drop_duplicates l')
  end.

Lemma drop_duplicates_incl : forall x l, In x (drop_duplicates l) -> In x l.
Proof.
  intros x l. induction l as [|y l IH]; simpl; [tauto|].
  intros [->|H]; [left; reflexivity|].
  apply filter_In in H. right. apply IH. tauto.
Qed.

Variable P : A -> bool.
Hypothesis P_compat : forall x y, eqb x y = true -> P x = P y.

Lemma filter_drop_other :
  forall x l, P x = false ->
    filter P (filter (fun y => negb (eqb x y)) l) = filter P l.
Proof.
  intros x l Hx. induction l as [|y l IH]; simpl; [reflexivity|].
  destruct (eqb x y) eqn:E; simpl.
  - rewrite <- (P_compat E), Hx. assumption.
  - destruct (P y); [f_equal|]; assumption.
Qed.


(** A single row satisfying [P] survives, and stays single. *)
Lemma filter_drop_duplicates_single :
  forall l x, filter P l = [x] -> filter P (drop_duplicates l) = [x].
Proof.
  induction l as [|y l IH]; simpl; intros x H; [discriminate|].
  destruct (P y) eqn:Py.
  - injection H as -> Hl.
    f_equal.
    destruct (filter P (filter (fun z => negb (eqb x z)) (drop_duplicates l)))
      as [|z t] eqn:E; [reflexivity|].
    assert (Hz : In z (filter P l)).
    { assert (Hz : In z (z :: t)) by (left; reflexivity).
      rewrite <- E in Hz. apply filter_In in Hz. destruct Hz as [Hz Pz].
      apply filter_In in Hz. apply filter_In. split; [|assumption].
      apply drop_duplicates_incl. tauto. }
    rewrite Hl in Hz. contradiction.
  - rewrite filter_drop_other by assumption. apply IH. assumption.
Qed.
End DropDuplicates.

(** ** Orders used by the script *)

(** Python compares model names as strings, code point by code point;
    [String.leb] is that order on byte strings. *)
Lemma string_leb_trans :
  forall a b c : string,
    String.leb a b = true -> String.leb b c = true -> String.leb a c = true.
Proof.
  intros a b c. unfold String.leb.
  destruct (String.compare a b) eqn:Hab; try discriminate;
    destruct (String.compare b c) eqn:Hbc; try discriminate; intros _ _.
  - apply OrderedTypeEx.String_as_OT.cmp_eq in Hab, Hbc. subst.
    assert (E : String.compare c c = Eq)
      by (apply OrderedTypeEx.String_as_OT.cmp_eq; reflexivity).
    rewrite E. reflexivity.
  - apply OrderedTypeEx.String_as_OT.cmp_eq in Hab. subst. rewrite Hbc. reflexivity.
  - apply OrderedTypeEx.String_as_OT.cmp_eq in Hbc. subst. rewrite Hab. reflexivity.
  - apply OrderedTypeEx.String_as_OT.cmp_lt in Hab, Hbc.
    pose proof (OrderedTypeEx.String_as_OT.lt_trans a b c Hab Hbc) as Hac.
    apply OrderedTypeEx.String_as_OT.cmp_lt in Hac.
    unfold OrderedTypeEx.String_as_OT.cmp in Hac. rewrite Hac. reflexivity.
Qed.

(** A (subject, day) pair, the key of every [groupby(["subject", "day"])]. *)
Definition key : Type := (Z * Z)%type.

Definition key_eqb (a b : key) : bool :=
  (fst a =? fst b)%Z && (snd a =? snd b)%Z.

(** pandas sorts group keys lexicographically, subject first. *)
Definition key_leb (a b : key) : bool :=
  if (fst a <? fst b)%Z then true
  else if (fst a =? fst b)%Z then (snd a <=? snd b)%Z
  else false.

Lemma key_eqb_eq : forall a b, key_eqb a b = true <-> a = b.
Proof.
  intros [a1 a2] [b1 b2]. unfold key_eqb. simpl.
  rewrite andb_true_iff, !Z.eqb_eq. split.
  - intros [-> ->]. reflexivity.
  - intros E. injection E as -> ->. auto.
Qed.

Lemma key_eqb_refl : forall a, key_eqb a a = true.
Proof. intro a. apply key_eqb_eq. reflexivity. Qed.

Lemma key_eqb_neq : forall a b, key_eqb a b = false <-> a <> b.
Proof.
  intros a b. rewrite <- key_eqb_eq. destruct (key_eqb a b); intuition congruence.
Qed.

Lemma key_leb_total : forall a b, key_leb a b = true \/ key_leb b a = true.
Proof.
  intros [a1 a2] [b1 b2]. unfold key_leb. simpl.
  destruct (a1 <? b1)%Z eqn:E1; [auto|].
  destruct (b1 <? a1)%Z eqn:E2; [auto|].
  apply Z.ltb_ge in E1, E2. assert (a1 = b1) by lia. subst.
  rewrite Z.eqb_refl. destruct (Z.leb_spec a2 b2); [auto|].
  right. apply Z.leb_le. lia.
Qed.

Lemma key_leb_trans :
  forall a b c, key_leb a b = true -> key_leb b c = true -> key_leb a c = true.
Proof.
  intros [a1 a2] [b1 b2] [c1 c2]. unfold key_leb. simpl.
  destruct (Z.ltb_spec a1 b1), (Z.eqb_spec a1 b1), (Z.ltb_spec b1 c1),
    (Z.eqb_spec b1 c1), (Z.ltb_spec a1 c1), (Z.eqb_spec a1 c1);
    rewrite ?Z.leb_le; intros; try lia; try discriminate; auto.
Qed.

Lemma key_leb_antisym :
  forall a b, key_leb a b = true -> key_leb b a = true -> a = b.
Proof.
  intros [a1 a2] [b1 b2]. unfold key_leb. simpl.
  destruct (Z.ltb_spec a1 b1), (Z.eqb_spec a1 b1), (Z.ltb_spec b1 a1),
    (Z.eqb_spec b1 a1); rewrite ?Z.leb_le; intros; try lia; try discriminate.
  f_equal; lia.
Qed.

(** A totally preordered type of scores (BIC values). *)
Class Score (B : Type) : Type := {
  sleb : B -> B -> bool;
  sleb_total : forall x y, sleb x y = true \/ sleb y x = true;
  sleb_trans : forall x y z, sleb x y = true -> sleb y z = true -> sleb x z = true
}.

(** [x == y] on finite floats: each is below the other. *)
Definition seqb {B : Type} `{Score B} (x y : B) : bool := sleb x y && sleb y x.

Lemma sleb_refl : forall {B : Type} `{Score B} (x : B), sleb x x = true.
Proof. intros B S x. destruct (sleb_total x x); assumption. Qed.

Lemma seqb_refl : forall {B : Type} `{Score B} (x : B), seqb x x = true.
Proof. intros B S x. unfold seqb. rewrite sleb_refl. reflexivity. Qed.

Lemma Qle_bool_total : forall x y : Q, Qle_bool x y = true \/ Qle_bool y x = true.
Proof.
  intros x y. rewrite !Qle_bool_iff.
  destruct (Qlt_le_dec x y) as [H|H]; [left; apply Qlt_le_weak|right]; assumption.
Qed.

Lemma Qle_bool_trans :
  forall x y z : Q, Qle_bool x y = true -> Qle_bool y z = true -> Qle_bool x z = true.
Proof. intros x y z. rewrite !Qle_bool_iff. apply Qle_trans. Qed.

#[export] Instance Score_Q : Score Q :=
  {| sleb := Qle_bool; sleb_total := Qle_bool_total; sleb_trans := Qle_bool_trans |}.

(** ** groupby *)

Section GroupBy.
Variable Row : Type.
Variable row_key : Row -> key.

Definition in_group (k : key) (r : Row) : bool := key_eqb (row_key r) k.

(** The rows of one group, in table order. *)
Definition group (T : list Row) (k : key) : list Row := filter (in_group k) T.

(** [T.groupby(["subject", "day"])]: one non-empty group per distinct key,
    groups in increasing key order. *)
Definition groupby (T : list Row) : list (key * list Row) :=
  map (fun k => (k, group T k)) (sort_unique key_leb (map row_key T)).

Lemma group_keys_In :
  forall T k, In k (sort_unique key_leb (map row_key T)) <->
              exists r, In r T /\ row_key r = k.
Proof.
  intros T k. rewrite (sort_unique_In key_leb key_leb_antisym).
  rewrite in_map_iff. split; intros [r [H1 H2]]; exists r; auto.
Qed.

Lemma group_keys_NoDup : forall T, NoDup (sort_unique key_leb (map row_key T)).
Proof.
  intro T. apply sort_unique_NoDup.
  - apply key_leb_total.
  - apply key_leb_trans.
  - apply key_leb_antisym.
Qed.

Lemma group_In : forall T k r, In r (group T k) <-> In r T /\ row_key r = k.
Proof.
  intros T k r. unfold group, in_group. rewrite filter_In, key_eqb_eq. tauto.
Qed.

Lemma groupby_nonempty : forall T k g, In (k, g) (groupby T) -> g <> [].
Proof.
  intros T k g H. unfold groupby in H. apply in_map_iff in H.
  destruct H as [k' [E Hk]]. injection E as -> <-.
  apply group_keys_In in Hk. destruct Hk as [r [Hr Hk]].
  assert (In r (group T k)) by (apply group_In; auto).
  intro E. rewrite E in H. contradiction.
Qed.
End GroupBy.

(** ** The Model Selector ([inspect_results.py], lines 304-323) *)

Module Selector.

(** One row of the Fit Result table [dbm].  [rest] holds the columns the
    selector never reads (nll, p, the old index). *)
Record FitRow (B X : Type) : Type := mkFitRow {
  subject : Z;
  day : Z;
  model : string;
  bic : B;
  rest : X
}.

(** One row of the final [dbm]: a Best-Model Assignment. *)
Record Assignment (B : Type) : Type := mkAssignment {
  a_subject : Z;
  a_day : Z;
  a_bic : B;
  best_model : string;
  best_model_class : string
}.

(** [s.split(sep)] for a one-character separator. *)
Fixpoint split_on (sep : ascii) (s : string) : list string :=
  match s with
  | EmptyString => [EmptyString]
  | String c s' =>
      if Ascii.eqb c sep then EmptyString :: split_on sep s'
      else match split_on sep s' with
           | [] => [String c EmptyString]
           | w :: ws => String c w :: ws
           end
  end.

(** [dbm["best_model"].str.split("_").str[1]]; [None] is the missing value
    pandas gives a name without a second field. *)
Definition model_family (name : string) : option string :=
  nth_error (split_on "_"%char name) 1.

(** Lines 317-321: the family column, then every entry different from
    "glc" becomes "rule-based", then every entry equal to "glc" becomes
    "procedural".  A missing value differs from "glc". *)
Definition strategy_class (name : string) : string :=
  let c0 := model_family name in
  let c1 := match c0 with
            | Some f => if String.eqb f "glc" then f else "rule-based"%string
            | None => "rule-based"%string
            end in
  if String.eqb c1 "glc" then "procedural"%string else c1.

Section WithScore.
Context {B : Type} `{Score B}.
Variable X : Type.

Definition row_key (r : FitRow B X) : key := (subject r, day r).

Definition smin (x y : B) : B := if sleb x y then x else y.

(** [bic.min()]; numpy raises on an empty array. *)
Definition array_min (l : list B) : option B :=
  match l with
  | [] => None
  | x :: l' => Some (fold_left smin l' x)
  end.

(** [np.unique(model[bic == bic.min()])[0]]; indexing an empty array
    raises. *)
Definition best_model_of (x : list (FitRow B X)) : option string :=
  match array_min (map (@bic B X) x) with
  | None => None
  | Some m =>
      hd_error (sort_unique String.leb
                  (map (@model B X) (filter (fun r => seqb (bic r) m) x)))
  end.

(** [assign_best_model]: every row of the group gets the column
    [best_model]. *)
Definition assign_best_model (x : list (FitRow B X))
  : option (list (FitRow B X * string)) :=
  match best_model_of x with
  | None => None
  | Some best => Some (map (fun r => (r, best)) x)
  end.

(** [dbm.groupby(["subject", "day"]).apply(assign_best_model)]: the
    results of the groups, concatenated in key order. *)
Fixpoint apply_groups (gs : list (key * list (FitRow B X)))
  : option (list (FitRow B X * string)) :=
  match gs with
  | [] => Some []
  | (_, x) :: gs' =>
      match assign_best_model x, apply_groups gs' with
      | Some y, Some ys => Some (y ++ ys)
      | _, _ => None
      end
  end.

(** The four columns kept by [dbm[["subject", "day", "bic", "best_model"]]]. *)
Definition Kept : Type := (Z * Z * B * string)%type.

Definition kept_cols (rb : FitRow B X * string) : Kept :=
  (subject (fst rb), day (fst rb), bic (fst rb), snd rb).

Definition kept_key (c : Kept) : key :=
  match c with (s, d, _, _) => (s, d) end.

Definition kept_eqb (c1 c2 : Kept) : bool :=
  match c1, c2 with
  | (s1, d1, b1, m1), (s2, d2, b2, m2) =>
      (s1 =? s2)%Z && (d1 =? d2)%Z && seqb b1 b2 && String.eqb m1 m2
  end.

Definition with_class (c : Kept) : Assignment B :=
  match c with
  | (s, d, b, m) => mkAssignment s d b m (strategy_class m)
  end.

(** Lines 311-323.  On a table without rows [apply] calls the function on
    no group, its result has no column [best_model], and line 314 raises. *)
Definition select (dbm : list (FitRow B X)) : option (list (Assignment B)) :=
  match dbm with
  | [] => None
  | _ :: _ =>
      match apply_groups (groupby row_key dbm) with
      | None => None
      | Some rows =>
          let won :=
            filter (fun rb => String.eqb (model (fst rb)) (snd rb)) rows in
          let cols := map kept_cols won in
          Some (map with_class (drop_duplicates kept_eqb cols))
      end
  end.

Definition a_key (a : Assignment B) : key := (a_subject a, a_day a).
End WithScore.

(** Replacing the columns the selector never reads by others. *)
Definition map_rest (B X Y : Type) (f : X -> Y) (r : FitRow B X) : FitRow B Y :=
  mkFitRow (subject r) (day r) (model r) (bic r) (f (rest r)).
End Selector.

Import Selector.

(** ** Loading the at-home files and the canonical trial table
    ([inspect_results.py], lines 64-208) *)

Module Ingest.

(** One row of a data CSV, with the [f_name] column the script adds. *)
Record Row : Type := mkRow {
  r_f_name : string;
  r_subject : Z;
  r_day : Z;
  r_trial : Z;
  r_cat : string;
  r_resp : string;
  r_x : Q;
  r_y : Q;
  r_ns_correct_side : option string;
  r_ns_resp : option string
}.

(** A file of [../data/<folder>/]: its name [fs] and the rows [pd.read_csv]
    returns. *)
Record DataFile : Type := mkFile {
  fs : string;
  content : list Row
}.

(** The "Day Exclusion List" of lines 91-108. *)
Definition day_exclusion_list : list string :=
  [ "sub_002_day_23_data.csv"; "sub_008_day_18_data.csv";
    "sub_008_day_19_data.csv"; "sub_008_day_20_data.csv";
    "sub_008_day_21_data.csv"; "sub_008_day_22_data.csv";
    "sub_008_day_23_data.csv"; "sub_008_day_24_data.csv";
    "sub_015_day_22_data.csv"; "sub_015_day_23_data.csv";
    "sub_015_day_24_data.csv"; "sub_019_day_13_data.csv";
    "sub_019_day_18_data.csv"; "sub_019_day_22_data.csv";
    "sub_019_day_23_data.csv"; "sub_019_day_24_data.csv" ]%string.

Definition excluded (name : string) : bool :=
  existsb (String.eqb name) day_exclusion_list.

(** [df['f_name'] = v], [df['day'] = v], [df['subject'] = v]. *)
Definition set_f_name (v : string) (r : Row) : Row :=
  mkRow v (r_subject r) (r_day r) (r_trial r) (r_cat r) (r_resp r)
        (r_x r) (r_y r) (r_ns_correct_side r) (r_ns_resp r).

Definition set_day (v : Z) (r : Row) : Row :=
  mkRow (r_f_name r) (r_subject r) v (r_trial r) (r_cat r) (r_resp r)
        (r_x r) (r_y r) (r_ns_correct_side r) (r_ns_resp r).

Definition set_subject (v : Z) (r : Row) : Row :=
  mkRow (r_f_name r) v (r_day r) (r_trial r) (r_cat r) (r_resp r)
        (r_x r) (r_y r) (r_ns_correct_side r) (r_ns_resp r).

Definition is_name (name other : string) : bool := String.eqb name other.

(** Lines 110-163: the per-file corrections, in the order of the script. *)
Definition fix_file (name : string) (rows : list Row) : list Row :=
  let df := map (set_f_name name) rows in
  let df := if is_name name "sub_003_day_19_data.csv" then map (set_day 19) df
            else if is_name name "sub_003_day_20_data.csv" then map (set_day 20) df
            else df in
  let df := if is_name name "sub_006_day_22_data.csv" then map (set_subject 6) df
            else if is_name name "sub_006_day_23_data.csv" then map (set_subject 6) df
            else if is_name name "sub_006_day_24_data.csv" then map (set_subject 6) df
            else df in
  let df := if is_name name "sub_015_day_01_data.csv" then map (set_subject 15) df
            else df in
  let df := if is_name name "sub_016_day_22_data.csv" then map (set_subject 16) df
            else df in
  let df := if is_name name "sub_017_day_17_data.csv" then map (set_subject 17) df
            else df in
  let df := if is_name name "sub_019_day_01_data.csv" then map (set_subject 19) df
            else df in
  let df := if is_name name "sub_019_day_24_data.csv" then map (set_day 24) df
            else df in
  df.

(** [df['day'].unique()]: the distinct day labels in order of appearance. *)
Definition unique_days (df : list Row) : list Z :=
  drop_duplicates Z.eqb (map r_day df).

Definition isin (v : Z) (l : list Z) : bool := existsb (Z.eqb v) l.

(** The three lists filled by the first loop. *)
Record Recs : Type := mkRecs {
  df_train_rec : list (list Row);
  df_dt_rec : list (list Row);
  df_bs_rec : list (list Row)
}.

Definition no_recs : Recs := mkRecs [] [] [].

Definition append_if (b : bool) (l : list (list Row)) (df : list Row) :=
  if b then l ++ [df] else l.

(** Lines 91-177 for one file.  The three tests of lines 168-176 take the
    truth value of an array built from [day]; numpy gives one only to an
    array of exactly one element, so a file whose rows carry no day label or
    several raises ([None]). *)
Definition load_file (recs : Recs) (f : DataFile) : option Recs :=
  if excluded (fs f) then Some recs
  else
    let df := fix_file (fs f) (content f) in
    match unique_days df with
    | [day] =>
        Some (mkRecs
                (append_if (negb (isin day [22; 23; 24]%Z)) (df_train_rec recs) df)
                (append_if (day =? 22)%Z (df_dt_rec recs) df)
                (append_if (isin day [23; 24]%Z) (df_bs_rec recs) df))
    | _ => None
    end.

(** The loop over the files of all participant folders, in listing order. *)
Fixpoint load_files (recs : Recs) (files : list DataFile) : option Recs :=
  match files with
  | [] => Some recs
  | f :: files' =>
      match load_file recs f with
      | Some recs' => load_files recs' files'
      | None => None
      end
  end.

(** Lines 179-196: the lab files. *)
Definition fix_lab_file (name : string) (rows : list Row) : list Row :=
  let df := if is_name name "sub_003_day_401_data.csv" then map (set_day 403) rows
            else rows in
  let df := if is_name name "sub_015_day_15_data.csv" then map (set_day 215) df
            else df in
  df.

Definition load_lab_files (files : list DataFile) : list (list Row) :=
  map (fun f => fix_lab_file (fs f) (content f))
      (filter (fun f => negb (is_name (fs f) ".DS_Store")) files).

Definition block_size : Z := 25.

(** One row of the table [d] ("Training at home") after lines 200-208. *)
Record Trial : Type := mkTrial {
  t_f_name : string;
  t_subject : Z;
  t_day : Z;
  t_trial : Z;
  t_block : Z;
  t_n_trials : Z;
  t_acc : Z;
  t_cat : string;
  t_resp : string;
  t_x : Q;
  t_y : Q
}.

(** Lexicographic comparison on (subject, day, trial), the sort key of
    line 201. *)
Definition row_leb (a b : Row) : bool :=
  if (r_subject a <? r_subject b)%Z then true
  else if (r_subject a =? r_subject b)%Z then
         if (r_day a <? r_day b)%Z then true
         else if (r_day a =? r_day b)%Z then (r_trial a <=? r_trial b)%Z
              else false
       else false.

Fixpoint insert_row (r : Row) (l : list Row) : list Row :=
  match l with
  | [] => [r]
  | y :: l' => if row_leb r y then r :: y :: l' else y :: insert_row r l'
  end.

(** [sort_values(by=['subject', 'day', 'trial'])]: a stable sort. *)
Definition sort_values (l : list Row) : list Row := fold_right insert_row [] l.

(** [groupby('subject')['day'].rank(method='dense')]: the number of distinct
    day labels of the subject that are at most this one. *)
Definition dense_rank (T : list Row) (r : Row) : Z :=
  Z.of_nat
    (List.length
       (filter (fun d => (d <=? r_day r)%Z)
               (sort_unique Z.leb
                  (map r_day
                       (filter (fun r' => (r_subject r' =? r_subject r)%Z) T))))).

(** [groupby(['subject']).cumcount()] for a row, given the subjects of the
    rows above it. *)
Definition cumcount (above : list Z) (s : Z) : Z :=
  Z.of_nat (count_occ Z.eq_dec above s).

(** [groupby(['subject', 'day'])['trial'].transform('count')], on the new
    day column. *)
Definition n_trials_of (T : list Row) (r : Row) : Z :=
  Z.of_nat
    (List.length
       (filter (fun r' => (r_subject r' =? r_subject r)%Z
                          && (dense_rank T r' =? dense_rank T r)%Z) T)).

Definition acc_of (r : Row) : Z :=
  if String.eqb (r_cat r) (r_resp r) then 1%Z else 0%Z.

(** Lines 202-207 for the row [r] of the sorted table [T], [above] being the
    subjects of the rows before it. *)
Definition make_trial (T : list Row) (above : list Z) (r : Row) : Trial :=
  let trial := cumcount above (r_subject r) in
  mkTrial (r_f_name r) (r_subject r) (dense_rank T r) trial
          (trial / block_size)%Z (n_trials_of T r) (acc_of r)
          (r_cat r) (r_resp r) (r_x r) (r_y r).

Fixpoint assign_columns (T : list Row) (above : list Z) (rest : list Row)
  : list Trial :=
  match rest with
  | [] => []
  | r :: rest' =>
      make_trial T above r :: assign_columns T (above ++ [r_subject r]) rest'
  end.

(** Lines 200-208: the canonical at-home training table [d]. *)
Definition training_table (recs : list (list Row)) : list Trial :=
  let T := sort_values (List.concat recs) in
  assign_columns T [] T.

Definition trial_key (t : Trial) : key := (t_subject t, t_day t).

(** The position of a trial within its (subject, day) group: the number of
    rows above it with the same subject and day. *)
Definition index_in_day (above : list Trial) (t : Trial) : Z :=
  Z.of_nat (List.length (filter (fun t' => key_eqb (trial_key t') (trial_key t)) above)).

End Ingest.

Import Ingest.

(** ** The Model Fitting Engine

    [inspect_results.py] holds only the call of [fit_dbm] (lines 276-298);
    [fit_dbm] and the likelihoods [nll_unix], [nll_uniy], [nll_glc] live in
    [util_func_dbm], which is not part of the sources at hand.  The arguments
    of the call are taken from the script; the engine itself follows
    sections 4.1 to 4.4 of the specification. *)

Module Dbm.

(** The three likelihood functions named at the call site. *)
Inductive Family : Type := unix | uniy | glc.

(** Lines 276-294. *)
Definition models : list Family := [unix; unix; uniy; uniy; glc; glc].
Definition side : list Z := [0; 1; 0; 1; 0; 1; 0; 1; 2; 3]%Z.
Definition k : list Z := [2; 2; 2; 2; 3; 3; 3; 3; 3; 3]%Z.
Definition n : Z := block_size.
Definition model_names : list string :=
  [ "nll_unix_0"; "nll_unix_1"; "nll_uniy_0"; "nll_uniy_1";
    "nll_glc_0"; "nll_glc_1" ]%string.

(** A Fit Result of the data model: family and side, the model identifier,
    the fitted parameters, the negative log-likelihood reached, the sample
    size used and the BIC. *)
Record FitResult : Type := mkFitResult {
  fr_family : Family;
  fr_side : Z;
  fr_k : Z;
  fr_model : string;
  fr_p : list R;
  fr_nll : R;
  fr_n : nat;
  fr_bic : R
}.

Section Engine.
Open Scope R_scope.

(** The standard normal distribution function as the program evaluates it;
    nothing is assumed of it, so a value of exactly 0 or 1 is allowed. *)
Variable Phi : R -> R.

(** The clamping bound, the penalty returned for a noise scale that is not
    positive, and the optimizer behind its interface
    [minimize(objective, initial_guess) -> (params, value)]. *)
Variable eps : R.
Variable penalty : R.
Variable minimize : (list R -> R) -> list R -> list R * R.
Variable initial_guess : Family -> list Trial -> list R.

(** Modelled from the spec: the decision functions of section 4.1, missing
    with [util_func_dbm].  The noise scale is the last parameter. *)
Definition discriminant (f : Family) (params : list R) (px py : R) : R :=
  match f, params with
  | unix, bound :: _ => px - bound
  | uniy, bound :: _ => py - bound
  | glc, slope :: intercept :: _ => slope * px + intercept - py
  | _, _ => 0
  end.

Definition sigma_of (params : list R) : R := last params 0.

(** Modelled from the spec: [side_sign] of section 4.2, +1 for side 0 and -1
    for side 1. *)
Definition side_sign (s : Z) : R := if (s =? 1)%Z then -1 else 1.

(** [np.clip(v, lo, hi)]. *)
Definition clip (v lo hi : R) : R := Rmin (Rmax v lo) hi.

(** Modelled from the spec: the response probability of section 4.2,
    [p(A) = Phi(-side_sign * d / sigma)], clamped to [[eps, 1 - eps]]. *)
Definition p_A (f : Family) (s : Z) (params : list R) (t : Trial) : R :=
  clip (Phi (- side_sign s * discriminant f params (Q2R (t_x t)) (Q2R (t_y t))
             / sigma_of params))
       eps (1 - eps).

Definition trial_log_lik (f : Family) (s : Z) (params : list R) (t : Trial) : R :=
  if String.eqb (t_resp t) "A" then ln (p_A f s params t)
  else ln (1 - p_A f s params t).

(** Modelled from the spec: the negative log-likelihood of section 4.2, with
    the penalty of its contract when the noise scale is not positive. *)
Definition nll (f : Family) (s : Z) (g : list Trial) (params : list R) : R :=
  if Rle_dec (sigma_of params) 0 then penalty
  else - fold_right Rplus 0 (map (trial_log_lik f s params) g).

(** Modelled from the spec: one optimizer run of section 4.4 on the trials
    [g] of a group, with [BIC = k * ln(n) + 2 * NLL_min], [n] being the
    number of trials fit. *)
Definition fit_one (g : list Trial) (job : Family * (Z * (Z * string)))
  : FitResult :=
  match job with
  | (f, (s, (kk, name))) =>
      let res := minimize (nll f s g) (initial_guess f g) in
      let n_fit := List.length g in
      mkFitResult f s kk name (fst res) (snd res) n_fit
                  (IZR kk * ln (INR n_fit) + 2 * snd res)
  end.

(** Modelled from the spec: [fit_dbm] of section 4.4, missing with
    [util_func_dbm].  The lists are read position by position, one job per
    entry of [models]; a group without trials is reported unfit (no Fit
    Result).  [bs] is the [block_size] the caller hands over. *)
Definition fit_dbm (g : list Trial) (ms : list Family) (ss ks : list Z)
  (bs : Z) (names : list string) : list FitResult :=
  match g with
  | [] => []
  | _ => map (fit_one g) (combine ms (combine ss (combine ks names)))
  end.

(** Line 297: [d.groupby(["subject", "day"]).apply(fit_dbm, models, side, k,
    n, model_names)], every Fit Result with the key of its group. *)
Definition fit_groups (d : list Trial) : list (key * FitResult) :=
  flat_map (fun kg => map (fun fr => (fst kg, fr))
                          (fit_dbm (snd kg) models side k n model_names))
           (groupby trial_key d).

End Engine.
End Dbm.

(** ** The Fit Result table ([inspect_results.py], lines 296-302) *)

Module Script.

Definition Rleb (x y : R) : bool := if Rle_dec x y then true else false.

Lemma Rleb_total : forall x y : R, Rleb x y = true \/ Rleb y x = true.
Proof.
  intros x y. unfold Rleb. destruct (Rle_dec x y), (Rle_dec y x); auto.
  exfalso. lra.
Qed.

Lemma Rleb_trans :
  forall x y z : R, Rleb x y = true -> Rleb y z = true -> Rleb x z = true.
Proof.
  intros x y z. unfold Rleb.
  destruct (Rle_dec x y), (Rle_dec y z), (Rle_dec x z); auto; try discriminate.
  intros _ _. exfalso. lra.
Qed.

#[global] Instance Score_R : Score R :=
  {| sleb := Rleb; sleb_total := Rleb_total; sleb_trans := Rleb_trans |}.

(** A row of the Fit Result table as fitted (with the columns nll and p), and
    as kept by line 302 after loading (with p only). *)
Definition FullRow : Type := FitRow R (R * list R).
Definition LoadedRow : Type := FitRow R (list R).

(** [.reset_index()] of line 298: the group key becomes the columns
    subject and day.  Whether the frame [fit_dbm] returns carries an index
    that becomes a further column here is not visible in the source; such a
    column has no part in the selection and is left out (it would make the
    [reset_index] of line 313 raise on the run that fits, which is why no
    statement below asserts that the selector returns on this table). *)
Definition reset_index (kf : key * Dbm.FitResult) : FullRow :=
  mkFitRow (fst (fst kf)) (snd (fst kf)) (Dbm.fr_model (snd kf))
           (Dbm.fr_bic (snd kf)) (Dbm.fr_nll (snd kf), Dbm.fr_p (snd kf)).

(** Line 302: [dbm[["subject", "day", "model", "bic", "p"]]]. *)
Definition keep_columns (r : FullRow) : LoadedRow := map_rest (@snd R (list R)) r.

End Script.

(** ** Inclusion criteria ([inspect_results.py], lines 244-272) *)

Module Analysis.

(** [pd.concat(frames, ignore_index=True)]; pandas raises on an empty list
    of frames. *)
Definition pd_concat (frames : list (list Row)) : option (list Row) :=
  match frames with
  | [] => None
  | _ => Some (List.concat frames)
  end.

(** [table.subject.unique()], as a sorted array. *)
Definition subjects (rows : list Row) : list Z :=
  sort_unique Z.leb (map r_subject rows).

(** [np.intersect1d(a, b)]. *)
Definition intersect1d (a b : list Z) : list Z :=
  filter (fun s => isin s b) (sort_unique Z.leb a).

(** Lines 245-256. *)
Definition subs_to_keep (d d_dt d_bs d_lab : list Row) : list Z :=
  let all_subs :=
    sort_unique Z.leb (subjects d ++ subjects d_dt ++ subjects d_bs
                       ++ subjects d_lab) in
  intersect1d
    (intersect1d
       (intersect1d (intersect1d all_subs (subjects d)) (subjects d_dt))
       (subjects d_bs))
    (subjects d_lab).

(** Lines 267-269: [acc_stroop], missing where [ns_correct_side] is. *)
Definition acc_stroop (r : Row) : option Z :=
  match r_ns_correct_side r with
  | None => None
  | Some c =>
      match r_ns_resp r with
      | Some a => Some (if String.eqb c a then 1%Z else 0%Z)
      | None => Some 0%Z
      end
  end.

Definition stroop_scores (rows : list Row) (s : Z) : list Z :=
  flat_map (fun r => if (r_subject r =? s)%Z
                     then match acc_stroop r with Some a => [a] | None => [] end
                     else [])
           rows.

(** Lines 270-272: the subject's mean Stroop accuracy is at least 0.8; a
    subject without any Stroop trial has a missing mean and is dropped. *)
Definition stroop_ok (rows : list Row) (s : Z) : bool :=
  let scores := stroop_scores rows s in
  let total := Z.of_nat (List.length scores) in
  let correct := fold_right Z.add 0%Z scores in
  (0 <? total)%Z && (4 * total <=? 5 * correct)%Z.

(** The subjects left in [d_all] after line 272.  The day, trial and block
    columns recomputed for the other three tables (lines 210-242, 260) play
    no part in which subjects remain and are left out. *)
Definition included_subjects (d d_dt d_bs d_lab : list Row) : list Z :=
  filter (stroop_ok (d ++ d_dt ++ d_bs ++ d_lab))
         (subs_to_keep d d_dt d_bs d_lab).

End Analysis.

(** ** The trial loop of the 2026 experiment
    ([cat_learn_auto_pace_2026_s1/code/run_exp.py]) *)

Module RunExp.

Definition n_train : Z := 550.
Definition n_test : Z := 100.
Definition n_total : Z := n_train + n_test.

Inductive Phase : Type := train | test.

(** A row of the stimulus table [ds] of lines 199-216. *)
Record Stim : Type := mkStim {
  s_cat : string;
  s_x : Q;
  s_y : Q;
  s_xt : Q;
  s_yt : Q;
  s_phase : Phase
}.

(** A row of [trial_data], which is also a row of the day file. *)
Record DataRow : Type := mkDataRow {
  d_subject : string;
  d_day : Z;
  d_trial : Z;
  d_cat : string;
  d_x : Q;
  d_y : Q;
  d_xt : Q;
  d_yt : Q;
  d_resp : option string;
  d_rt : option float;
  d_fb : string
}.

Inductive State : Type :=
| state_init | state_finished | state_iti | state_stim | state_feedback.

(** The variables of the main loop, and [disk], the content of the day file
    at [full_path] ([None] while the file does not exist).  [resp] and [rt]
    are [None] where the script holds -1; a reaction time is a binary64
    number, as [k.rt * 1000.0] is. *)
Record Machine : Type := mkMachine {
  running : bool;
  state_current : State;
  state_entry : bool;
  resp : option string;
  rt : option float;
  trial : Z;
  cat : string;
  fb : string;
  trial_data : list DataRow;
  disk : option (list DataRow)
}.

(** What one pass of the loop reads from the outside: the escape key, the
    space bar, the last of the keys 'd' and 'k' pressed with its reaction
    time [k.rt] in seconds, and [time_state], the state clock in
    milliseconds as computed after the entry block.  [time_state] is only
    compared with 1000; it is a finite binary64 number, given here as the
    rational it is. *)
Record Frame : Type := mkFrame {
  escape : bool;
  space : bool;
  key_pressed : option (string * float);
  time_state : Q
}.

Section Session.
(** [subject] comes from [participant_info.json]; [ds] is the shuffled
    stimulus table.  The script assigns [day] nowhere: the name is bound
    only if [from util_func import *] (line 16) binds it.  [day] is the
    value so bound, and [None] when the name is unbound, in which case
    reading it at line 499 raises [NameError]. *)
Variable subject : string.
Variable day : option Z.
Variable ds : list Stim.

(** [ds[col].iloc[trial]]; an index out of range raises. *)
Definition iloc (i : Z) : option Stim :=
  if (i <? 0)%Z then
    if (Z.of_nat (List.length ds) + i <? 0)%Z then None
    else nth_error ds (Z.to_nat (Z.of_nat (List.length ds) + i))
  else nth_error ds (Z.to_nat i).

(** Lines 163-196 and 300-322: the files of today found in the data folder
    decide [n_done]; [None] is [sys.exit()].  [trial] is assigned twice, as
    in the script. *)
Definition startup (existing : list (string * list DataRow)) : option Machine :=
  match existing with
  | _ :: _ :: _ => None
  | _ =>
      let n_done := match existing with
                    | [(_, rows)] => Z.of_nat (List.length rows)
                    | _ => 0%Z
                    end in
      let disk0 := match existing with
                   | [(_, rows)] => Some rows
                   | _ => None
                   end in
      if (n_total <=? n_done)%Z then None
      else
        let trial := (n_done - 1)%Z in
        let trial := (-1)%Z in
        Some (mkMachine true state_init true None None trial
                        EmptyString EmptyString [] disk0)
  end.

Definition with_state (m : Machine) (s : State) (entry : bool) : Machine :=
  mkMachine (running m) s entry (resp m) (rt m) (trial m) (cat m) (fb m)
            (trial_data m) (disk m).

(** One pass of the [while running] loop (lines 326-520); [None] is an
    exception, raised where the script indexes [ds] out of range or reads
    [day] unbound.  The EEG port is disabled and the drawing calls leave the
    variables alone. *)
Definition step (fr : Frame) (m : Machine) : option Machine :=
  if escape fr then
    Some (mkMachine false (state_current m) (state_entry m) (resp m) (rt m)
                    (trial m) (cat m) (fb m) (trial_data m) (disk m))
  else
    match state_current m with
    | state_init =>
        if space fr then Some (with_state m state_iti true)
        else Some (with_state m state_init false)
    | state_finished => Some (with_state m state_finished false)
    | state_iti =>
        if Qlt_le_dec 1000 (time_state fr) then
          let trial' := (trial m + 1)%Z in
          if (n_total <=? trial')%Z then
            Some (mkMachine true state_finished true None None trial'
                            (cat m) (fb m) (trial_data m) (disk m))
          else
            match iloc trial' with
            | None => None
            | Some st =>
                Some (mkMachine true state_stim true None None trial'
                                (s_cat st) (fb m) (trial_data m) (disk m))
            end
        else Some (with_state m state_iti false)
    | state_stim =>
        match key_pressed fr with
        | None =>
            if state_entry m then
              match iloc (trial m) with
              | None => None
              | Some _ => Some (with_state m state_stim false)
              end
            else Some (with_state m state_stim false)
        | Some (name, secs) =>
            match iloc (trial m) with
            | None => None
            | Some _ =>
                let resp_label := if String.eqb name "d" then "A"%string
                                  else "B"%string in
                let fb' := if String.eqb (cat m) resp_label
                           then "Correct"%string else "Incorrect"%string in
                Some (mkMachine true state_feedback true (Some resp_label)
                                (Some (secs * 1000)%float) (trial m) (cat m)
                                fb' (trial_data m) (disk m))
            end
        end
    | state_feedback =>
        if Qlt_le_dec 1000 (time_state fr) then
          match day, iloc (trial m) with
          | Some dy, Some st =>
              let row := mkDataRow subject dy (trial m) (s_cat st) (s_x st)
                                   (s_y st) (s_xt st) (s_yt st) (resp m)
                                   (rt m) (fb m) in
              let trial_data' := trial_data m ++ [row] in
              Some (mkMachine true state_iti true None None (trial m) (cat m)
                              (fb m) trial_data' (Some trial_data'))
          | _, _ => None
          end
        else if state_entry m then
          match iloc (trial m) with
          | None => None
          | Some _ => Some (with_state m state_feedback false)
          end
        else Some (with_state m state_feedback false)
    end.

(** The loop over the passes; it ends when [running] is false. *)
Fixpoint run (frames : list Frame) (m : Machine) : option Machine :=
  match frames with
  | [] => Some m
  | fr :: frames' =>
      if running m then
        match step fr m with
        | Some m' => run frames' m'
        | None => None
        end
      else Some m
  end.

End Session.
End RunExp.

(** ** The EEG trigger port
    ([run_exp.py], class [EEGPort], the same in both experiments) *)

Module EEG.

Definition EEG_ENABLED : bool := false.
Definition EEG_DEFAULT_PULSE_MS : float := 10%float.

(** The table [TRIG] of the 2026 experiment and of the 2025 experiment. *)
Definition TRIG : list (string * Z) :=
  [ ("EXP_START", 10); ("ITI_ONSET", 11); ("EXP_END", 15);
    ("STIM_ONSET_A_TRAIN", 20); ("STIM_ONSET_B_TRAIN", 21);
    ("STIM_ONSET_A_PROBE", 22); ("STIM_ONSET_B_PROBE", 23);
    ("RESP_A_TRAIN", 30); ("RESP_B_TRAIN", 31);
    ("RESP_A_PROBE", 32); ("RESP_B_PROBE", 33);
    ("FB_COR_TRAIN", 40); ("FB_INC_TRAIN", 41);
    ("FB_COR_PROBE", 42); ("FB_INC_PROBE", 43) ]%string%Z.

Definition TRIG_2025 : list (string * Z) :=
  [ ("EXP_START", 10); ("ITI_ONSET", 11);
    ("STIM_ONSET_A", 20); ("STIM_ONSET_B", 21);
    ("RESP_A", 30); ("RESP_B", 31);
    ("FB_COR", 40); ("FB_INC", 41); ("EXP_END", 15) ]%string%Z.

(** [TRIG[name]]; a missing key raises. *)
Fixpoint trig (table : list (string * Z)) (name : string) : option Z :=
  match table with
  | [] => None
  | (k, v) :: table' => if String.eqb k name then Some v else trig table' name
  end.

(** An [EEGPort] object.  [port] is [None] while [self._port] is [None]
    and otherwise holds every value handed to [setData], oldest first;
    [scheduled] holds the values handed to [win.callOnFlip(setData, ...)],
    oldest first.  Clock readings, pulse widths and the due time
    [_clear_at] are binary64 numbers, as in the script; a clock reading is
    in seconds, and the integer default width 10 is the float 10 that the
    division by [1000.0] makes of it. *)
Record EEGPort : Type := mkEEGPort {
  enabled : bool;
  default_ms : float;
  port : option (list Z);
  clear_at : option float;
  scheduled : list Z
}.

(** [__init__]; [available] tells whether [parallel.ParallelPort(...)]
    succeeds. *)
Definition init (enabled0 : bool) (default_ms0 : float) (available : bool)
  : EEGPort :=
  if negb enabled0 then mkEEGPort enabled0 default_ms0 None None []
  else if available then mkEEGPort true default_ms0 (Some []) None []
       else mkEEGPort false default_ms0 None None [].

(** [self.enabled and self._port]. *)
Definition active (p : EEGPort) : bool :=
  enabled p && match port p with Some _ => true | None => false end.

Definition setData (v : Z) (p : EEGPort) : EEGPort :=
  mkEEGPort (enabled p) (default_ms p)
            (match port p with Some w => Some (w ++ [v]) | None => None end)
            (clear_at p) (scheduled p).

Definition set_clear_at (c : option float) (p : EEGPort) : EEGPort :=
  mkEEGPort (enabled p) (default_ms p) (port p) c (scheduled p).

Definition width_of (p : EEGPort) (width_ms : option float) : float :=
  match width_ms with None => default_ms p | Some w => w end.

(** [int(code) & 0xFF]. *)
Definition byte_of (code : Z) : Z := Z.land code 255.

(** [getTime() + (width_ms / 1000.0)], in binary64 arithmetic. *)
Definition due_time (now width : float) : float :=
  (now + width / 1000)%float.

(** [flip_pulse(code, width_ms, global_clock)]; [global_clock] is the
    reading of the clock when one is passed. *)
Definition flip_pulse (code : Z) (width_ms : option float)
  (global_clock : option float) (p : EEGPort) : EEGPort :=
  if negb (active p) then p
  else
    let width := width_of p width_ms in
    let p := mkEEGPort (enabled p) (default_ms p) (port p) (clear_at p)
                       (scheduled p ++ [byte_of code]) in
    match global_clock with
    | Some now => set_clear_at (Some (due_time now width)) p
    | None => p
    end.

Definition pulse_now (code : Z) (width_ms : option float)
  (global_clock : option float) (p : EEGPort) : EEGPort :=
  if negb (active p) then p
  else
    let width := width_of p width_ms in
    let p := setData (byte_of code) p in
    match global_clock with
    | Some now => set_clear_at (Some (due_time now width)) p
    | None => p
    end.

(** [update(global_clock)]; [getTime() >= self._clear_at] is the binary64
    comparison. *)
Definition update (global_clock : option float) (p : EEGPort) : EEGPort :=
  if negb (active p) then p
  else
    match clear_at p, global_clock with
    | Some c, Some now =>
        if PrimFloat.leb c now then set_clear_at None (setData 0 p) else p
    | _, _ => p
    end.

Definition close (p : EEGPort) : EEGPort :=
  match port p with
  | Some _ => setData 0 p
  | None => p
  end.

(** A call of one of the four methods, and a sequence of calls on one
    object. *)
Inductive Call : Type :=
| call_flip_pulse (code : Z) (width_ms global_clock : option float)
| call_pulse_now (code : Z) (width_ms global_clock : option float)
| call_update (global_clock : option float)
| call_close.

Definition call (c : Call) (p : EEGPort) : EEGPort :=
  match c with
  | call_flip_pulse code w g => flip_pulse code w g p
  | call_pulse_now code w g => pulse_now code w g p
  | call_update g => update g p
  | call_close => close p
  end.

Definition calls (cs : list Call) (p : EEGPort) : EEGPort :=
  fold_left (fun q c => call c q) cs p.

End EEG.

(** ** The trial loop of the 2025 experiment
    ([cat_learn_auto_pace_2025_s2/code/run_exp.py]) *)

Module RunExp2025.

Definition subject : Z := 503.
Definition day : Z := 1.

(** A row of the stimulus table [ds] of lines 124-125. *)
Record Stim : Type := mkStim {
  s_cat : string;
  s_x : Q;
  s_y : Q;
  s_xt : Q;
  s_yt : Q
}.

(** A row of [trial_data], which is also a row of the day file. *)
Record DataRow : Type := mkDataRow {
  d_subject : Z;
  d_day : Z;
  d_trial : Z;
  d_cat : string;
  d_x : Q;
  d_y : Q;
  d_xt : Q;
  d_yt : Q;
  d_resp : option string;
  d_rt : option float;
  d_fb : string
}.

(** The variables of the main loop and the day file, as in the 2026
    experiment; the states and the inputs of a pass are the same. *)
Record Machine : Type := mkMachine {
  running : bool;
  state_current : RunExp.State;
  state_entry : bool;
  resp : option string;
  rt : option float;
  trial : Z;
  cat : string;
  fb : string;
  trial_data : list DataRow;
  disk : option (list DataRow)
}.

Section Session.
Variable ds : list Stim.

(** [n_trial = ds.shape[0]]. *)
Definition n_trial : Z := Z.of_nat (List.length ds).

(** [ds[col].iloc[trial]]; an index out of range raises. *)
Definition iloc (i : Z) : option Stim :=
  if (i <? 0)%Z then
    if (Z.of_nat (List.length ds) + i <? 0)%Z then None
    else nth_error ds (Z.to_nat (Z.of_nat (List.length ds) + i))
  else nth_error ds (Z.to_nat i).

(** Lines 119-121 and 211-232: the script stops ([None]) when the day file
    already exists. *)
Definition startup (on_disk : option (list DataRow)) : option Machine :=
  match on_disk with
  | Some _ => None
  | None =>
      Some (mkMachine true RunExp.state_init true None None (-1)
                      EmptyString EmptyString [] None)
  end.

Definition with_state (m : Machine) (s : RunExp.State) (entry : bool) : Machine :=
  mkMachine (running m) s entry (resp m) (rt m) (trial m) (cat m) (fb m)
            (trial_data m) (disk m).

(** One pass of the [while running] loop (lines 236-401); [None] is an
    exception, raised where the script indexes [ds] out of range. *)
Definition step (fr : RunExp.Frame) (m : Machine) : option Machine :=
  if RunExp.escape fr then
    Some (mkMachine false (state_current m) (state_entry m) (resp m) (rt m)
                    (trial m) (cat m) (fb m) (trial_data m) (disk m))
  else
    match state_current m with
    | RunExp.state_init =>
        if RunExp.space fr then Some (with_state m RunExp.state_iti true)
        else Some (with_state m RunExp.state_init false)
    | RunExp.state_finished => Some (with_state m RunExp.state_finished false)
    | RunExp.state_iti =>
        if Qlt_le_dec 1000 (RunExp.time_state fr) then
          let trial' := (trial m + 1)%Z in
          if (n_trial <=? trial')%Z then
            Some (mkMachine true RunExp.state_finished true None None trial'
                            (cat m) (fb m) (trial_data m) (disk m))
          else
            match iloc trial' with
            | None => None
            | Some st =>
                Some (mkMachine true RunExp.state_stim true None None trial'
                                (s_cat st) (fb m) (trial_data m) (disk m))
            end
        else Some (with_state m RunExp.state_iti false)
    | RunExp.state_stim =>
        match RunExp.key_pressed fr with
        | None => Some (with_state m RunExp.state_stim false)
        | Some (name, secs) =>
            let resp_label := if String.eqb name "d" then "A"%string
                              else "B"%string in
            let fb' := if String.eqb (cat m) resp_label
                       then "Correct"%string else "Incorrect"%string in
            Some (mkMachine true RunExp.state_feedback true (Some resp_label)
                            (Some (secs * 1000)%float) (trial m) (cat m)
                            fb' (trial_data m) (disk m))
        end
    | RunExp.state_feedback =>
        if Qlt_le_dec 1000 (RunExp.time_state fr) then
          match iloc (trial m) with
          | None => None
          | Some st =>
              let row := mkDataRow subject day (trial m) (s_cat st) (s_x st)
                                   (s_y st) (s_xt st) (s_yt st) (resp m)
                                   (rt m) (fb m) in
              let trial_data' := trial_data m ++ [row] in
              Some (mkMachine true RunExp.state_iti true None None (trial m)
                              (cat m) (fb m) trial_data' (Some trial_data'))
          end
        else Some (with_state m RunExp.state_feedback false)
    end.

(** The loop over the passes; it ends when [running] is false. *)
Fixpoint run (frames : list RunExp.Frame) (m : Machine) : option Machine :=
  match frames with
  | [] => Some m
  | fr :: frames' =>
      if running m then
        match step fr m with
        | Some m' => run frames' m'
        | None => None
        end
      else Some m
  end.

End Session.
End RunExp2025.

(** ** The dual-task, button-switch and lab tables and the merged table
    ([inspect_results.py], lines 210-261) *)

Module Sessions.

(** [d_dt['day'].map({1: 22})] and [d_bs['day'].map({1: 23, 2: 24})]: a
    rank that is no key of the dict becomes a missing value. *)
Definition dt_day (rank : Z) : option Z :=
  if (rank =? 1)%Z then Some 22%Z else None.

Definition bs_day (rank : Z) : option Z :=
  if (rank =? 1)%Z then Some 23%Z
  else if (rank =? 2)%Z then Some 24%Z
  else None.

(** One row of [d_dt] or [d_bs] with the columns recomputed by lines
    212-216 and 223-227.  The column [n_trials], a count over groups keyed
    by the mapped day, is left out. *)
Record SessionRow : Type := mkSessionRow {
  q_f_name : string;
  q_subject : Z;
  q_day : option Z;
  q_trial : Z;
  q_acc : Z
}.

Fixpoint assign_session (day_map : Z -> option Z) (T : list Row)
  (above : list Z) (rest : list Row) : list SessionRow :=
  match rest with
  | [] => []
  | r :: rest' =>
      mkSessionRow (r_f_name r) (r_subject r) (day_map (dense_rank T r))
                   (cumcount above (r_subject r)) (acc_of r)
      :: assign_session day_map T (above ++ [r_subject r]) rest'
  end.

(** Lines 210-216 and 221-227. *)
Definition session_table (day_map : Z -> option Z) (recs : list (list Row))
  : list SessionRow :=
  let T := sort_values (List.concat recs) in
  assign_session day_map T [] T.

Definition dual_task_table : list (list Row) -> list SessionRow :=
  session_table dt_day.

Definition button_switch_table : list (list Row) -> list SessionRow :=
  session_table bs_day.

(** [d_lab['day'].map({1: 0.5, 2: 4.5, 3: 8.5, 4: 12.5, 5: 21})]; the
    numbers are exact in binary64. *)
Definition lab_day (rank : Z) : option Q :=
  if (rank =? 1)%Z then Some (1 # 2)
  else if (rank =? 2)%Z then Some (9 # 2)
  else if (rank =? 3)%Z then Some (17 # 2)
  else if (rank =? 4)%Z then Some (25 # 2)
  else if (rank =? 5)%Z then Some (21 # 1)
  else None.

(** One row of [d_lab] with the columns recomputed by lines 235-239.  The
    columns [n_trials] and [block], computed over groups keyed by the mapped
    day, are left out. *)
Record LabRow : Type := mkLabRow {
  l_f_name : string;
  l_subject : Z;
  l_day : option Q;
  l_trial : Z;
  l_acc : Z
}.

Fixpoint assign_lab (T : list Row) (above : list Z) (rest : list Row)
  : list LabRow :=
  match rest with
  | [] => []
  | r :: rest' =>
      mkLabRow (r_f_name r) (r_subject r) (lab_day (dense_rank T r))
               (cumcount above (r_subject r)) (acc_of r)
      :: assign_lab T (above ++ [r_subject r]) rest'
  end.

(** Lines 234-239; the lab frames are concatenated and not sorted. *)
Definition lab_table (frames : list (list Row)) : list LabRow :=
  let T := List.concat frames in
  assign_lab T [] T.

(** The columns subject and day of [d_all] after line 259: the four tables
    one under the other.  The day column holds the ranks of the training
    table, the mapped days of the other three, and [None] for a missing
    day. *)
Definition merged_days (d : list Trial) (d_dt d_bs : list SessionRow)
  (d_lab : list LabRow) : list (Z * option Q) :=
  map (fun t => (t_subject t, Some (inject_Z (t_day t)))) d
  ++ map (fun q => (q_subject q, option_map inject_Z (q_day q))) d_dt
  ++ map (fun q => (q_subject q, option_map inject_Z (q_day q))) d_bs
  ++ map (fun l => (l_subject l, l_day l)) d_lab.

(** The rows when no day is missing. *)
Fixpoint all_present (rows : list (Z * option Q)) : option (list (Z * Q)) :=
  match rows with
  | [] => Some []
  | (s, Some dy) :: rows' =>
      match all_present rows' with
      | Some rs => Some ((s, dy) :: rs)
      | None => None
      end
  | (_, None) :: _ => None
  end.

(** The dense rank of a day among the days of the same subject. *)
Definition day_rank (rows : list (Z * Q)) (r : Z * Q) : Z :=
  Z.of_nat
    (List.length
       (filter (fun dy => Qle_bool dy (snd r))
               (sort_unique Qle_bool
                  (map (@snd Z Q)
                       (filter (fun r' => (fst r' =? fst r)%Z) rows))))).

(** Lines 260-261: [rank(method='dense')] leaves a missing day missing, and
    [astype(int)] raises on a missing value. *)
Definition rank_days (rows : list (Z * option Q)) : option (list (Z * Z)) :=
  match all_present rows with
  | Some rs => Some (map (fun r => (fst r, day_rank rs r)) rs)
  | None => None
  end.

(** Lines 198-261, from the frames of the file loops to the subject and
    day columns of [d_all].  [None] is an exception: the file loop raises,
    [pd.concat] is handed an empty list, or line 261 meets a missing
    day.  The files are taken to hold the columns the script reads. *)
Definition all_sessions (home lab : list DataFile) : option (list (Z * Z)) :=
  match load_files no_recs home with
  | None => None
  | Some recs =>
      let lab_recs := load_lab_files lab in
      match Analysis.pd_concat (df_train_rec recs),
            Analysis.pd_concat (df_dt_rec recs),
            Analysis.pd_concat (df_bs_rec recs),
            Analysis.pd_concat lab_recs with
      | Some _, Some _, Some _, Some _ =>
          rank_days (merged_days (training_table (df_train_rec recs))
                                 (dual_task_table (df_dt_rec recs))
                                 (button_switch_table (df_bs_rec recs))
                                 (lab_table lab_recs))
      | _, _, _, _ => None
      end
  end.

End Sessions.

(** * Properties *)

(** ** The selector evaluated *)

Example split_name : split_on "_"%char "nll_unix_0" = ["nll"; "unix"; "0"]%string.
Proof. reflexivity. Qed.

Example class_glc : strategy_class "nll_glc_1" = "procedural"%string.
Proof. reflexivity. Qed.

Example class_uniy : strategy_class "nll_uniy_0" = "rule-based"%string.
Proof. reflexivity. Qed.

Definition demo_fits : list (FitRow Q unit) :=
  [ mkFitRow 1 1 "nll_unix_0" (7 # 2) tt;
    mkFitRow 1 1 "nll_glc_0" (5 # 2) tt;
    mkFitRow 1 1 "nll_glc_1" (10 # 4) tt;
    mkFitRow 2 1 "nll_uniy_1" (1 # 1) tt;
    mkFitRow 1 2 "nll_unix_1" (9 # 1) tt ].

Example demo_select :
  select demo_fits =
  Some [ mkAssignment 1 1 (5 # 2) "nll_glc_0" "procedural";
         mkAssignment 1 2 (9 # 1) "nll_unix_1" "rule-based";
         mkAssignment 2 1 (1 # 1) "nll_uniy_1" "rule-based" ].
Proof. vm_compute. reflexivity. Qed.

(** ** Facts about the selector *)

Section SelectorFacts.
Context {B : Type} {SB : Score B}.
Variable X : Type.

Lemma smin_cases :
  forall x z : B,
    sleb (smin x z) x = true /\ sleb (smin x z) z = true /\
    (smin x z = x \/ smin x z = z).
Proof.
  intros x z. unfold smin. destruct (sleb x z) eqn:E.
  - repeat split; auto using sleb_refl.
  - repeat split; auto using sleb_refl.
    destruct (sleb_total x z); congruence.
Qed.

Lemma fold_smin_spec :
  forall (l : list B) (x : B),
    (fold_left smin l x = x \/ In (fold_left smin l x) l) /\
    sleb (fold_left smin l x) x = true /\
    (forall y, In y l -> sleb (fold_left smin l x) y = true).
Proof.
  induction l as [|z l IH]; intros x; simpl.
  - repeat split; auto using sleb_refl.
  - destruct (IH (smin x z)) as [Hin [Hle Hall]].
    destruct (smin_cases x z) as [H1 [H2 H3]].
    repeat split.
    + destruct Hin as [E|Hin]; [|auto].
      rewrite E. destruct H3 as [->| ->]; auto.
    + eapply sleb_trans; eauto.
    + intros y [<-|Hy]; [eapply sleb_trans; eauto|auto].
Qed.

Lemma array_min_spec :
  forall l : list B, l <> [] ->
    exists m, array_min l = Some m /\ In m l /\
              forall y, In y l -> sleb m y = true.
Proof.
  intros [|x l] Hl; [congruence|]. simpl.
  destruct (fold_smin_spec l x) as [Hin [Hle Hall]].
  exists (fold_left smin l x). repeat split.
  - destruct Hin as [->|Hin]; [left; reflexivity|right; assumption].
  - intros y [<-|Hy]; auto.
Qed.

(** A row attains the minimum BIC of its group. *)
Definition is_min_bic (g : list (FitRow B X)) (r : FitRow B X) : Prop :=
  In r g /\ forall r', In r' g -> sleb (bic r) (bic r') = true.

(** On a non-empty group the best model exists, is the name of a row of
    minimum BIC, and is the first name among all rows of minimum BIC. *)
Lemma best_model_of_spec :
  forall g : list (FitRow B X), g <> [] ->
    exists best,
      best_model_of g = Some best /\
      (exists r, is_min_bic g r /\ model r = best) /\
      (forall r', is_min_bic g r' -> String.leb best (model r') = true).
Proof.
  intros g Hg. unfold best_model_of.
  destruct (array_min_spec (l := map (@bic B X) g)) as [m [Em [Hm Hall]]].
  { destruct g; [congruence|discriminate]. }
  rewrite Em. apply in_map_iff in Hm. destruct Hm as [r0 [Er0 Hr0]].
  set (names := map (@model B X) (filter (fun r => seqb (bic r) m) g)).
  assert (Hne : names <> []).
  { intro E. assert (In (model r0) names).
    { apply in_map. apply filter_In. split; [assumption|].
      rewrite Er0. apply seqb_refl. }
    rewrite E in H. contradiction. }
  destruct (sort_unique String.leb names) as [|best tl] eqn:Es.
  { exfalso. revert Es. apply sort_unique_nonempty; [apply String.leb_antisym|assumption]. }
  destruct (sort_unique_head_least String.leb String.leb_total string_leb_trans
              String.leb_antisym names Es) as [Hb Hleast].
  exists best. split; [reflexivity|]. split.
  - apply in_map_iff in Hb. destruct Hb as [r [Er Hr]].
    apply filter_In in Hr. destruct Hr as [Hr Hs].
    exists r. split; [|assumption]. split; [assumption|].
    intros r' Hr'. unfold seqb in Hs. apply andb_true_iff in Hs.
    apply sleb_trans with m; [tauto|]. apply Hall. apply in_map. assumption.
  - intros r' [Hr' Hmin]. apply Hleast. apply in_map. apply filter_In.
    split; [assumption|]. unfold seqb. apply andb_true_iff. split.
    + rewrite <- Er0. apply Hmin. assumption.
    + apply Hall. apply in_map. assumption.
Qed.

(** The best model of a group, with a default where the script raises. *)
Definition best_or (g : list (FitRow B X)) : string :=
  match best_model_of g with Some b => b | None => EmptyString end.

(** The rows one group contributes to the four-column table of line 315. *)
Definition winners (g : list (FitRow B X)) : list (@Kept B) :=
  map (@kept_cols B X)
      (filter (fun rb => String.eqb (model (fst rb)) (snd rb))
              (map (fun r => (r, best_or g)) g)).

Lemma apply_groups_Some :
  forall gs : list (key * list (FitRow B X)),
    (forall k g, In (k, g) gs -> g <> []) ->
    exists rows,
      apply_groups gs = Some rows /\
      map (@kept_cols B X)
          (filter (fun rb => String.eqb (model (fst rb)) (snd rb)) rows)
      = flat_map (fun kg => winners (snd kg)) gs.
Proof.
  induction gs as [|[k g] gs IH]; intros Hne; simpl.
  - exists []. auto.
  - destruct IH as [rows [E1 E2]].
    { intros k' g' Hin. apply (Hne k'). right. assumption. }
    destruct (best_model_of_spec (g := g)) as [best [Eb _]].
    { apply (Hne k). left. reflexivity. }
    unfold assign_best_model. rewrite Eb, E1.
    eexists. split; [reflexivity|].
    rewrite filter_app, map_app, E2. f_equal.
    unfold winners, best_or. rewrite Eb. reflexivity.
Qed.

(** The de-duplicated list of the winners of the groups, in key order. *)
Definition selected (T : list (FitRow B X)) : list (Assignment B) :=
  map (@with_class B)
      (drop_duplicates (@kept_eqb B _)
         (flat_map (fun k => winners (group (@row_key B X) T k))
                   (sort_unique key_leb (map (@row_key B X) T)))).

(** The selector raises on the table without rows only; on any other table
    its result is [selected]. *)
Lemma select_nil : select (@nil (FitRow B X)) = None.
Proof. reflexivity. Qed.

Lemma select_rows :
  forall T : list (FitRow B X), T <> [] -> select T = Some (selected T).
Proof.
  intros T HT. unfold select, selected.
  destruct T as [|r0 T0]; [congruence|]. set (T := r0 :: T0).
  destruct (@apply_groups_Some (groupby (@row_key B X) T)) as [rows [E1 E2]].
  { intros k g. apply groupby_nonempty. }
  rewrite E1. f_equal. f_equal. f_equal. rewrite E2.
  unfold groupby. rewrite flat_map_concat_map, map_map, <- flat_map_concat_map.
  reflexivity.
Qed.

Lemma select_eq :
  forall (T : list (FitRow B X)) (out : list (Assignment B)),
    select T = Some out ->
    out = map (@with_class B)
              (drop_duplicates (@kept_eqb B _)
                 (flat_map (fun k => winners (group (@row_key B X) T k))
                           (sort_unique key_leb (map (@row_key B X) T)))).
Proof.
  intros T out Hsel. destruct T as [|r0 T0]; [discriminate|].
  rewrite select_rows in Hsel by discriminate. injection Hsel as <-.
  reflexivity.
Qed.
End SelectorFacts.

Section DropDuplicatesRepr.
Variable A : Type.
Variable eqb : A -> A -> bool.
Hypothesis eqb_refl : forall x, eqb x x = true.
Hypothesis eqb_trans :
  forall x y z, eqb x y = true -> eqb y z = true -> eqb x z = true.

(** Every row has an equal representative among the rows that remain. *)
Lemma drop_duplicates_repr :
  forall l x, In x l -> exists y, In y (drop_duplicates eqb l) /\ eqb y x = true.
Proof.
  induction l as [|z l IH]; simpl; intros x Hx; [contradiction|].
  destruct Hx as [->|Hx].
  - exists x. auto.
  - destruct (IH x Hx) as [y [Hy Exy]].
    destruct (eqb z y) eqn:Ezy.
    + exists z. split; [left; reflexivity|]. eauto.
    + exists y. split; [|assumption]. right.
      apply filter_In. split; [assumption|]. rewrite Ezy. reflexivity.
Qed.
End DropDuplicatesRepr.

Section DropDuplicatesCount.
Variable A : Type.
Variable eqb : A -> A -> bool.
Hypothesis eqb_refl : forall x, eqb x x = true.
Hypothesis eqb_sym : forall x y, eqb x y = eqb y x.
Hypothesis eqb_trans :
  forall x y z, eqb x y = true -> eqb y z = true -> eqb x z = true.
Variable P : A -> bool.
Hypothesis P_compat : forall x y, eqb x y = true -> P x = P y.






End DropDuplicatesCount.

Lemma filter_none :
  forall (A : Type) (P : A -> bool) (l : list A),
    (forall x, In x l -> P x = false) -> filter P l = [].
Proof.
  intros A P l. induction l as [|x l IH]; simpl; intro Hall; [reflexivity|].
  rewrite (Hall x) by (left; reflexivity). apply IH.
  intros y Hy. apply Hall. right. assumption.
Qed.

Lemma filter_map_comm :
  forall (A C : Type) (f : A -> C) (P : C -> bool) (l : list A),
    filter P (map f l) = map f (filter (fun a => P (f a)) l).
Proof.
  intros A C f P l. induction l as [|x l IH]; simpl; [reflexivity|].
  destruct (P (f x)); simpl; rewrite IH; reflexivity.
Qed.

Lemma filter_unique_image :
  forall (A : Type) (f : A -> string) (l : list A) (x : A),
    NoDup (map f l) -> In x l ->
    filter (fun r => String.eqb (f r) (f x)) l = [x].
Proof.
  intros A f l x. induction l as [|y l IH]; simpl; intros Hnd Hx; [contradiction|].
  inversion Hnd as [|? ? Hnotin Hnd']; subst.
  destruct Hx as [->|Hx].
  - rewrite String.eqb_refl. f_equal.
    apply filter_none.
    intros r Hr. apply String.eqb_neq. intro E. apply Hnotin.
    rewrite <- E. apply in_map. assumption.
  - destruct (String.eqb (f y) (f x)) eqn:E.
    + apply String.eqb_eq in E. exfalso. apply Hnotin. rewrite E.
      apply in_map. assumption.
    + apply IH; assumption.
Qed.

Section FlatMapByKey.
Variable C : Type.
Variable ckey : C -> key.
Variable W : key -> list C.
Hypothesis W_key : forall k c, In c (W k) -> ckey c = k.

Lemma filter_other_key :
  forall k k', k' <> k -> filter (fun c => key_eqb (ckey c) k) (W k') = [].
Proof.
  intros k k' Hne. apply filter_none. intros c Hc.
  apply key_eqb_neq. rewrite (W_key _ _ Hc). assumption.
Qed.

Lemma filter_same_key :
  forall k, filter (fun c => key_eqb (ckey c) k) (W k) = W k.
Proof.
  intro k. apply forallb_filter_id. apply forallb_forall. intros c Hc.
  apply key_eqb_eq. apply W_key. assumption.
Qed.

Lemma filter_key_absent :
  forall ks k, ~ In k ks ->
    filter (fun c => key_eqb (ckey c) k) (flat_map W ks) = [].
Proof.
  induction ks as [|k' ks IH]; simpl; intros k Hk; [reflexivity|].
  rewrite filter_app, filter_other_key, IH; auto.
Qed.

Lemma filter_key_present :
  forall ks k, NoDup ks -> In k ks ->
    filter (fun c => key_eqb (ckey c) k) (flat_map W ks) = W k.
Proof.
  induction ks as [|k' ks IH]; simpl; intros k Hnd Hk; [contradiction|].
  inversion Hnd as [|? ? Hnotin Hnd']; subst. rewrite filter_app.
  destruct Hk as [->|Hk].
  - rewrite filter_same_key, filter_key_absent by assumption.
    apply app_nil_r.
  - rewrite filter_other_key, IH by (try assumption; intro; subst; contradiction).
    reflexivity.
Qed.
End FlatMapByKey.

Section SelectorProperties.
Context {B : Type} {SB : Score B}.
Variable X : Type.

Local Abbreviation Row := (FitRow B X).
Local Abbreviation rkey := (@row_key B X).

(** The Fit Result table holds one row per (subject, day, model): the
    identity of a Fit Result in the data model. *)
Definition distinct_models (T : list Row) : Prop :=
  NoDup (map (fun r : Row => (rkey r, model r)) T).

Lemma group_models_NoDup :
  forall (T : list Row) k,
    distinct_models T -> NoDup (map (@model B X) (group rkey T k)).
Proof.
  unfold distinct_models, group. intros T k.
  induction T as [|x T IH]; simpl; intro Hnd; [constructor|].
  inversion Hnd as [|? ? Hnotin Hnd']; subst.
  destruct (in_group rkey k x) eqn:Ex; simpl; [|auto].
  constructor; [|auto].
  intro Hin. apply in_map_iff in Hin. destruct Hin as [r [Er Hr]].
  apply filter_In in Hr. destruct Hr as [Hr Hk].
  apply Hnotin. apply in_map_iff. exists r. split; [|assumption].
  unfold in_group in *. apply key_eqb_eq in Ex, Hk. congruence.
Qed.

Lemma winners_In :
  forall (g : list Row) c,
    In c (winners g) <->
    exists r, In r g /\ model r = best_or g /\
              c = (subject r, day r, bic r, best_or g).
Proof.
  intros g c. unfold winners. rewrite in_map_iff. split.
  - intros [[r b] [Ec Hrb]]. apply filter_In in Hrb. destruct Hrb as [Hrb Hw].
    apply in_map_iff in Hrb. destruct Hrb as [r' [E Hr']].
    injection E as -> <-. simpl in Hw. apply String.eqb_eq in Hw.
    exists r. unfold kept_cols in Ec. simpl in Ec. auto.
  - intros [r [Hr [Em ->]]]. exists (r, best_or g). split; [reflexivity|].
    apply filter_In. split.
    + apply in_map_iff. exists r. auto.
    + simpl. apply String.eqb_eq. assumption.
Qed.

Lemma winners_key :
  forall (T : list Row) k c,
    In c (winners (group rkey T k)) -> kept_key c = k.
Proof.
  intros T k c Hc. apply winners_In in Hc. destruct Hc as [r [Hr [_ ->]]].
  apply group_In in Hr. simpl. tauto.
Qed.

Lemma winners_single :
  forall g : list Row,
    g <> [] -> NoDup (map (@model B X) g) -> exists c, winners g = [c].
Proof.
  intros g Hg Hnd.
  destruct (best_model_of_spec Hg) as [best [Eb [[r [[Hr _] Em]] _]]].
  assert (Ebo : best_or g = model r) by (unfold best_or; rewrite Eb; auto).
  unfold winners. rewrite filter_map_comm. simpl. rewrite Ebo.
  rewrite (filter_unique_image (@model B X) g r Hnd Hr). simpl. eauto.
Qed.

Lemma kept_eqb_refl : forall c : @Kept B, kept_eqb c c = true.
Proof.
  intros [[[s d] b] m]. simpl.
  rewrite !Z.eqb_refl, seqb_refl, String.eqb_refl. reflexivity.
Qed.

Lemma seqb_trans :
  forall x y z : B, seqb x y = true -> seqb y z = true -> seqb x z = true.
Proof.
  unfold seqb. intros x y z Hxy Hyz.
  apply andb_true_iff in Hxy, Hyz. apply andb_true_iff.
  split; eapply sleb_trans; intuition eauto.
Qed.

Lemma kept_eqb_spec :
  forall c1 c2 : @Kept B,
    kept_eqb c1 c2 = true <->
    kept_key c1 = kept_key c2 /\ snd c1 = snd c2 /\
    seqb (snd (fst c1)) (snd (fst c2)) = true.
Proof.
  intros [[[s1 d1] b1] m1] [[[s2 d2] b2] m2]. simpl.
  rewrite !andb_true_iff, !Z.eqb_eq, String.eqb_eq. split.
  - intros [[[-> ->] Hb] ->]. auto.
  - intros [E [-> Hb]]. injection E as -> ->. auto.
Qed.

Lemma kept_eqb_trans :
  forall c1 c2 c3 : @Kept B,
    kept_eqb c1 c2 = true -> kept_eqb c2 c3 = true -> kept_eqb c1 c3 = true.
Proof.
  intros c1 c2 c3. rewrite !kept_eqb_spec.
  intros [K1 [M1 B1]] [K2 [M2 B2]]. repeat split; try congruence.
  eapply seqb_trans; eauto.
Qed.


Lemma a_key_with_class : forall c : @Kept B, a_key (with_class c) = kept_key c.
Proof. intros [[[s d] b] m]. reflexivity. Qed.

(** A row of a group that carries the group's best model has an equal
    representative in the selector's output. *)
Lemma select_keeps_winner :
  forall (T : list Row) (out : list (Assignment B)) (k : key) (r : Row),
    select T = Some out ->
    In r (group rkey T k) ->
    model r = best_or (group rkey T k) ->
    exists a,
      In a out /\ a_key a = k /\
      best_model a = best_or (group rkey T k) /\
      seqb (a_bic a) (bic r) = true.
Proof.
  intros T out k r Hsel Hr Em. apply select_eq in Hsel. subst out.
  set (W := fun k => winners (group rkey T k)).
  set (ks := sort_unique key_leb (map rkey T)).
  assert (Hrk : In r T /\ rkey r = k) by (apply group_In; assumption).
  assert (Hk : In k ks) by (apply group_keys_In; exists r; assumption).
  assert (Hc : In (subject r, day r, bic r, best_or (group rkey T k))
                  (flat_map W ks)).
  { apply in_flat_map. exists k. split; [assumption|].
    apply winners_In. exists r. auto. }
  destruct (drop_duplicates_repr (@kept_eqb B _) kept_eqb_refl kept_eqb_trans _ _ Hc)
    as [c' [Hc' Ec']].
  apply kept_eqb_spec in Ec'. destruct Ec' as [Ek [Em' Eb']].
  destruct c' as [[[s d] b] m]. simpl in Ek, Em', Eb'. subst m.
  exists (with_class (s, d, b, best_or (group rkey T k))).
  split; [apply in_map; assumption|].
  split; [rewrite a_key_with_class; simpl; rewrite Ek; apply Hrk|].
  split; [reflexivity|assumption].
Qed.

(** Every row of the selector's output carries the best model of its
    group. *)
Lemma select_rows_best :
  forall (T : list Row) (out : list (Assignment B)) (a : Assignment B),
    select T = Some out ->
    In a out ->
    best_model a = best_or (group rkey T (a_key a)).
Proof.
  intros T out a Hsel Ha. apply select_eq in Hsel. subst out.
  apply in_map_iff in Ha. destruct Ha as [c [<- Hcin]].
  apply drop_duplicates_incl in Hcin. apply in_flat_map in Hcin.
  destruct Hcin as [k' [_ Hw]].
  pose proof (winners_key _ _ _ Hw) as Hkk.
  rewrite a_key_with_class, Hkk.
  apply winners_In in Hw. destruct Hw as [r' [_ [_ Ec]]]. rewrite Ec.
  reflexivity.
Qed.

(** C2.  For every (subject, day) group of the Fit Result table, the
    selector's output has a row for the group whose [best_model] is the model
    name of a Fit Result of minimum BIC in the group and whose [bic] equals
    that minimum; among all Fit Results of the group attaining the minimum,
    [best_model] is the first name in lexicographic order; and every output
    row of the group carries this same [best_model]. *)
Theorem best_model_minimises_bic :
  forall (T : list Row) (out : list (Assignment B)) (k : key),
    select T = Some out ->
    group rkey T k <> [] ->
    exists a r,
      In a out /\ a_key a = k /\
      is_min_bic (group rkey T k) r /\
      model r = best_model a /\
      seqb (a_bic a) (bic r) = true /\
      (forall r', is_min_bic (group rkey T k) r' ->
                  String.leb (best_model a) (model r') = true) /\
      (forall a', In a' out -> a_key a' = k -> best_model a' = best_model a).
Proof.
  intros T out k Hsel Hg.
  destruct (best_model_of_spec Hg) as [best [Eb [[r [Hmin Em]] Hleast]]].
  assert (Ebo : best_or (group rkey T k) = best)
    by (unfold best_or; rewrite Eb; reflexivity).
  destruct (@select_keeps_winner T out k r Hsel (proj1 Hmin))
    as [a [Ha [Hk [Hb Hs]]]].
  { rewrite Ebo. assumption. }
  exists a, r.
  split; [assumption|]. split; [assumption|]. split; [assumption|].
  split; [rewrite Hb, Ebo; assumption|]. split; [assumption|]. split.
  - intros r' Hr'. rewrite Hb, Ebo. apply Hleast. assumption.
  - intros a' Ha' Hk'. rewrite (@select_rows_best T out a' Hsel Ha'), Hk'.
    symmetry. assumption.
Qed.



(** Fit Results of the same (subject, day, model) hold the same BIC: the
    table may repeat a row, but does not hold two fits of one model to one
    group. *)
Definition one_bic_per_model (T : list Row) : Prop :=
  forall r r' : Row,
    In r T -> In r' T -> rkey r = rkey r' -> model r = model r' ->
    seqb (bic r) (bic r') = true.

Lemma distinct_models_one_bic :
  forall T : list Row, distinct_models T -> one_bic_per_model T.
Proof.
  unfold distinct_models, one_bic_per_model.
  intros T Hnd r r' Hr Hr' Ek Em.
  assert (E : r = r').
  { revert Hnd Hr Hr'. induction T as [|x T IH]; simpl; [tauto|].
    intros Hnd Hr Hr'. inversion Hnd as [|? ? Hnotin Hnd']; subst.
    destruct Hr as [->|Hr], Hr' as [->|Hr']; auto.
    - exfalso. apply Hnotin. apply in_map_iff. exists r'.
      split; [congruence|assumption].
    - exfalso. apply Hnotin. apply in_map_iff. exists r.
      split; [congruence|assumption]. }
  subst r'. apply seqb_refl.
Qed.




(** C3.  In every row of the selector's output the strategy class is
    "procedural" exactly when the family of the winning model (the second
    "_"-separated field of its name) is "glc", and "rule-based" otherwise. *)
Theorem class_procedural_iff_glc :
  forall (T : list Row) (out : list (Assignment B)) (a : Assignment B),
    select T = Some out ->
    In a out ->
    (best_model_class a = "procedural"%string <->
     model_family (best_model a) = Some "glc"%string) /\
    (model_family (best_model a) <> Some "glc"%string ->
     best_model_class a = "rule-based"%string).
Proof.
  intros T out a Hsel Ha. apply select_eq in Hsel. subst out.
  apply in_map_iff in Ha. destruct Ha as [[[[s d] b] m] [<- _]]. simpl.
  unfold strategy_class. destruct (model_family m) as [f|] eqn:Ef.
  - destruct (String.eqb f "glc") eqn:E.
    + apply String.eqb_eq in E. subst f. simpl. split.
      * split; reflexivity.
      * congruence.
    + simpl. apply String.eqb_neq in E. split.
      * split; [discriminate|]. intro H. injection H as ->. congruence.
      * reflexivity.
  - simpl. split.
    + split; discriminate.
    + reflexivity.
Qed.
End SelectorProperties.

(** *** The selector theorems on a small table *)

Definition demo_out : list (Assignment Q) :=
  [ mkAssignment 1 1 (5 # 2) "nll_glc_0" "procedural";
    mkAssignment 1 2 (9 # 1) "nll_unix_1" "rule-based";
    mkAssignment 2 1 (1 # 1) "nll_uniy_1" "rule-based" ].

Lemma demo_distinct : distinct_models demo_fits.
Proof.
  unfold distinct_models, demo_fits. simpl.
  repeat (constructor; [simpl; intuition discriminate|]). constructor.
Defined.

Lemma best_model_minimises_bic_witness :
  exists a r,
    In a demo_out /\ a_key a = (1, 1)%Z /\
    is_min_bic (group (@row_key Q unit) demo_fits (1, 1)%Z) r /\
    model r = best_model a /\
    seqb (a_bic a) (bic r) = true /\
    (forall r', is_min_bic (group (@row_key Q unit) demo_fits (1, 1)%Z) r' ->
                String.leb (best_model a) (model r') = true) /\
    (forall a', In a' demo_out -> a_key a' = (1, 1)%Z ->
                best_model a' = best_model a).
Proof.
  apply (@best_model_minimises_bic Q Score_Q unit demo_fits demo_out (1, 1)%Z).
  - vm_compute. reflexivity.
  - vm_compute. discriminate.
Defined.






Lemma class_procedural_iff_glc_witness :
  (best_model_class (mkAssignment 1 1 (5 # 2) "nll_glc_0" "procedural")
   = "procedural"%string <->
   model_family "nll_glc_0" = Some "glc"%string) /\
  (model_family "nll_glc_0" <> Some "glc"%string ->
   best_model_class (mkAssignment 1 1 (5 # 2) "nll_glc_0" "procedural")
   = "rule-based"%string).
Proof.
  apply (@class_procedural_iff_glc Q Score_Q unit demo_fits demo_out
           (mkAssignment 1 1 (5 # 2) "nll_glc_0" "procedural")).
  - vm_compute. reflexivity.
  - left. reflexivity.
Defined.

(** ** Facts about the canonical trial table *)

Lemma assign_columns_split :
  forall (T rest : list Row) (seen : list Z) (above : list Trial)
         (t : Trial) (below : list Trial),
    assign_columns T seen rest = above ++ t :: below ->
    t_trial t =
      Z.of_nat (count_occ Z.eq_dec (seen ++ map t_subject above) (t_subject t)) /\
    t_block t = (t_trial t / block_size)%Z.
Proof.
  intros T rest. induction rest as [|r rest IH]; intros seen above t below E.
  - destruct above; discriminate.
  - destruct above as [|a above]; simpl in E; injection E as Ea Erest.
    + subst t. simpl. rewrite app_nil_r. split; reflexivity.
    + destruct (IH _ _ _ _ Erest) as [H1 H2]. split; [|assumption].
      rewrite H1. subst a. simpl. rewrite <- app_assoc. reflexivity.
Qed.

(** Twenty-five trials of subject 1 on day 1 and one trial on day 2. *)
Definition day_one_rows : list Row :=
  map (fun i => mkRow "sub_001_day_01_data.csv" 1 1 (Z.of_nat i) "A" "A" 0 0 None None)
      (seq 0 25).

Definition day_two_rows : list Row :=
  [mkRow "sub_001_day_02_data.csv" 1 2 0 "B" "A" 0 0 None None].

Definition two_days : list (list Row) := [day_one_rows; day_two_rows].

Definition first_of_day_two : Trial :=
  mkTrial "sub_001_day_02_data.csv" 1 2 25 1 1 0 "B" "A" 0 0.

Example two_days_last :
  training_table two_days =
  firstn 25 (training_table two_days) ++ first_of_day_two :: [].
Proof. vm_compute. reflexivity. Qed.

(** C7, as stated, fails: the first trial of subject 1's second day has index
    0 within its day, but its block is 25 // 25 = 1. *)
Lemma block_is_not_day_local :
  ~ (forall (recs : list (list Row)) (above : list Trial) (t : Trial)
            (below : list Trial),
        training_table recs = above ++ t :: below ->
        t_block t = (index_in_day above t / block_size)%Z).
Proof.
  intro H.
  specialize (H two_days (firstn 25 (training_table two_days))
                first_of_day_two [] two_days_last).
  vm_compute in H. discriminate.
Qed.

(** C7, amended.  For every trial of the canonical table, [block] is
    [trial // block_size] where [trial] is the number of rows of the same
    participant above it in the sorted table, over all of the participant's
    days; so block 0 starts the participant's first training day only. *)
Theorem block_is_subject_trial_div :
  forall (recs : list (list Row)) (above : list Trial) (t : Trial)
         (below : list Trial),
    training_table recs = above ++ t :: below ->
    t_trial t = Z.of_nat (count_occ Z.eq_dec (map t_subject above) (t_subject t)) /\
    t_block t = (t_trial t / block_size)%Z /\
    (~ In (t_subject t) (map t_subject above) -> t_block t = 0%Z).
Proof.
  intros recs above t below E. unfold training_table in E.
  apply assign_columns_split in E. simpl in E. destruct E as [H1 H2].
  split; [assumption|]. split; [assumption|].
  intro Hnot. rewrite H2, H1.
  rewrite (proj1 (count_occ_not_In Z.eq_dec _ _) Hnot). reflexivity.
Qed.

Lemma block_is_subject_trial_div_witness :
  t_trial first_of_day_two =
    Z.of_nat (count_occ Z.eq_dec (map t_subject (firstn 25 (training_table two_days)))
                        (t_subject first_of_day_two)) /\
  t_block first_of_day_two = (t_trial first_of_day_two / block_size)%Z /\
  (~ In (t_subject first_of_day_two)
        (map t_subject (firstn 25 (training_table two_days))) ->
   t_block first_of_day_two = 0%Z).
Proof.
  apply (@block_is_subject_trial_div two_days (firstn 25 (training_table two_days))
           first_of_day_two [] two_days_last).
Defined.

(** ** Facts about the fitting engine *)

Section EngineFacts.
Open Scope R_scope.

Variable Phi : R -> R.
Variable eps : R.
Variable penalty : R.
Variable minimize : (list R -> R) -> list R -> list R * R.
Variable initial_guess : Dbm.Family -> list Trial -> list R.

Local Abbreviation fit_dbm := (Dbm.fit_dbm Phi eps penalty minimize initial_guess).
Local Abbreviation fit_groups := (Dbm.fit_groups Phi eps penalty minimize initial_guess).

Lemma clip_bounds :
  forall v lo hi : R,
    Rmin lo hi <= Dbm.clip v lo hi <= hi.
Proof.
  intros v lo hi. unfold Dbm.clip, Rmin, Rmax.
  repeat destruct Rle_dec; lra.
Qed.

(** C8.  With a clamping bound [0 < eps < 1], the response probability is
    strictly between 0 and 1 for every parameter vector of positive noise
    scale and every trial, whatever value the distribution function returns;
    so both logarithms of the likelihood have a positive argument. *)
Theorem p_A_strictly_inside :
  forall (f : Dbm.Family) (s : Z) (params : list R) (t : Trial),
    0 < eps < 1 ->
    0 < Dbm.sigma_of params ->
    0 < Dbm.p_A Phi eps f s params t < 1 /\
    0 < 1 - Dbm.p_A Phi eps f s params t.
Proof.
  intros f s params t [H0 H1] _. unfold Dbm.p_A.
  match goal with
  | |- context [Dbm.clip ?v eps (1 - eps)] =>
      pose proof (clip_bounds v eps (1 - eps)) as Hc;
      set (p := Dbm.clip v eps (1 - eps)) in *
  end.
  assert (0 < Rmin eps (1 - eps)) by (unfold Rmin; destruct Rle_dec; lra).
  lra.
Qed.

(** The call site as a list of jobs: one per entry of [models]. *)
Definition jobs : list (Dbm.Family * (Z * (Z * string))) :=
  combine Dbm.models (combine Dbm.side (combine Dbm.k Dbm.model_names)).

Definition job_of (fr : Dbm.FitResult) : Dbm.Family * (Z * (Z * string)) :=
  (Dbm.fr_family fr, (Dbm.fr_side fr, (Dbm.fr_k fr, Dbm.fr_model fr))).

Definition six_jobs : list (Dbm.Family * (Z * (Z * string))) :=
  [ (Dbm.unix, (0, (2, "nll_unix_0")));
    (Dbm.unix, (1, (2, "nll_unix_1")));
    (Dbm.uniy, (0, (2, "nll_uniy_0")));
    (Dbm.uniy, (1, (2, "nll_uniy_1")));
    (Dbm.glc, (0, (3, "nll_glc_0")));
    (Dbm.glc, (1, (3, "nll_glc_1"))) ]%Z%string.

(** The parameter count the data model gives each family. *)
Definition k_of (f : Dbm.Family) : Z :=
  match f with Dbm.unix => 2 | Dbm.uniy => 2 | Dbm.glc => 3 end%Z.

Lemma jobs_eq : jobs = six_jobs.
Proof. reflexivity. Qed.

Lemma job_of_fit_one :
  forall g job, job_of (Dbm.fit_one Phi eps penalty minimize initial_guess g job) = job.
Proof. intros g [f [s [kk name]]]. reflexivity. Qed.

Lemma fit_dbm_jobs :
  forall g : list Trial, g <> [] ->
    map job_of (fit_dbm g Dbm.models Dbm.side Dbm.k Dbm.n Dbm.model_names) = six_jobs.
Proof.
  intros g Hg. unfold Dbm.fit_dbm. destruct g as [|t g]; [congruence|].
  rewrite map_map. fold jobs. rewrite jobs_eq. unfold six_jobs. simpl.
  reflexivity.
Qed.

Lemma fit_groups_eq :
  forall d : list Trial,
    fit_groups d =
    flat_map (fun key => map (fun fr => (key, fr))
                (fit_dbm (group trial_key d key) Dbm.models Dbm.side Dbm.k Dbm.n
                         Dbm.model_names))
             (sort_unique key_leb (map trial_key d)).
Proof.
  intro d. unfold Dbm.fit_groups, groupby.
  rewrite flat_map_concat_map, map_map, <- flat_map_concat_map. reflexivity.
Qed.

Lemma fit_groups_In :
  forall (d : list Trial) (key : key) (fr : Dbm.FitResult),
    In (key, fr) (fit_groups d) <->
    group trial_key d key <> [] /\
    In fr (fit_dbm (group trial_key d key) Dbm.models Dbm.side Dbm.k Dbm.n
                   Dbm.model_names).
Proof.
  intros d key fr. rewrite fit_groups_eq, in_flat_map. split.
  - intros [key' [Hk Hin]]. apply in_map_iff in Hin.
    destruct Hin as [fr' [E Hfr]]. injection E as -> ->. split; [|assumption].
    apply group_keys_In in Hk. destruct Hk as [t [Ht Ek]].
    intro E. assert (In t (group trial_key d key)) by (apply group_In; auto).
    rewrite E in H. contradiction.
  - intros [Hg Hfr]. exists key. split.
    + destruct (group trial_key d key) as [|t g] eqn:E; [congruence|].
      assert (Ht : In t (group trial_key d key)) by (rewrite E; left; reflexivity).
      apply group_In in Ht. apply group_keys_In. exists t. assumption.
    + apply in_map. assumption.
Qed.

(** C1.  Every Fit Result of the engine carries as sample size the number of
    trials of its (subject, day) group in the table that is fit, a positive
    number, and its BIC is [k * ln(n) + 2 * NLL_min] for that [n]. *)
Theorem bic_uses_trial_count :
  forall (d : list Trial) (key : key) (fr : Dbm.FitResult),
    In (key, fr) (fit_groups d) ->
    Dbm.fr_n fr =
      List.length (filter (fun t => key_eqb (trial_key t) key) d) /\
    (0 < Dbm.fr_n fr)%nat /\
    Dbm.fr_bic fr =
      IZR (Dbm.fr_k fr) * ln (INR (Dbm.fr_n fr)) + 2 * Dbm.fr_nll fr.
Proof.
  intros d key fr Hin. apply fit_groups_In in Hin. destruct Hin as [Hg Hfr].
  change (filter (fun t => key_eqb (trial_key t) key) d)
    with (group trial_key d key).
  unfold Dbm.fit_dbm in Hfr.
  destruct (group trial_key d key) as [|t g] eqn:E; [congruence|].
  apply in_map_iff in Hfr. destruct Hfr as [[f [s [kk name]]] [<- _]].
  simpl. repeat split. lia.
Qed.

(** C4.  For every (subject, day) of the table that is fit, the engine
    yields exactly six Fit Results, in order unix/0, unix/1, uniy/0, uniy/1,
    glc/0, glc/1, and the parameter count of each is the one of its family:
    2 for unix and uniy, 3 for glc. *)
Theorem six_fit_results_per_group :
  forall (d : list Trial) (t : Trial),
    In t d ->
    let frs := map snd (filter (fun kf => key_eqb (fst kf) (trial_key t))
                               (fit_groups d)) in
    map job_of frs = six_jobs /\
    List.length frs = 6%nat /\
    Forall (fun fr => Dbm.fr_k fr = k_of (Dbm.fr_family fr)) frs.
Proof.
  intros d t Ht frs.
  assert (Hg : group trial_key d (trial_key t) <> []).
  { intro E. assert (In t (group trial_key d (trial_key t)))
      by (apply group_In; auto).
    rewrite E in H. contradiction. }
  assert (Hfrs : frs = fit_dbm (group trial_key d (trial_key t)) Dbm.models
                         Dbm.side Dbm.k Dbm.n Dbm.model_names).
  { unfold frs. rewrite fit_groups_eq.
    rewrite (@filter_key_present _ (@fst key Dbm.FitResult)
               (fun key => map (fun fr => (key, fr))
                  (fit_dbm (group trial_key d key) Dbm.models Dbm.side Dbm.k
                           Dbm.n Dbm.model_names))).
    - rewrite map_map. simpl. apply map_id.
    - intros k0 c Hc. apply in_map_iff in Hc. destruct Hc as [fr [<- _]].
      reflexivity.
    - apply group_keys_NoDup.
    - apply group_keys_In. exists t. auto. }
  assert (Hjobs : map job_of frs = six_jobs)
    by (rewrite Hfrs; apply fit_dbm_jobs; assumption).
  split; [assumption|]. split.
  - rewrite <- (List.length_map job_of), Hjobs. reflexivity.
  - apply Forall_forall. intros fr Hfr.
    assert (Hj : In (job_of fr) six_jobs) by (rewrite <- Hjobs; apply in_map; assumption).
    unfold six_jobs, job_of in Hj. simpl in Hj.
    repeat (destruct Hj as [Hj|Hj];
            [injection Hj as Hf _ Hk _; rewrite <- Hf, <- Hk; reflexivity|]).
    contradiction.
Qed.
End EngineFacts.

(** *** The engine on one trial *)

Definition demo_minimize (objective : list R -> R) (initial : list R)
  : list R * R := (initial, objective initial).

Definition demo_guess (f : Dbm.Family) (g : list Trial) : list R := [0%R; 1%R].

Definition demo_trial : Trial :=
  mkTrial "sub_001_day_01_data.csv" 1 1 0 0 1 1 "A" "A" 0 0.

Definition demo_fit : Dbm.FitResult :=
  Dbm.fit_one (fun _ => 0%R) (/ 1000)%R 0%R demo_minimize demo_guess
              [demo_trial] (Dbm.unix, (0%Z, (2%Z, "nll_unix_0"%string))).

Lemma p_A_strictly_inside_witness :
  (0 < Dbm.p_A (fun _ => 0%R) (/ 1000)%R Dbm.unix 0 [0%R; 1%R] demo_trial < 1)%R /\
  (0 < 1 - Dbm.p_A (fun _ => 0%R) (/ 1000)%R Dbm.unix 0 [0%R; 1%R] demo_trial)%R.
Proof.
  apply (@p_A_strictly_inside (fun _ => 0%R) (/ 1000)%R Dbm.unix 0%Z
           [0%R; 1%R] demo_trial).
  - lra.
  - unfold Dbm.sigma_of. simpl. lra.
Defined.

Lemma bic_uses_trial_count_witness :
  Dbm.fr_n demo_fit =
    List.length (filter (fun t => key_eqb (trial_key t) (1, 1)%Z) [demo_trial]) /\
  (0 < Dbm.fr_n demo_fit)%nat /\
  Dbm.fr_bic demo_fit =
    (IZR (Dbm.fr_k demo_fit) * ln (INR (Dbm.fr_n demo_fit))
     + 2 * Dbm.fr_nll demo_fit)%R.
Proof.
  apply (@bic_uses_trial_count (fun _ => 0%R) (/ 1000)%R 0%R demo_minimize
           demo_guess [demo_trial] (1, 1)%Z demo_fit).
  left. reflexivity.
Defined.

Lemma six_fit_results_per_group_witness :
  let frs :=
    map snd (filter (fun kf => key_eqb (fst kf) (trial_key demo_trial))
               (Dbm.fit_groups (fun _ => 0%R) (/ 1000)%R 0%R demo_minimize
                               demo_guess [demo_trial])) in
  map job_of frs = six_jobs /\
  List.length frs = 6%nat /\
  Forall (fun fr => Dbm.fr_k fr = k_of (Dbm.fr_family fr)) frs.
Proof.
  apply (@six_fit_results_per_group (fun _ => 0%R) (/ 1000)%R 0%R demo_minimize
           demo_guess [demo_trial] demo_trial).
  left. reflexivity.
Defined.

(** ** The selector does not read the other columns *)

Section SelectorColumns.
Context {B : Type} {SB : Score B}.
Variables X Y : Type.
Variable f : X -> Y.

Lemma group_map_rest :
  forall (T : list (FitRow B X)) (k : key),
    group (@row_key B Y) (map (map_rest f) T) k
    = map (map_rest f) (group (@row_key B X) T k).
Proof.
  intros T k. unfold group. rewrite filter_map_comm. reflexivity.
Qed.

Lemma best_model_of_map_rest :
  forall g : list (FitRow B X),
    best_model_of (map (map_rest f) g) = best_model_of g.
Proof.
  intro g. unfold best_model_of. rewrite map_map. simpl.
  change (map (fun x : FitRow B X => bic x) g) with (map (@bic B X) g).
  destruct (array_min (map (@bic B X) g)) as [m|]; [|reflexivity].
  rewrite filter_map_comm, map_map. reflexivity.
Qed.

Lemma winners_map_rest :
  forall g : list (FitRow B X), winners (map (map_rest f) g) = winners g.
Proof.
  intro g. unfold winners, best_or. rewrite best_model_of_map_rest.
  rewrite !map_map, !filter_map_comm, !map_map. reflexivity.
Qed.

Lemma select_map_rest :
  forall T : list (FitRow B X), select (map (map_rest f) T) = select T.
Proof.
  intro T. destruct T as [|r0 T0]; [reflexivity|].
  set (T := r0 :: T0).
  assert (HT : T <> []) by discriminate.
  assert (HT' : map (map_rest f) T <> []) by discriminate.
  clearbody T.
  rewrite (select_rows HT), (select_rows HT'). unfold selected.
  f_equal. f_equal. f_equal.
  rewrite map_map. simpl.
  change (map (fun x : FitRow B X => row_key (map_rest f x)) T)
    with (map (@row_key B X) T).
  apply flat_map_ext. intro k.
  rewrite group_map_rest. apply winners_map_rest.
Qed.
End SelectorColumns.

(** Line 302 keeps the columns subject, day, model, bic and p of the stored
    table: the selector gives on them what it gives on the whole table. *)
Lemma select_keep_columns :
  forall T : list Script.FullRow,
    select (map Script.keep_columns T) = select T.
Proof.
  intro T. unfold Script.keep_columns.
  apply (@select_map_rest R Script.Score_R (R * list R) (list R)
           (@snd R (list R)) T).
Qed.

(** ** Where the fitted trials come from *)

Lemma insert_row_In :
  forall (r x : Row) (l : list Row), In x (insert_row r l) <-> x = r \/ In x l.
Proof.
  intros r x l. induction l as [|y l IH]; simpl.
  - intuition.
  - destruct (row_leb r y); simpl; [intuition|]. rewrite IH. intuition.
Qed.

Lemma sort_values_In :
  forall (x : Row) (l : list Row), In x (sort_values l) <-> In x l.
Proof.
  intros x l. induction l as [|y l IH]; simpl; [tauto|].
  rewrite insert_row_In, IH. intuition.
Qed.

Lemma assign_columns_In :
  forall (T rest : list Row) (above : list Z) (t : Trial),
    In t (assign_columns T above rest) ->
    exists r above', In r rest /\ t = make_trial T above' r.
Proof.
  intros T rest. induction rest as [|r rest IH]; simpl; intros above t Ht.
  - contradiction.
  - destruct Ht as [<-|Ht].
    + exists r, above. auto.
    + destruct (IH _ _ Ht) as [r' [above' [Hr E]]]. exists r', above'. auto.
Qed.

Lemma assign_columns_covers :
  forall (T rest : list Row) (above : list Z) (r : Row),
    In r rest ->
    exists above', In (make_trial T above' r) (assign_columns T above rest).
Proof.
  intros T rest. induction rest as [|x rest IH]; simpl; intros above r Hr.
  - contradiction.
  - destruct Hr as [->|Hr].
    + exists above. left. reflexivity.
    + destruct (IH (above ++ [r_subject x]) r Hr) as [above' H].
      exists above'. right. assumption.
Qed.

(** Every row of a corrected file carries the file's name. *)
Definition named (name : string) (df : list Row) : Prop :=
  forall r, In r df -> r_f_name r = name.

Lemma named_set_day :
  forall name v df, named name df -> named name (map (set_day v) df).
Proof.
  intros name v df H r Hr. apply in_map_iff in Hr.
  destruct Hr as [r' [<- Hr']]. simpl. auto.
Qed.

Lemma named_set_subject :
  forall name v df, named name df -> named name (map (set_subject v) df).
Proof.
  intros name v df H r Hr. apply in_map_iff in Hr.
  destruct Hr as [r' [<- Hr']]. simpl. auto.
Qed.

Lemma named_if :
  forall name (b : bool) df1 df2,
    named name df1 -> named name df2 -> named name (if b then df1 else df2).
Proof. intros name [] df1 df2 H1 H2; assumption. Qed.

Lemma fix_file_named : forall name rows, named name (fix_file name rows).
Proof.
  intros name rows. unfold fix_file.
  assert (H0 : named name (map (set_f_name name) rows)).
  { intros r Hr. apply in_map_iff in Hr. destruct Hr as [r' [<- _]]. reflexivity. }
  repeat (first [ apply named_if | apply named_set_day | apply named_set_subject
                | exact H0 ]).
Qed.

Lemma unique_days_single :
  forall (df : list Row) (dy : Z),
    unique_days df = [dy] -> forall r, In r df -> r_day r = dy.
Proof.
  intros df dy E r Hr. unfold unique_days in E.
  destruct (drop_duplicates_repr Z.eqb Z.eqb_refl
              (fun x y z Hxy Hyz =>
                 proj2 (Z.eqb_eq x z)
                   (eq_trans (proj1 (Z.eqb_eq x y) Hxy) (proj1 (Z.eqb_eq y z) Hyz)))
              (map r_day df) (r_day r) (in_map r_day df r Hr)) as [y [Hy Ey]].
  rewrite E in Hy. destruct Hy as [<-|[]]. apply Z.eqb_eq in Ey. auto.
Qed.

(** A frame of [df_train_rec] that the loop appended for a file of the
    listing: the file is not on the exclusion list and its single day label
    is none of 22, 23, 24. *)
Definition from_training_file (files : list DataFile) (df : list Row) : Prop :=
  exists f dy,
    In f files /\ excluded (fs f) = false /\
    df = fix_file (fs f) (content f) /\
    unique_days df = [dy] /\ isin dy [22; 23; 24]%Z = false.

Lemma load_files_train :
  forall (files : list DataFile) (recs recs' : Recs),
    load_files recs files = Some recs' ->
    forall df, In df (df_train_rec recs') ->
               In df (df_train_rec recs) \/ from_training_file files df.
Proof.
  induction files as [|f files IH]; simpl; intros recs recs' E df Hdf.
  - injection E as <-. left. assumption.
  - destruct (load_file recs f) as [recs1|] eqn:E1; [|discriminate].
    destruct (IH _ _ E df Hdf) as [Hin|[f' [dy [Hf' H]]]].
    + unfold load_file in E1. destruct (excluded (fs f)) eqn:Ex.
      * injection E1 as <-. left. assumption.
      * destruct (unique_days (fix_file (fs f) (content f))) as [|dy [|]] eqn:Eu;
          try discriminate.
        injection E1 as <-. cbn [df_train_rec] in Hin. unfold append_if in Hin.
        change ((dy =? 22)%Z || ((dy =? 23)%Z || ((dy =? 24)%Z || false)))
          with (isin dy [22; 23; 24]%Z) in Hin.
        destruct (isin dy [22; 23; 24]%Z) eqn:Ei; cbn [negb] in Hin.
        -- left. assumption.
        -- apply in_app_or in Hin. destruct Hin as [Hin|[<-|[]]].
           ++ left. assumption.
           ++ right. exists f, dy. simpl. auto.
    + right. exists f', dy. simpl. tauto.
Qed.

(** A fitted trial and the row of a file it was made from. *)
Definition made_from (t : Trial) (r : Row) : Prop :=
  t_f_name t = r_f_name r /\ t_subject t = r_subject r /\
  t_cat t = r_cat r /\ t_resp t = r_resp r /\
  t_x t = r_x r /\ t_y t = r_y r.

Lemma training_table_origin :
  forall (home : list DataFile) (recs : Recs) (t : Trial),
    load_files no_recs home = Some recs ->
    In t (training_table (df_train_rec recs)) ->
    exists f r,
      In f home /\ excluded (fs f) = false /\
      In r (fix_file (fs f) (content f)) /\
      unique_days (fix_file (fs f) (content f)) = [r_day r] /\
      isin (r_day r) [22; 23; 24]%Z = false /\
      t_f_name t = fs f /\ made_from t r.
Proof.
  intros home recs t Hload Ht. unfold training_table in Ht.
  apply assign_columns_In in Ht. destruct Ht as [r [above [Hr ->]]].
  apply (proj1 (sort_values_In _ _)) in Hr. apply in_concat in Hr.
  destruct Hr as [df [Hdf Hr]].
  destruct (@load_files_train home no_recs recs Hload df Hdf)
    as [[]|[f [dy [Hf [Hex [-> [Hu Hi]]]]]]].
  pose proof (unique_days_single _ Hu r Hr) as Hday.
  exists f, r. rewrite Hday.
  repeat split; try assumption; try reflexivity.
  simpl. exact (@fix_file_named (fs f) (content f) r Hr).
Qed.

Lemma load_file_train_keeps :
  forall (recs recs1 : Recs) (f : DataFile),
    load_file recs f = Some recs1 ->
    forall df, In df (df_train_rec recs) -> In df (df_train_rec recs1).
Proof.
  intros recs recs1 f E df Hdf. unfold load_file in E.
  destruct (excluded (fs f)).
  - injection E as <-. assumption.
  - destruct (unique_days (fix_file (fs f) (content f))) as [|dy [|]];
      try discriminate.
    injection E as <-. cbn [df_train_rec]. unfold append_if.
    destruct (negb _); [apply in_or_app; left|]; assumption.
Qed.

Lemma load_file_train_adds :
  forall (recs recs1 : Recs) (f : DataFile) (dy : Z),
    load_file recs f = Some recs1 ->
    excluded (fs f) = false ->
    unique_days (fix_file (fs f) (content f)) = [dy] ->
    isin dy [22; 23; 24]%Z = false ->
    In (fix_file (fs f) (content f)) (df_train_rec recs1).
Proof.
  intros recs recs1 f dy E Hex Hu Hi. unfold load_file in E.
  rewrite Hex, Hu in E. injection E as <-. cbn [df_train_rec].
  unfold append_if.
  change ((dy =? 22)%Z || ((dy =? 23)%Z || ((dy =? 24)%Z || false)))
    with (isin dy [22; 23; 24]%Z).
  rewrite Hi. cbn [negb]. apply in_or_app. right. left. reflexivity.
Qed.

(** The loop drops no frame it has appended, and appends the frame of every
    training file of the listing. *)
Lemma load_files_train_complete :
  forall (files : list DataFile) (recs recs' : Recs),
    load_files recs files = Some recs' ->
    (forall df, In df (df_train_rec recs) -> In df (df_train_rec recs')) /\
    (forall df, from_training_file files df -> In df (df_train_rec recs')).
Proof.
  induction files as [|f files IH]; simpl; intros recs recs' E.
  - injection E as <-. split; [auto|].
    intros df [f [dy [[] _]]].
  - destruct (load_file recs f) as [recs1|] eqn:E1; [|discriminate].
    destruct (IH _ _ E) as [Hkeep Hadd]. split.
    + intros df Hdf. apply Hkeep.
      apply (@load_file_train_keeps recs recs1 f E1 df Hdf).
    + intros df [f' [dy [Hf' [Hex [-> [Hu Hi]]]]]].
      destruct Hf' as [<-|Hf'].
      * apply Hkeep.
        apply (@load_file_train_adds recs recs1 f dy E1 Hex Hu Hi).
      * apply Hadd. exists f', dy. auto.
Qed.

(** Every row of every training file of the listing becomes a trial of the
    canonical table. *)
Lemma training_table_complete :
  forall (home : list DataFile) (recs : Recs) (f : DataFile) (dy : Z) (r : Row),
    load_files no_recs home = Some recs ->
    In f home -> excluded (fs f) = false ->
    unique_days (fix_file (fs f) (content f)) = [dy] ->
    isin dy [22; 23; 24]%Z = false ->
    In r (fix_file (fs f) (content f)) ->
    exists t,
      In t (training_table (df_train_rec recs)) /\
      made_from t r /\ t_f_name t = fs f.
Proof.
  intros home recs f dy r Hload Hf Hex Hu Hi Hr.
  destruct (@load_files_train_complete home no_recs recs Hload) as [_ Hadd].
  assert (Hdf : In (fix_file (fs f) (content f)) (df_train_rec recs)).
  { apply Hadd. exists f, dy. auto. }
  assert (Hc : In r (sort_values (List.concat (df_train_rec recs)))).
  { apply sort_values_In. apply in_concat. eauto. }
  destruct (assign_columns_covers
              (sort_values (List.concat (df_train_rec recs))) _ [] r Hc)
    as [above Hin].
  exists (make_trial (sort_values (List.concat (df_train_rec recs))) above r).
  split; [exact Hin|]. split.
  - repeat split; reflexivity.
  - simpl. exact (@fix_file_named (fs f) (content f) r Hr).
Qed.

Section FitInput.
Variable Phi : R -> R.
Variable eps : R.
Variable penalty : R.
Variable minimize : (list R -> R) -> list R -> list R * R.
Variable initial_guess : Dbm.Family -> list Trial -> list R.

Local Abbreviation fit_groups := (Dbm.fit_groups Phi eps penalty minimize initial_guess).

(** The table of line 297 on the trial table [d]. *)
Definition fit_table (d : list Trial) : list Script.FullRow :=
  map Script.reset_index (fit_groups d).

Lemma fit_groups_cover :
  forall (d : list Trial) (t : Trial),
    In t d -> exists fr, In (trial_key t, fr) (fit_groups d).
Proof.
  intros d t Ht.
  assert (Hg : group trial_key d (trial_key t) <> []).
  { intro E. assert (In t (group trial_key d (trial_key t)))
      by (apply group_In; auto).
    rewrite E in H. contradiction. }
  pose proof (fit_dbm_jobs Phi eps penalty minimize initial_guess Hg) as Hj.
  destruct (Dbm.fit_dbm Phi eps penalty minimize initial_guess
              (group trial_key d (trial_key t)) Dbm.models Dbm.side Dbm.k Dbm.n
              Dbm.model_names) as [|fr frs] eqn:E; [discriminate|].
  exists fr. apply fit_groups_In. split; [assumption|].
  rewrite E. left. reflexivity.
Qed.

(** The (subject, day) pairs with a Fit Result are those of the fitted
    table. *)
Lemma fit_table_keys :
  forall (d : list Trial) (k : key),
    In k (map (@row_key R (R * list R)) (fit_table d)) <->
    In k (map trial_key d).
Proof.
  intros d k. unfold fit_table. rewrite map_map. split.
  - intro Hk. apply in_map_iff in Hk. destruct Hk as [[k' fr] [Ek Hin]].
    unfold row_key, Script.reset_index in Ek. simpl in Ek.
    assert (Ek' : k' = k) by (destruct k'; exact Ek). subst k'.
    apply fit_groups_In in Hin. destruct Hin as [Hg _].
    destruct (group trial_key d k) as [|t g] eqn:Eg; [congruence|].
    assert (Ht : In t (group trial_key d k)) by (rewrite Eg; left; reflexivity).
    apply group_In in Ht. destruct Ht as [Ht <-]. apply in_map. assumption.
  - intro Hk. apply in_map_iff in Hk. destruct Hk as [t [<- Ht]].
    destruct (fit_groups_cover d t Ht) as [fr Hfr].
    apply in_map_iff. exists (trial_key t, fr). split; [|assumption].
    unfold row_key, Script.reset_index, trial_key. simpl. reflexivity.
Qed.

(** The selector gives an assignment to every (subject, day) of the table
    it is handed. *)
Lemma select_covers :
  forall (X : Type) (T : list (FitRow R X)) (out : list (Assignment R))
         (k : key),
    select T = Some out ->
    In k (map (@row_key R X) T) ->
    exists a, In a out /\ a_key a = k.
Proof.
  intros X T out k Hsel Hk. apply in_map_iff in Hk. destruct Hk as [r0 [Ek Hr0]].
  assert (Hg : group (@row_key R X) T k <> []).
  { intro E. assert (Hin : In r0 (group (@row_key R X) T k))
      by (apply group_In; auto).
    rewrite E in Hin. contradiction. }
  destruct (best_model_of_spec Hg) as [best [Eb [[r [[Hr _] Em]] _]]].
  destruct (@select_keeps_winner R Script.Score_R X T out k r Hsel Hr)
    as [a [Ha [Hka _]]].
  { unfold best_or. rewrite Eb. assumption. }
  exists a. auto.
Qed.

(** C9.  When the file loop runs through, the table handed to the fitting
    engine at line 297 is the at-home training table, whole and alone.
    Every fitted trial was made from a row of a file of the at-home listing
    that is not on the exclusion list and whose single day label (after the
    corrections of the loop) is none of 22, 23, 24, so no dual-task,
    button-switch or lab trial is fit.  Every row of every such file is
    fitted: no inclusion or Stroop filter stands between the files and the
    engine, these filters being applied to [d_all] alone.  The (subject,
    day) pairs with a Fit Result are those of that table, and whenever the
    selector returns on a table holding these pairs, in memory or read
    back, each of them has a Best-Model Assignment, whether or not the
    subject passes the inclusion criteria. *)
Theorem fit_only_on_home_training :
  forall (home : list DataFile) (recs : Recs),
    load_files no_recs home = Some recs ->
    let d := training_table (df_train_rec recs) in
    (forall t, In t d ->
       exists f r,
         In f home /\ excluded (fs f) = false /\
         In r (fix_file (fs f) (content f)) /\
         unique_days (fix_file (fs f) (content f)) = [r_day r] /\
         isin (r_day r) [22; 23; 24]%Z = false /\
         t_f_name t = fs f /\ made_from t r) /\
    (forall f dy r,
       In f home -> excluded (fs f) = false ->
       unique_days (fix_file (fs f) (content f)) = [dy] ->
       isin dy [22; 23; 24]%Z = false ->
       In r (fix_file (fs f) (content f)) ->
       exists t k,
         In t d /\ made_from t r /\ t_f_name t = fs f /\
         k = trial_key t /\
         In k (map (@row_key R (R * list R)) (fit_table d))) /\
    (forall k, In k (map (@row_key R (R * list R)) (fit_table d)) <->
               In k (map trial_key d)) /\
    (forall (X : Type) (T : list (FitRow R X)) (out : list (Assignment R)),
       (forall k, In k (map (@row_key R (R * list R)) (fit_table d)) ->
                  In k (map (@row_key R X) T)) ->
       select T = Some out ->
       forall t, In t d -> exists a, In a out /\ a_key a = trial_key t).
Proof.
  intros home recs Hload d. split; [|split; [|split]].
  - intros t Ht. apply (@training_table_origin home recs t Hload Ht).
  - intros f dy r Hf Hex Hu Hi Hr.
    destruct (@training_table_complete home recs f dy r Hload Hf Hex Hu Hi Hr)
      as [t [Ht [Hm Hn]]].
    exists t, (trial_key t). repeat split; try assumption; try apply Hm.
    apply fit_table_keys. apply in_map. assumption.
  - intro k. apply fit_table_keys.
  - intros X T out Hkeys Hsel t Ht.
    apply (@select_covers X T out (trial_key t) Hsel).
    apply Hkeys. apply fit_table_keys. apply in_map. assumption.
Qed.
End FitInput.

(** *** A subject with training data only

    Subject 1 has a training day, a dual-task day, a button-switch day and a
    lab session; subject 7 has a training day only. *)

Definition home_listing : list DataFile :=
  [ mkFile "sub_001_day_01_data.csv"
      [mkRow "" 1 1 0 "A" "A" 0 0 None None];
    mkFile "sub_001_day_22_data.csv"
      [mkRow "" 1 22 0 "A" "B" 0 0 (Some "left") (Some "left")];
    mkFile "sub_001_day_23_data.csv"
      [mkRow "" 1 23 0 "B" "B" 0 0 None None];
    mkFile "sub_007_day_01_data.csv"
      [mkRow "" 7 1 0 "B" "A" 0 0 None None] ]%string.

Definition lab_listing : list DataFile :=
  [ mkFile "sub_001_day_201_data.csv"
      [mkRow "" 1 201 0 "A" "A" 0 0 None None] ]%string.

Definition home_recs : Recs :=
  Eval vm_compute in
    match load_files no_recs home_listing with
    | Some recs => recs
    | None => no_recs
    end.

Example home_recs_loaded : load_files no_recs home_listing = Some home_recs.
Proof. vm_compute. reflexivity. Qed.

Example only_subject_one_included :
  Analysis.included_subjects
    (List.concat (df_train_rec home_recs)) (List.concat (df_dt_rec home_recs))
    (List.concat (df_bs_rec home_recs)) (List.concat (load_lab_files lab_listing))
  = [1%Z].
Proof. vm_compute. reflexivity. Qed.

Example subject_seven_is_fit :
  map trial_key (training_table (df_train_rec home_recs)) = [(1, 1); (7, 1)]%Z.
Proof. vm_compute. reflexivity. Qed.

(** Subject 7 fails the inclusion criteria and has a Fit Result. *)
Example excluded_subject_has_fit_result :
  ~ In 7%Z (Analysis.included_subjects
              (List.concat (df_train_rec home_recs))
              (List.concat (df_dt_rec home_recs))
              (List.concat (df_bs_rec home_recs))
              (List.concat (load_lab_files lab_listing))) /\
  In (7, 1)%Z
     (map (@row_key R (R * list R))
          (fit_table (fun _ => 0%R) (/ 1000)%R 0%R demo_minimize demo_guess
                     (training_table (df_train_rec home_recs)))).
Proof.
  split.
  - rewrite only_subject_one_included. simpl. intros [H|[]]. discriminate H.
  - apply fit_table_keys. rewrite subject_seven_is_fit. right. left.
    reflexivity.
Qed.

Lemma fit_only_on_home_training_witness :
  let d := training_table (df_train_rec home_recs) in
  let fit_table :=
    fit_table (fun _ => 0%R) (/ 1000)%R 0%R demo_minimize demo_guess in
  (forall t, In t d ->
     exists f r,
       In f home_listing /\ excluded (fs f) = false /\
       In r (fix_file (fs f) (content f)) /\
       unique_days (fix_file (fs f) (content f)) = [r_day r] /\
       isin (r_day r) [22; 23; 24]%Z = false /\
       t_f_name t = fs f /\ made_from t r) /\
  (forall f dy r,
     In f home_listing -> excluded (fs f) = false ->
     unique_days (fix_file (fs f) (content f)) = [dy] ->
     isin dy [22; 23; 24]%Z = false ->
     In r (fix_file (fs f) (content f)) ->
     exists t k,
       In t d /\ made_from t r /\ t_f_name t = fs f /\
       k = trial_key t /\
       In k (map (@row_key R (R * list R)) (fit_table d))) /\
  (forall k, In k (map (@row_key R (R * list R)) (fit_table d)) <->
             In k (map trial_key d)) /\
  (forall (X : Type) (T : list (FitRow R X)) (out : list (Assignment R)),
     (forall k, In k (map (@row_key R (R * list R)) (fit_table d)) ->
                In k (map (@row_key R X) T)) ->
     select T = Some out ->
     forall t, In t d -> exists a, In a out /\ a_key a = trial_key t).
Proof.
  apply (@fit_only_on_home_training (fun _ => 0%R) (/ 1000)%R 0%R demo_minimize
           demo_guess home_listing home_recs).
  vm_compute. reflexivity.
Defined.

(** ** Facts about the trial loop *)

Section SessionFacts.
Import RunExp.
Variable subject : string.
Variable day : option Z.
Variable ds : list Stim.

(** The trial column counts 0, 1, 2, ... *)
Definition numbered (rows : list DataRow) : Prop :=
  map d_trial rows = map Z.of_nat (seq 0 (List.length rows)).

(** What holds on every pass of a session that found [old] on disk. *)
Definition session_inv (old : option (list DataRow)) (m : Machine) : Prop :=
  numbered (trial_data m) /\
  disk m = match trial_data m with
           | [] => old
           | _ => Some (trial_data m)
           end /\
  trial m = match state_current m with
            | state_init | state_iti =>
                (Z.of_nat (List.length (trial_data m)) - 1)%Z
            | _ => Z.of_nat (List.length (trial_data m))
            end /\
  match state_current m with
  | state_stim | state_feedback => exists st, iloc ds (trial m) = Some st
  | _ => True
  end.

Lemma numbered_snoc :
  forall (rows : list DataRow) (row : DataRow),
    numbered rows ->
    d_trial row = Z.of_nat (List.length rows) ->
    numbered (rows ++ [row]).
Proof.
  unfold numbered. intros rows row Hn Hr.
  rewrite map_app, List.length_app. cbn [List.length map].
  rewrite Nat.add_1_r, seq_S, map_app, Hn, Hr. reflexivity.
Qed.

Lemma snoc_not_nil :
  forall (A : Type) (l : list A) (x : A) (none some : option (list A)),
    match l ++ [x] with [] => none | _ => some end = some.
Proof. intros A [|y l] x none some; reflexivity. Qed.

Lemma step_inv :
  forall (old : option (list DataRow)) (fr : Frame) (m m' : Machine),
    session_inv old m ->
    step subject day ds fr m = Some m' ->
    session_inv old m'.
Proof.
  intros old fr m m' [Hn [Hd [Ht Hi]]] Hs. unfold step in Hs.
  destruct (escape fr).
  { injection Hs as <-. unfold session_inv. simpl. auto. }
  destruct (state_current m) eqn:Es.
  - destruct (space fr); injection Hs as <-; unfold session_inv; simpl;
      rewrite ?Es; auto.
  - injection Hs as <-. unfold session_inv. simpl. auto.
  - destruct (Qlt_le_dec 1000 (time_state fr)).
    + destruct (n_total <=? trial m + 1)%Z.
      * injection Hs as <-. unfold session_inv. simpl.
        repeat split; auto. lia.
      * destruct (iloc ds (trial m + 1)) as [st|] eqn:Ei; [|discriminate].
        injection Hs as <-. unfold session_inv. simpl.
        repeat split; eauto. lia.
    + injection Hs as <-. unfold session_inv. simpl. rewrite ?Es. auto.
  - destruct (key_pressed fr) as [[name secs]|].
    + destruct (iloc ds (trial m)) as [st|] eqn:Ei; [|discriminate].
      injection Hs as <-. unfold session_inv. simpl. eauto.
    + destruct (state_entry m).
      * destruct (iloc ds (trial m)) as [st0|] eqn:Ei0; [|discriminate].
        injection Hs as <-. unfold session_inv. simpl. rewrite ?Es. eauto.
      * injection Hs as <-. unfold session_inv. simpl. rewrite ?Es. auto.
  - destruct (Qlt_le_dec 1000 (time_state fr)).
    + destruct day as [dy|]; [|discriminate].
      destruct (iloc ds (trial m)) as [st|]; [|discriminate].
      injection Hs as <-. unfold session_inv. simpl.
      split; [|split; [|split]].
      * apply numbered_snoc; [assumption|exact Ht].
      * symmetry. apply snoc_not_nil.
      * rewrite List.length_app. simpl. lia.
      * exact I.
    + destruct (state_entry m).
      * destruct (iloc ds (trial m)) as [st0|] eqn:Ei0; [|discriminate].
        injection Hs as <-. unfold session_inv. simpl. rewrite ?Es. eauto.
      * injection Hs as <-. unfold session_inv. simpl. rewrite ?Es. auto.
Qed.

Lemma run_inv :
  forall (old : option (list DataRow)) (frames : list Frame) (m m' : Machine),
    session_inv old m ->
    run subject day ds frames m = Some m' ->
    session_inv old m'.
Proof.
  intros old frames. induction frames as [|fr frames IH]; simpl; intros m m' Hi Hr.
  - injection Hr as <-. assumption.
  - destruct (running m).
    + destruct (step subject day ds fr m) as [m1|] eqn:Es; [|discriminate].
      apply (IH m1 m'); [|assumption]. apply (@step_inv old fr m m1 Hi Es).
    + injection Hr as <-. assumption.
Qed.

Lemma startup_inv :
  forall (existing : list (string * list DataRow)) (m0 : Machine),
    startup existing = Some m0 ->
    m0 = mkMachine true state_init true None None (-1) EmptyString EmptyString
                   []
                   match existing with [(_, rows)] => Some rows | _ => None end.
Proof.
  intros existing m0 H. unfold startup in H.
  destruct existing as [|[name rows] [|e2 rest]]; try discriminate.
  - destruct (n_total <=? 0)%Z; [discriminate|]. injection H as <-. auto.
  - destruct (n_total <=? Z.of_nat (List.length rows))%Z; [discriminate|].
    injection H as <-. auto.
Qed.

Lemma run_stopped :
  forall (frames : list Frame) (m : Machine),
    running m = false -> run subject day ds frames m = Some m.
Proof. intros [|fr frames] m H; simpl; [|rewrite H]; reflexivity. Qed.

(** Running the passes of [a], then those of [b]. *)
Lemma run_app :
  forall (a b : list Frame) (m : Machine),
    run subject day ds (a ++ b) m =
    match run subject day ds a m with
    | Some m' => run subject day ds b m'
    | None => None
    end.
Proof.
  induction a as [|fr a IH]; intros b m; simpl; [reflexivity|].
  destruct (running m) eqn:Er.
  - destruct (step subject day ds fr m) as [m1|]; [apply IH|reflexivity].
  - symmetry. apply run_stopped. assumption.
Qed.

(** The pass that ends a feedback interval: with [day] bound it appends one
    row, numbered by the rows recorded so far, and writes the rows of this
    session over the day file; with [day] unbound it raises. *)
Lemma step_save :
  forall (fr : Frame) (m : Machine) (st : Stim),
    escape fr = false ->
    state_current m = state_feedback ->
    (1000 < time_state fr)%Q ->
    iloc ds (trial m) = Some st ->
    step subject day ds fr m =
    match day with
    | None => None
    | Some dy =>
        let row := mkDataRow subject dy (trial m) (s_cat st) (s_x st) (s_y st)
                             (s_xt st) (s_yt st) (resp m) (rt m) (fb m) in
        Some (mkMachine true state_iti true None None (trial m) (cat m) (fb m)
                        (trial_data m ++ [row]) (Some (trial_data m ++ [row])))
    end.
Proof.
  intros fr m st He Hs Ht Hi. unfold step. rewrite He, Hs, Hi.
  destruct (Qlt_le_dec 1000 (time_state fr)) as [_|Hle].
  - destruct day; reflexivity.
  - exfalso. apply (Qle_not_lt _ _ Hle). assumption.
Qed.

Lemma step_init_space :
  forall (fr : Frame) (m : Machine),
    escape fr = false -> state_current m = state_init -> space fr = true ->
    step subject day ds fr m = Some (with_state m state_iti true).
Proof.
  intros fr m He Hs Hsp. unfold step. rewrite He, Hs, Hsp. reflexivity.
Qed.

Lemma step_iti_next :
  forall (fr : Frame) (m : Machine) (st : Stim) (t' : Z),
    escape fr = false -> state_current m = state_iti ->
    (1000 < time_state fr)%Q ->
    t' = (trial m + 1)%Z -> (t' < n_total)%Z -> iloc ds t' = Some st ->
    step subject day ds fr m =
    Some (mkMachine true state_stim true None None t' (s_cat st) (fb m)
                    (trial_data m) (disk m)).
Proof.
  intros fr m st t' He Hs Ht Et Hlt Hi. unfold step. rewrite He, Hs.
  destruct (Qlt_le_dec 1000 (time_state fr)) as [_|Hle];
    [|exfalso; apply (Qle_not_lt _ _ Hle); assumption].
  cbv zeta. rewrite <- Et.
  destruct (n_total <=? t')%Z eqn:E; [apply Z.leb_le in E; lia|].
  rewrite Hi. reflexivity.
Qed.

Lemma step_stim_key :
  forall (fr : Frame) (m : Machine) (st : Stim) (name : string) (secs : float),
    escape fr = false -> state_current m = state_stim ->
    key_pressed fr = Some (name, secs) -> iloc ds (trial m) = Some st ->
    exists m' : Machine,
      step subject day ds fr m = Some m' /\
      running m' = true /\ state_current m' = state_feedback /\
      trial m' = trial m /\ trial_data m' = trial_data m /\ disk m' = disk m.
Proof.
  intros fr m st name secs He Hs Hk Hi. unfold step. rewrite He, Hs, Hk, Hi.
  eexists. split; [reflexivity|]. cbn. repeat split.
Qed.

(** The first trial of a session: the space bar, a full inter-trial
    interval and a key press lead to the feedback of trial 0. *)
Lemma first_trial_feedback :
  forall (m0 : Machine) (st : Stim) (rest : list Stim) (f1 f2 f3 : Frame)
         (name : string) (secs : float),
    running m0 = true -> state_current m0 = state_init ->
    trial m0 = (-1)%Z ->
    ds = st :: rest ->
    escape f1 = false -> space f1 = true ->
    escape f2 = false -> (1000 < time_state f2)%Q ->
    escape f3 = false -> key_pressed f3 = Some (name, secs) ->
    exists m : Machine,
      run subject day ds [f1; f2; f3] m0 = Some m /\
      running m = true /\ state_current m = state_feedback /\
      trial m = 0%Z /\ trial_data m = trial_data m0 /\ disk m = disk m0 /\
      iloc ds (trial m) = Some st.
Proof.
  intros m0 st rest f1 f2 f3 name secs Hr0 Hs0 Ht0 Hds He1 Hs1 He2 Ht2 He3 Hk3.
  assert (Hi : iloc ds 0 = Some st) by (rewrite Hds; reflexivity).
  pose proof (@step_init_space f1 m0 He1 Hs0 Hs1) as E1.
  set (m1 := with_state m0 state_iti true) in E1.
  assert (E2 : step subject day ds f2 m1 =
               Some (mkMachine true state_stim true None None 0 (s_cat st)
                               (fb m1) (trial_data m1) (disk m1))).
  { apply step_iti_next; try assumption; try reflexivity.
    unfold m1. cbn. rewrite Ht0. reflexivity. }
  set (m2 := mkMachine true state_stim true None None 0 (s_cat st)
                       (fb m1) (trial_data m1) (disk m1)) in E2.
  destruct (@step_stim_key f3 m2 st name secs He3 eq_refl Hk3 Hi)
    as [m3 [E3 [Hr3 [Hs3 [Ht3 [Hd3 Hk3']]]]]].
  exists m3. cbn [run]. rewrite Hr0, E1.
  change (running m1) with (running m0). rewrite Hr0, E2.
  cbn [running m2]. rewrite E3.
  split; [destruct (running m3); reflexivity|].
  repeat split; try assumption.
  rewrite Ht3. exact Hi.
Qed.

(** C10.  A session that finds [old], the rows recorded earlier the same
    day, starts its trial counter at -1 and its record empty whatever the
    number of those rows.  At any later pass the rows it has recorded are
    numbered from 0 and the day file holds the earlier rows until the first
    save and from then on exactly the rows of this session.  A pass that
    ends a feedback interval is a save: with [day] bound it appends one row,
    numbered by the count of the rows recorded in this session, and writes
    these rows over the file; so the first trial of the resumed session is
    recorded as trial 0 and the file then holds that one row, the earlier
    rows being gone.  With [day] unbound the save raises, and the file is
    never written. *)
Theorem resume_restarts_numbering :
  forall (name : string) (old : list DataRow) (m0 : Machine),
    startup [(name, old)] = Some m0 ->
    trial m0 = (-1)%Z /\ trial_data m0 = [] /\ disk m0 = Some old /\
    (forall (frames : list Frame) (m : Machine),
       run subject day ds frames m0 = Some m ->
       numbered (trial_data m) /\
       disk m = match trial_data m with
                | [] => Some old
                | _ => Some (trial_data m)
                end /\
       (day = None -> trial_data m = []) /\
       forall fr : Frame,
         running m = true -> escape fr = false ->
         state_current m = state_feedback -> (1000 < time_state fr)%Q ->
         match day with
         | None => run subject day ds (frames ++ [fr]) m0 = None
         | Some dy =>
             exists (row : DataRow) (m' : Machine),
               run subject day ds (frames ++ [fr]) m0 = Some m' /\
               trial_data m' = trial_data m ++ [row] /\
               d_trial row = Z.of_nat (List.length (trial_data m)) /\
               d_day row = dy /\
               disk m' = Some (trial_data m ++ [row])
         end) /\
    (forall (st : Stim) (rest : list Stim) (f1 f2 f3 f4 : Frame)
            (key : string) (secs : float),
       ds = st :: rest ->
       escape f1 = false -> space f1 = true ->
       escape f2 = false -> (1000 < time_state f2)%Q ->
       escape f3 = false -> key_pressed f3 = Some (key, secs) ->
       escape f4 = false -> (1000 < time_state f4)%Q ->
       match day with
       | None => run subject day ds [f1; f2; f3; f4] m0 = None
       | Some dy =>
           exists (row : DataRow) (m' : Machine),
             run subject day ds [f1; f2; f3; f4] m0 = Some m' /\
             trial_data m' = [row] /\ disk m' = Some [row] /\
             d_trial row = 0%Z /\ d_day row = dy /\ d_cat row = s_cat st
       end).
Proof.
  intros name old m0 Hstart.
  pose proof (@startup_inv [(name, old)] m0 Hstart) as Hm0.
  assert (Hinv : session_inv (Some old) m0).
  { rewrite Hm0. unfold session_inv. simpl. repeat split. }
  split; [rewrite Hm0; reflexivity|].
  split; [rewrite Hm0; reflexivity|].
  split; [rewrite Hm0; reflexivity|]. split.
  - intros frames m Hrun.
    destruct (@run_inv (Some old) frames m0 m Hinv Hrun) as [Hn [Hd [Ht Hi]]].
    split; [assumption|]. split; [assumption|]. split.
    + intro Hday. clear - Hrun Hm0 Hday.
      assert (H0 : trial_data m0 = []) by (rewrite Hm0; reflexivity).
      clear Hm0. revert m0 H0 Hrun.
      induction frames as [|fr frames IH]; simpl; intros m0 H0 Hrun.
      * injection Hrun as <-. assumption.
      * destruct (running m0); [|injection Hrun as <-; assumption].
        destruct (step subject day ds fr m0) as [m1|] eqn:Es; [|discriminate].
        apply (IH m1); [|assumption].
        unfold step in Es. rewrite Hday in Es.
        destruct (escape fr); [injection Es as <-; assumption|].
        destruct (state_current m0).
        -- destruct (space fr); injection Es as <-; assumption.
        -- injection Es as <-; assumption.
        -- destruct (Qlt_le_dec 1000 (time_state fr)).
           ++ destruct (n_total <=? trial m0 + 1)%Z;
                [injection Es as <-; assumption|].
              destruct (iloc ds (trial m0 + 1)); [|discriminate].
              injection Es as <-; assumption.
           ++ injection Es as <-; assumption.
        -- destruct (key_pressed fr) as [[nm secs]|].
           ++ destruct (iloc ds (trial m0)); [|discriminate].
              injection Es as <-; assumption.
           ++ destruct (state_entry m0).
              ** destruct (iloc ds (trial m0)); [|discriminate].
                 injection Es as <-; assumption.
              ** injection Es as <-; assumption.
        -- destruct (Qlt_le_dec 1000 (time_state fr)); [discriminate|].
           destruct (state_entry m0).
           ++ destruct (iloc ds (trial m0)); [|discriminate].
              injection Es as <-; assumption.
           ++ injection Es as <-; assumption.
    + intros fr Hr He Hs Hlt. rewrite Hs in Hi, Ht. destruct Hi as [st Hi].
      rewrite run_app, Hrun. cbn [run]. rewrite Hr.
      rewrite (@step_save fr m st He Hs Hlt Hi).
      destruct day as [dy|]; [|reflexivity].
      eexists. eexists. split; [reflexivity|]. cbn. repeat split. exact Ht.
  - intros st rest f1 f2 f3 f4 key secs Hds He1 Hs1 He2 Ht2 He3 Hk3 He4 Ht4.
    destruct (@first_trial_feedback m0 st rest f1 f2 f3 key secs)
      as [m [Hrun [Hr [Hs [Ht [Hd [Hk Hi]]]]]]];
      try assumption; try (rewrite Hm0; reflexivity).
    assert (Hd0 : trial_data m0 = []) by (rewrite Hm0; reflexivity).
    rewrite Hd0 in Hd.
    change [f1; f2; f3; f4] with ([f1; f2; f3] ++ [f4]).
    rewrite run_app, Hrun. cbn [run]. rewrite Hr.
    rewrite (@step_save f4 m st He4 Hs Ht4 Hi).
    destruct day as [dy|]; [|reflexivity].
    eexists. eexists. split; [reflexivity|]. cbn. rewrite Hd, Ht.
    repeat split.
Qed.
End SessionFacts.

(** *** A session resumed after three recorded trials *)

Definition earlier_rows : list RunExp.DataRow :=
  map (fun i => RunExp.mkDataRow "a1b2c3d4e5f6" 1 (Z.of_nat i) "A" 0 0 0 0
                                 (Some "A"%string) (Some 500%float) "Correct")
      (seq 0 3).

Definition one_stimulus : list RunExp.Stim :=
  [RunExp.mkStim "B" 0 0 0 0 RunExp.train].

(** Space bar, a full inter-trial interval, the key 'd' after 0.4 s, a full
    feedback interval. *)
Definition first_trial_frames : list RunExp.Frame :=
  [ RunExp.mkFrame false true None 0;
    RunExp.mkFrame false false None (1001 # 1);
    RunExp.mkFrame false false (Some ("d"%string, 0.4%float)) (10 # 1);
    RunExp.mkFrame false false None (1001 # 1) ].

Definition halted : RunExp.Machine :=
  RunExp.mkMachine false RunExp.state_init false None None 0
                   EmptyString EmptyString [] None.

Definition resumed_start : RunExp.Machine :=
  Eval vm_compute in
    match RunExp.startup [("sub_a1b2c3d4e5f6_date_20260101_data.csv"%string,
                           earlier_rows)] with
    | Some m => m
    | None => halted
    end.

Definition after_first_trial : RunExp.Machine :=
  Eval vm_compute in
    match RunExp.run "a1b2c3d4e5f6" (Some 1%Z) one_stimulus first_trial_frames
                     resumed_start with
    | Some m => m
    | None => halted
    end.

Example first_save_drops_earlier_rows :
  RunExp.disk resumed_start = Some earlier_rows /\
  List.length earlier_rows = 3%nat /\
  RunExp.disk after_first_trial
  = Some [RunExp.mkDataRow "a1b2c3d4e5f6" 1 0 "B" 0 0 0 0
                           (Some "A"%string) (Some 400%float) "Incorrect"].
Proof. vm_compute. repeat split. Qed.

(** With [day] unbound the same passes end in [NameError], and up to the
    save the file holds the earlier rows. *)
Example unbound_day_raises_at_first_save :
  RunExp.run "a1b2c3d4e5f6" None one_stimulus first_trial_frames resumed_start
  = None /\
  option_map RunExp.disk
    (RunExp.run "a1b2c3d4e5f6" None one_stimulus (firstn 3 first_trial_frames)
                resumed_start)
  = Some (Some earlier_rows).
Proof. vm_compute. split; reflexivity. Qed.

Lemma resume_restarts_numbering_witness :
  RunExp.trial resumed_start = (-1)%Z /\
  RunExp.disk resumed_start = Some earlier_rows /\
  exists (row : RunExp.DataRow) (m' : RunExp.Machine),
    RunExp.run "a1b2c3d4e5f6" (Some 1%Z) one_stimulus first_trial_frames
               resumed_start = Some m' /\
    RunExp.trial_data m' = [row] /\ RunExp.disk m' = Some [row] /\
    RunExp.d_trial row = 0%Z /\ RunExp.d_day row = 1%Z /\
    RunExp.d_cat row = "B"%string.
Proof.
  destruct (@resume_restarts_numbering "a1b2c3d4e5f6" (Some 1%Z) one_stimulus
              "sub_a1b2c3d4e5f6_date_20260101_data.csv" earlier_rows
              resumed_start eq_refl) as [Ht [_ [Hd [_ Hfirst]]]].
  split; [exact Ht|]. split; [exact Hd|].
  apply (Hfirst (RunExp.mkStim "B" 0 0 0 0 RunExp.train) []
           (RunExp.mkFrame false true None 0)
           (RunExp.mkFrame false false None (1001 # 1))
           (RunExp.mkFrame false false (Some ("d"%string, 0.4%float)) (10 # 1))
           (RunExp.mkFrame false false None (1001 # 1))
           "d"%string 0.4%float);
    reflexivity.
Defined.

(** ** The engine's table has one row per (subject, day, model) *)

Lemma NoDup_keyed_blocks :
  forall (A : Type) (W : key -> list (key * A)) (ks : list key),
    NoDup ks ->
    (forall k, In k ks -> NoDup (W k)) ->
    (forall k c, In c (W k) -> fst c = k) ->
    NoDup (flat_map W ks).
Proof.
  intros A W ks Hnd. induction Hnd as [|k ks Hnotin Hnd IH]; intros HW Hkey.
  - constructor.
  - simpl. apply NoDup_app.
    + apply HW. left. reflexivity.
    + apply IH; [|assumption]. intros k' Hk'. apply HW. right. assumption.
    + intros c Hc Hc'. apply in_flat_map in Hc'. destruct Hc' as [k' [Hk' Hin]].
      apply Hkey in Hc. apply Hkey in Hin. apply Hnotin. congruence.
Qed.

Section EngineTable.
Variable Phi : R -> R.
Variable eps : R.
Variable penalty : R.
Variable minimize : (list R -> R) -> list R -> list R * R.
Variable initial_guess : Dbm.Family -> list Trial -> list R.

Lemma fit_dbm_models :
  forall g : list Trial, g <> [] ->
    map Dbm.fr_model
        (Dbm.fit_dbm Phi eps penalty minimize initial_guess g Dbm.models Dbm.side
                     Dbm.k Dbm.n Dbm.model_names)
    = Dbm.model_names.
Proof.
  intros g Hg.
  pose proof (fit_dbm_jobs Phi eps penalty minimize initial_guess Hg) as Hj.
  apply (f_equal (map (fun j : Dbm.Family * (Z * (Z * string)) =>
                         snd (snd (snd j))))) in Hj.
  rewrite map_map in Hj. exact Hj.
Qed.

Lemma model_names_NoDup : NoDup Dbm.model_names.
Proof.
  unfold Dbm.model_names.
  repeat (constructor; [simpl; intuition discriminate|]). constructor.
Qed.

(** The Fit Result table the engine produces satisfies the hypothesis of
    the one-assignment-per-group theorem. *)
Lemma engine_table_distinct :
  forall d : list Trial,
    distinct_models
      (map Script.reset_index
           (Dbm.fit_groups Phi eps penalty minimize initial_guess d)).
Proof.
  intro d. unfold distinct_models.
  rewrite map_map, fit_groups_eq.
  rewrite flat_map_concat_map, concat_map, map_map, <- flat_map_concat_map.
  apply NoDup_keyed_blocks.
  - apply group_keys_NoDup.
  - intros [s dy] Hk. rewrite map_map.
    apply group_keys_In in Hk. destruct Hk as [t [Ht Ek]].
    assert (Hg : group trial_key d (s, dy) <> []).
    { intro E. assert (In t (group trial_key d (s, dy))) by (apply group_In; auto).
      rewrite E in H. contradiction. }
    match goal with
    | |- NoDup (map _ ?l) =>
        change (NoDup (map (fun x : Dbm.FitResult => ((s, dy), Dbm.fr_model x)) l))
    end.
    rewrite <- (map_map Dbm.fr_model (fun name : string => ((s, dy), name))).
    rewrite (fit_dbm_models Hg).
    apply NoDup_map_NoDup_ForallPairs; [|apply model_names_NoDup].
    intros x y _ _ E. injection E as E. assumption.
  - intros [s dy] c Hc. apply in_map_iff in Hc. destruct Hc as [kf [<- Hkf]].
    apply in_map_iff in Hkf. destruct Hkf as [fr [<- _]]. reflexivity.
Qed.
End EngineTable.

(** * Further properties of the code *)

(** ** The file loop: errors and routing ([inspect_results.py], lines 64-177) *)

(** The corrected frame of a file, and whether its rows carry exactly one
    day label. *)
Definition frame_of (f : DataFile) : list Row := fix_file (fs f) (content f).

Definition single_day (f : DataFile) : bool :=
  match unique_days (frame_of f) with
  | [_] => true
  | _ => false
  end.

Definition kept (f : DataFile) : bool := negb (excluded (fs f)).

Lemma load_file_None :
  forall (recs : Recs) (f : DataFile),
    load_file recs f = None <-> kept f = true /\ single_day f = false.
Proof.
  intros recs f. unfold load_file, kept, single_day, frame_of.
  destruct (excluded (fs f)); simpl.
  - split; [discriminate|intros [H _]; discriminate].
  - destruct (unique_days (fix_file (fs f) (content f))) as [|dy [|dy' l]].
    + tauto.
    + split; [discriminate|intros [_ H]; discriminate].
    + tauto.
Qed.

Lemma load_files_None :
  forall (files : list DataFile) (recs : Recs),
    load_files recs files = None <->
    exists f, In f files /\ kept f = true /\ single_day f = false.
Proof.
  induction files as [|f files IH]; intro recs; simpl.
  - split; [discriminate|intros [f [[] _]]].
  - destruct (load_file recs f) as [recs1|] eqn:E.
    + rewrite IH. split.
      * intros [g [Hg H]]. exists g. auto.
      * intros [g [[<-|Hg] H]].
        -- apply (load_file_None recs) in H. congruence.
        -- exists g. auto.
    + split; [|reflexivity]. intros _. exists f. split; [left; reflexivity|].
      apply (load_file_None recs). assumption.
Qed.

Lemma frame_of_length :
  forall f : DataFile, List.length (frame_of f) = List.length (content f).
Proof.
  intro f. unfold frame_of, fix_file.
  repeat match goal with
         | |- List.length (if ?b then map ?g ?l else ?l') = _ =>
             destruct b; [rewrite List.length_map|]
         end;
    apply List.length_map.
Qed.

Lemma drop_duplicates_two :
  forall (l : list Z) (x y : Z) (rest : list Z),
    drop_duplicates Z.eqb l = x :: y :: rest -> In x l /\ In y l /\ x <> y.
Proof.
  intros [|a l] x y rest E; [discriminate|].
  simpl in E. injection E as -> E.
  assert (Hy : In y (filter (fun z => negb (x =? z)%Z) (drop_duplicates Z.eqb l)))
    by (rewrite E; left; reflexivity).
  apply filter_In in Hy. destruct Hy as [Hy Hne].
  apply drop_duplicates_incl in Hy.
  split; [left; reflexivity|]. split; [right; assumption|].
  intro Exy. subst y. rewrite Z.eqb_refl in Hne. discriminate.
Qed.

Lemma single_day_false :
  forall f : DataFile,
    content f <> [] ->
    (single_day f = false <->
     exists r1 r2, In r1 (frame_of f) /\ In r2 (frame_of f) /\
                   r_day r1 <> r_day r2).
Proof.
  intros f Hne. unfold single_day.
  destruct (unique_days (frame_of f)) as [|d1 [|d2 rest]] eqn:Eu.
  - exfalso. apply Hne. apply length_zero_iff_nil.
    rewrite <- frame_of_length. unfold unique_days in Eu.
    destruct (frame_of f); [reflexivity|discriminate].
  - split; [discriminate|]. intros [r1 [r2 [H1 [H2 Hd]]]]. exfalso. apply Hd.
    rewrite (unique_days_single _ Eu r1 H1), (unique_days_single _ Eu r2 H2).
    reflexivity.
  - split; [intros _|reflexivity].
    unfold unique_days in Eu. apply drop_duplicates_two in Eu.
    destruct Eu as [H1 [H2 Hd]]. apply in_map_iff in H1, H2.
    destruct H1 as [r1 [E1 H1]]. destruct H2 as [r2 [E2 H2]].
    exists r1, r2. repeat split; try assumption. congruence.
Qed.

(** X1.  Over files that have rows, the loop over the at-home files raises
    exactly when some file that is not on the exclusion list holds, after
    the per-file corrections, two rows with different day labels; what the
    three lists held before plays no part. *)
Theorem load_files_raises_iff :
  forall (files : list DataFile) (recs : Recs),
    (forall f, In f files -> kept f = true -> content f <> []) ->
    (load_files recs files = None <->
     exists f r1 r2,
       In f files /\ kept f = true /\
       In r1 (frame_of f) /\ In r2 (frame_of f) /\ r_day r1 <> r_day r2).
Proof.
  intros files recs Hrows. rewrite load_files_None. split.
  - intros [f [Hf [Hk Hs]]].
    apply (@single_day_false f (Hrows f Hf Hk)) in Hs.
    destruct Hs as [r1 [r2 H]]. exists f, r1, r2. tauto.
  - intros [f [r1 [r2 [Hf [Hk H]]]]]. exists f.
    split; [assumption|]. split; [assumption|].
    apply (@single_day_false f (Hrows f Hf Hk)). exists r1, r2. assumption.
Qed.

Definition frames_held (recs : Recs) : nat :=
  (List.length (df_train_rec recs) + List.length (df_dt_rec recs)
   + List.length (df_bs_rec recs))%nat.

Lemma load_file_one_list :
  forall (recs recs' : Recs) (f : DataFile),
    load_file recs f = Some recs' ->
    frames_held recs' = (frames_held recs + (if kept f then 1 else 0))%nat.
Proof.
  intros recs recs' f. unfold load_file, kept, frames_held.
  destruct (excluded (fs f)); simpl.
  - intro E. injection E as <-. lia.
  - destruct (unique_days (fix_file (fs f) (content f))) as [|dy [|dy' l]];
      try discriminate.
    intro E. injection E as <-. cbn [df_train_rec df_dt_rec df_bs_rec].
    unfold append_if.
    destruct (dy =? 22)%Z eqn:E22; destruct (dy =? 23)%Z eqn:E23;
      destruct (dy =? 24)%Z eqn:E24;
      rewrite ?Z.eqb_eq in *; try lia;
      cbn [orb negb]; rewrite ?List.length_app; simpl; lia.
Qed.

(** X2.  The three tests of lines 168-176 are separate [if]s, yet when the
    loop completes every file that is not excluded has been appended to
    exactly one of the three lists: together the lists hold one frame more
    per kept file. *)
Theorem load_files_one_list_per_file :
  forall (files : list DataFile) (recs recs' : Recs),
    load_files recs files = Some recs' ->
    frames_held recs'
    = (frames_held recs + List.length (filter kept files))%nat.
Proof.
  induction files as [|f files IH]; simpl; intros recs recs' E.
  - injection E as <-. lia.
  - destruct (load_file recs f) as [recs1|] eqn:E1; [|discriminate].
    rewrite (IH _ _ E), (load_file_one_list _ _ E1).
    destruct (kept f); simpl; lia.
Qed.

(** X3.  Files on the exclusion list are never read: dropping them from the
    listing changes nothing, whatever they contain. *)
Theorem load_files_ignores_excluded :
  forall (files : list DataFile) (recs : Recs),
    load_files recs (filter kept files) = load_files recs files.
Proof.
  induction files as [|f files IH]; intro recs; simpl; [reflexivity|].
  destruct (kept f) eqn:Ek; simpl.
  - destruct (load_file recs f); [apply IH|reflexivity].
  - unfold load_file. unfold kept in Ek.
    destruct (excluded (fs f)); [apply IH|discriminate].
Qed.

(** ** The canonical table: sorting, day ranks and trial counts
    ([inspect_results.py], lines 200-208) *)

Lemma row_leb_total : forall a b : Row, row_leb a b = true \/ row_leb b a = true.
Proof.
  intros a b. unfold row_leb.
  destruct (Z.ltb_spec (r_subject a) (r_subject b)); [auto|].
  destruct (Z.ltb_spec (r_subject b) (r_subject a)); [auto|].
  assert (E : r_subject a = r_subject b) by lia. rewrite E, Z.eqb_refl.
  destruct (Z.ltb_spec (r_day a) (r_day b)); [auto|].
  destruct (Z.ltb_spec (r_day b) (r_day a)); [auto|].
  assert (E' : r_day a = r_day b) by lia. rewrite E', Z.eqb_refl.
  rewrite !Z.leb_le. lia.
Qed.

Lemma row_leb_trans :
  forall a b c : Row,
    row_leb a b = true -> row_leb b c = true -> row_leb a c = true.
Proof.
  intros a b c. unfold row_leb.
  destruct (Z.ltb_spec (r_subject a) (r_subject b)),
           (Z.eqb_spec (r_subject a) (r_subject b)),
           (Z.ltb_spec (r_subject b) (r_subject c)),
           (Z.eqb_spec (r_subject b) (r_subject c)),
           (Z.ltb_spec (r_subject a) (r_subject c)),
           (Z.eqb_spec (r_subject a) (r_subject c));
    try lia; try discriminate; auto;
    destruct (Z.ltb_spec (r_day a) (r_day b)),
             (Z.eqb_spec (r_day a) (r_day b)),
             (Z.ltb_spec (r_day b) (r_day c)),
             (Z.eqb_spec (r_day b) (r_day c)),
             (Z.ltb_spec (r_day a) (r_day c)),
             (Z.eqb_spec (r_day a) (r_day c));
    rewrite ?Z.leb_le; intros; try lia; try discriminate; auto.
Qed.

Definition row_le (a b : Row) : Prop := row_leb a b = true.

Lemma insert_row_perm :
  forall (r : Row) (l : list Row), Permutation (insert_row r l) (r :: l).
Proof.
  intros r l. induction l as [|y l IH]; simpl.
  - apply Permutation_refl.
  - destruct (row_leb r y); [apply Permutation_refl|].
    apply perm_trans with (y :: r :: l); [|apply perm_swap].
    apply perm_skip. assumption.
Qed.

Lemma insert_row_sorted :
  forall (r : Row) (l : list Row),
    StronglySorted row_le l -> StronglySorted row_le (insert_row r l).
Proof.
  intros r l Hs. induction Hs as [|y l Hs IH Hall]; simpl.
  - repeat constructor.
  - destruct (row_leb r y) eqn:E.
    + constructor; [constructor; assumption|].
      constructor; [exact E|].
      rewrite Forall_forall in *. intros z Hz.
      apply (row_leb_trans r y z E). apply Hall. assumption.
    + constructor; [assumption|].
      rewrite Forall_forall in *. intros z Hz.
      apply insert_row_In in Hz. destruct Hz as [->|Hz]; [|auto].
      destruct (row_leb_total r y) as [H|H]; [congruence|exact H].
Qed.

Lemma sort_values_perm : forall l : list Row, Permutation (sort_values l) l.
Proof.
  induction l as [|r l IH]; simpl; [constructor|].
  apply perm_trans with (r :: sort_values l).
  - apply insert_row_perm.
  - apply perm_skip. assumption.
Qed.

Lemma sort_values_sorted :
  forall l : list Row, StronglySorted row_le (sort_values l).
Proof.
  induction l as [|r l IH]; simpl; [constructor|].
  apply insert_row_sorted. assumption.
Qed.

Lemma insert_row_stable :
  forall (p : Row -> bool) (r : Row) (l : list Row),
    (forall y, In y l -> p y = true -> row_leb r y = true) ->
    filter p (insert_row r l) = filter p (r :: l).
Proof.
  intros p r l. induction l as [|y l IH]; intro H; [reflexivity|].
  cbn [insert_row]. destruct (row_leb r y) eqn:E; [reflexivity|].
  assert (Py : p y = false).
  { destruct (p y) eqn:Py; [|reflexivity].
    rewrite (H y (or_introl eq_refl) Py) in E. discriminate. }
  cbn [filter]. rewrite Py, IH.
  - reflexivity.
  - intros z Hz. apply H. right. assumption.
Qed.

(** X4.  [sort_values(by=['subject', 'day', 'trial'])] rearranges the rows
    of the concatenated frames without losing or repeating any, into
    non-decreasing (subject, day, trial) order, and rows that agree on the
    three sort columns keep the order they had. *)
Theorem sort_values_sorted_permutation :
  forall l : list Row,
    Permutation (sort_values l) l /\
    StronglySorted row_le (sort_values l) /\
    (forall s d t : Z,
       let same r := ((r_subject r =? s) && (r_day r =? d) && (r_trial r =? t))%Z in
       filter same (sort_values l) = filter same l).
Proof.
  intro l. split; [apply sort_values_perm|]. split; [apply sort_values_sorted|].
  intros s d t same. induction l as [|r l IH]; [reflexivity|].
  cbn [sort_values fold_right]. fold (sort_values l).
  destruct (same r) eqn:Er.
  - rewrite insert_row_stable.
    + cbn [filter]. rewrite Er, IH. reflexivity.
    + intros y _ Py. unfold same in Er, Py.
      apply andb_true_iff in Er. destruct Er as [Er Et].
      apply andb_true_iff in Er. destruct Er as [Es Ed].
      apply andb_true_iff in Py. destruct Py as [Py Pt].
      apply andb_true_iff in Py. destruct Py as [Ps Pd].
      rewrite Z.eqb_eq in *. unfold row_leb.
      rewrite Es, Ps, Ed, Pd, Et, Pt, !Z.ltb_irrefl, !Z.eqb_refl.
      apply Z.leb_refl.
  - cbn [filter]. rewrite Er, <- IH.
    clear IH. induction (sort_values l) as [|y l' IH']; simpl.
    + rewrite Er. reflexivity.
    + destruct (row_leb r y); simpl.
      * rewrite Er. reflexivity.
      * rewrite IH'. reflexivity.
Qed.

(** The distinct day labels of the participant of [r], sorted. *)
Definition days_of (T : list Row) (r : Row) : list Z :=
  sort_unique Z.leb
    (map r_day (filter (fun r' => (r_subject r' =? r_subject r)%Z) T)).

Lemma Zleb_total : forall x y : Z, (x <=? y)%Z = true \/ (y <=? x)%Z = true.
Proof. intros x y. rewrite !Z.leb_le. lia. Qed.

Lemma Zleb_trans :
  forall x y z : Z,
    (x <=? y)%Z = true -> (y <=? z)%Z = true -> (x <=? z)%Z = true.
Proof. intros x y z. rewrite !Z.leb_le. lia. Qed.

Lemma Zleb_antisym :
  forall x y : Z, (x <=? y)%Z = true -> (y <=? x)%Z = true -> x = y.
Proof. intros x y. rewrite !Z.leb_le. lia. Qed.

Lemma days_of_In :
  forall (T : list Row) (r : Row) (d : Z),
    In d (days_of T r) <->
    exists r', In r' T /\ r_subject r' = r_subject r /\ r_day r' = d.
Proof.
  intros T r d. unfold days_of.
  rewrite (sort_unique_In Z.leb Zleb_antisym), in_map_iff. split.
  - intros [r' [E H]]. apply filter_In in H. destruct H as [H1 H2].
    apply Z.eqb_eq in H2. exists r'. auto.
  - intros [r' [H1 [H2 E]]]. exists r'. split; [assumption|].
    apply filter_In. split; [assumption|]. apply Z.eqb_eq. assumption.
Qed.

Lemma days_of_same_subject :
  forall (T : list Row) (r1 r2 : Row),
    r_subject r1 = r_subject r2 -> days_of T r1 = days_of T r2.
Proof. intros T r1 r2 E. unfold days_of. rewrite E. reflexivity. Qed.

Lemma days_of_NoDup : forall (T : list Row) (r : Row), NoDup (days_of T r).
Proof.
  intros T r. unfold days_of.
  apply (sort_unique_NoDup Z.leb Zleb_total Zleb_trans Zleb_antisym).
Qed.

Lemma dense_rank_days_of :
  forall (T : list Row) (r : Row),
    dense_rank T r
    = Z.of_nat (List.length (filter (fun d => (d <=? r_day r)%Z) (days_of T r))).
Proof. reflexivity. Qed.

Lemma count_le_mono :
  forall (L : list Z) (d d' : Z),
    (d <= d')%Z ->
    (List.length (filter (fun x => (x <=? d)%Z) L)
     <= List.length (filter (fun x => (x <=? d')%Z) L))%nat.
Proof.
  intros L d d' H. induction L as [|x L IH]; simpl; [lia|].
  destruct (Z.leb_spec x d), (Z.leb_spec x d'); simpl; lia.
Qed.

Lemma count_le_strict :
  forall (L : list Z) (d d' : Z),
    (d < d')%Z -> In d' L ->
    (List.length (filter (fun x => (x <=? d)%Z) L)
     < List.length (filter (fun x => (x <=? d')%Z) L))%nat.
Proof.
  intros L d d' H. induction L as [|x L IH]; simpl; [tauto|].
  intros [->|Hin].
  - pose proof (@count_le_mono L d d' ltac:(lia)).
    destruct (Z.leb_spec d' d), (Z.leb_spec d' d'); simpl; lia.
  - specialize (IH Hin).
    destruct (Z.leb_spec x d), (Z.leb_spec x d'); simpl; lia.
Qed.

Lemma count_le_pos :
  forall (L : list Z) (d : Z),
    In d L -> (1 <= List.length (filter (fun x => (x <=? d)%Z) L))%nat.
Proof.
  intros L d Hin.
  assert (H : In d (filter (fun x => (x <=? d)%Z) L)).
  { apply filter_In. split; [assumption|]. apply Z.leb_le. lia. }
  destruct (filter (fun x => (x <=? d)%Z) L); [contradiction|simpl; lia].
Qed.

Lemma own_day_In :
  forall (T : list Row) (r : Row), In r T -> In (r_day r) (days_of T r).
Proof. intros T r H. apply days_of_In. exists r. auto. Qed.

Lemma dense_rank_le_iff :
  forall (T : list Row) (r1 r2 : Row),
    In r1 T -> In r2 T -> r_subject r1 = r_subject r2 ->
    ((dense_rank T r1 <= dense_rank T r2)%Z <-> (r_day r1 <= r_day r2)%Z).
Proof.
  intros T r1 r2 H1 H2 E.
  rewrite !dense_rank_days_of, (days_of_same_subject T r1 r2 E).
  pose proof (own_day_In T r1 H1) as I1.
  rewrite (days_of_same_subject T r1 r2 E) in I1.
  set (L := days_of T r2) in *.
  split.
  - intro Hle. destruct (Z.le_gt_cases (r_day r1) (r_day r2)) as [|Hgt];
      [assumption|].
    pose proof (@count_le_strict L (r_day r2) (r_day r1) ltac:(lia) I1). lia.
  - intro Hle. pose proof (@count_le_mono L _ _ Hle). lia.
Qed.

(** X5.  The dense rank that replaces the day column keeps the order of a
    participant's day labels and merges no two of them: for two rows of the
    same participant the new days compare as the labels do, and every new
    day is at least 1. *)
Theorem dense_rank_keeps_day_order :
  forall (T : list Row) (r1 r2 : Row),
    In r1 T -> In r2 T -> r_subject r1 = r_subject r2 ->
    ((dense_rank T r1 <= dense_rank T r2)%Z <-> (r_day r1 <= r_day r2)%Z) /\
    (dense_rank T r1 = dense_rank T r2 <-> r_day r1 = r_day r2) /\
    (1 <= dense_rank T r1)%Z.
Proof.
  intros T r1 r2 H1 H2 E.
  pose proof (dense_rank_le_iff T r1 r2 H1 H2 E) as H12.
  pose proof (dense_rank_le_iff T r2 r1 H2 H1 (eq_sym E)) as H21.
  split; [exact H12|]. split.
  - split; intro H; lia.
  - rewrite dense_rank_days_of.
    pose proof (count_le_pos (days_of T r1) (r_day r1) (own_day_In T r1 H1)).
    lia.
Qed.

Lemma NoDup_all_equal :
  forall (l : list Z) (d : Z),
    NoDup l -> (forall x, In x l -> x = d) -> (List.length l <= 1)%nat.
Proof.
  intros l d Hnd Hall. destruct l as [|x [|y l]]; simpl; try lia.
  exfalso. inversion Hnd as [|? ? Hnot _]; subst.
  apply Hnot. left.
  rewrite (Hall x) by (left; reflexivity).
  rewrite (Hall y) by (right; left; reflexivity). reflexivity.
Qed.

Lemma dense_rank_earliest :
  forall (T : list Row) (r : Row),
    In r T ->
    (forall r', In r' T -> r_subject r' = r_subject r ->
                (r_day r <= r_day r')%Z) ->
    dense_rank T r = 1%Z.
Proof.
  intros T r Hr Hmin. rewrite dense_rank_days_of.
  pose proof (own_day_In T r Hr) as Hown.
  pose proof (count_le_pos (days_of T r) (r_day r) Hown).
  assert (List.length (filter (fun d => (d <=? r_day r)%Z) (days_of T r))
          <= 1)%nat; [|lia].
  apply (@NoDup_all_equal _ (r_day r)).
  - apply NoDup_filter. apply days_of_NoDup.
  - intros x Hx. apply filter_In in Hx. destruct Hx as [Hx Hle].
    apply Z.leb_le in Hle. apply days_of_In in Hx.
    destruct Hx as [r' [Hr' [Es Ed]]]. specialize (Hmin r' Hr' Es). lia.
Qed.

(** X6.  New day 1 is the participant's earliest recorded day, whatever its
    label: a row gets day 1 exactly when no row of the same participant has
    a smaller day label. *)
Theorem dense_rank_one_iff_earliest :
  forall (T : list Row) (r : Row),
    In r T ->
    (dense_rank T r = 1%Z <->
     forall r', In r' T -> r_subject r' = r_subject r ->
                (r_day r <= r_day r')%Z).
Proof.
  intros T r Hr. split.
  - rewrite dense_rank_days_of.
    pose proof (own_day_In T r Hr) as Hown.
    intros H1 r' Hr' Es.
    destruct (Z.le_gt_cases (r_day r) (r_day r')) as [|Hgt]; [assumption|].
    assert (I' : In (r_day r') (days_of T r)).
    { apply days_of_In. exists r'. auto. }
    pose proof (@count_le_strict (days_of T r) (r_day r') (r_day r)
                  ltac:(lia) Hown).
    pose proof (count_le_pos (days_of T r) (r_day r') I'). lia.
  - apply dense_rank_earliest. assumption.
Qed.

(** X7.  [n_trials], counted on the new day column, is the number of rows
    with the participant and the original day label of the row: the
    re-ranking of days moves no trial from one day to another. *)
Theorem n_trials_counts_the_original_day :
  forall (T : list Row) (r : Row),
    In r T ->
    n_trials_of T r
    = Z.of_nat
        (List.length
           (filter (fun r' => (r_subject r' =? r_subject r)%Z
                              && (r_day r' =? r_day r)%Z) T)).
Proof.
  intros T r Hr. unfold n_trials_of. do 2 f_equal.
  apply filter_ext_in. intros r' Hr'.
  destruct (Z.eqb_spec (r_subject r') (r_subject r)) as [Es|]; [|reflexivity].
  simpl.
  pose proof (dense_rank_le_iff T r' r Hr' Hr Es) as H12.
  pose proof (dense_rank_le_iff T r r' Hr Hr' (eq_sym Es)) as H21.
  destruct (Z.eqb_spec (dense_rank T r') (dense_rank T r)) as [E1|N1],
           (Z.eqb_spec (r_day r') (r_day r)) as [E2|N2];
    try reflexivity; lia.
Qed.

(** The order of the canonical table on its recomputed columns: an earlier
    participant, or the same participant at a day that is not later and a
    trial index that is smaller. *)
Definition trial_before (a b : Trial) : Prop :=
  (t_subject a < t_subject b)%Z \/
  (t_subject a = t_subject b /\ (t_day a <= t_day b)%Z /\
   (t_trial a < t_trial b)%Z).

Lemma row_le_cases :
  forall a b : Row,
    row_leb a b = true ->
    (r_subject a < r_subject b)%Z \/
    (r_subject a = r_subject b /\ (r_day a <= r_day b)%Z).
Proof.
  intros a b. unfold row_leb.
  destruct (Z.ltb_spec (r_subject a) (r_subject b)); [auto|].
  destruct (Z.eqb_spec (r_subject a) (r_subject b)); [|discriminate].
  destruct (Z.ltb_spec (r_day a) (r_day b)); [intros _; right; lia|].
  destruct (Z.eqb_spec (r_day a) (r_day b)); [|discriminate].
  intros _. right. lia.
Qed.

Lemma cumcount_snoc :
  forall (above : list Z) (s s' : Z),
    cumcount (above ++ [s]) s'
    = (cumcount above s' + (if Z.eq_dec s s' then 1 else 0))%Z.
Proof.
  intros above s s'. unfold cumcount. rewrite count_occ_app. simpl.
  destruct (Z.eq_dec s s'); lia.
Qed.

Lemma assign_columns_later :
  forall (T rest : list Row) (above : list Z) (t : Trial),
    In t (assign_columns T above rest) ->
    exists r, In r rest /\ t_subject t = r_subject r /\
              t_day t = dense_rank T r /\
              (cumcount above (t_subject t) <= t_trial t)%Z.
Proof.
  intros T rest. induction rest as [|r rest IH]; simpl; intros above t Ht.
  - contradiction.
  - destruct Ht as [<-|Ht].
    + exists r. simpl. repeat split; auto. lia.
    + destruct (IH _ _ Ht) as [r' [Hr' [Es [Ed Hc]]]].
      exists r'. repeat split; auto.
      rewrite cumcount_snoc in Hc. destruct (Z.eq_dec (r_subject r) (t_subject t)); lia.
Qed.

Lemma assign_columns_sorted :
  forall (T rest : list Row) (above : list Z),
    StronglySorted row_le rest ->
    (forall r, In r rest -> In r T) ->
    StronglySorted trial_before (assign_columns T above rest).
Proof.
  intros T rest above Hs. revert above.
  induction Hs as [|r rest Hs IH Hall]; intros above Hin; simpl.
  - constructor.
  - constructor.
    + apply IH. intros r' Hr'. apply Hin. right. assumption.
    + rewrite Forall_forall in *. intros t Ht.
      destruct (assign_columns_later _ _ _ _ Ht) as [r' [Hr' [Es [Ed Hc]]]].
      unfold trial_before. simpl. rewrite Es, Ed.
      destruct (row_le_cases _ _ (Hall r' Hr')) as [Hlt|[Heq Hle]]; [left; assumption|].
      right. split; [assumption|]. split.
      * apply dense_rank_le_iff; auto.
        -- apply Hin. left. reflexivity.
        -- apply Hin. right. assumption.
      * rewrite cumcount_snoc, Es, <- Heq in Hc.
        destruct (Z.eq_dec (r_subject r) (r_subject r)); [lia|congruence].
Qed.

(** X8.  In the canonical table the rows of a participant follow each other
    with the recomputed day never decreasing and the recomputed trial index
    strictly increasing: the running trial index passes through the
    participant's days in order, and no two rows share (subject, trial). *)
Theorem training_table_sorted :
  forall recs : list (list Row),
    StronglySorted trial_before (training_table recs).
Proof.
  intro recs. unfold training_table.
  apply assign_columns_sorted.
  - apply sort_values_sorted.
  - auto.
Qed.

(** ** The inclusion criteria ([inspect_results.py], lines 244-272) *)

Lemma isin_In : forall (v : Z) (l : list Z), isin v l = true <-> In v l.
Proof.
  intros v l. unfold isin. rewrite existsb_exists. split.
  - intros [x [Hx E]]. apply Z.eqb_eq in E. subst. assumption.
  - intro H. exists v. split; [assumption|apply Z.eqb_refl].
Qed.

Lemma subjects_In :
  forall (rows : list Row) (s : Z),
    In s (Analysis.subjects rows) <-> In s (map r_subject rows).
Proof.
  intros rows s. unfold Analysis.subjects.
  apply (sort_unique_In Z.leb Zleb_antisym).
Qed.

Lemma intersect1d_In :
  forall (a b : list Z) (s : Z),
    In s (Analysis.intersect1d a b) <-> In s a /\ In s b.
Proof.
  intros a b s. unfold Analysis.intersect1d.
  rewrite filter_In, (sort_unique_In Z.leb Zleb_antisym), isin_In. tauto.
Qed.

Lemma subs_to_keep_In :
  forall (d d_dt d_bs d_lab : list Row) (s : Z),
    In s (Analysis.subs_to_keep d d_dt d_bs d_lab) <->
    In s (map r_subject d) /\ In s (map r_subject d_dt) /\
    In s (map r_subject d_bs) /\ In s (map r_subject d_lab).
Proof.
  intros d d_dt d_bs d_lab s. unfold Analysis.subs_to_keep.
  rewrite !intersect1d_In, (sort_unique_In Z.leb Zleb_antisym), !in_app_iff,
    !subjects_In.
  tauto.
Qed.

Lemma lt_strict_Zlt :
  forall x y : Z, lt_strict Z.leb x y -> (x < y)%Z.
Proof.
  intros x y [H1 H2]. apply Z.leb_le in H1. apply Z.leb_gt in H2. lia.
Qed.

Lemma StronglySorted_weaken :
  forall (A : Type) (P Q : A -> A -> Prop) (l : list A),
    (forall x y, P x y -> Q x y) -> StronglySorted P l -> StronglySorted Q l.
Proof.
  intros A P Q l HPQ Hs. induction Hs as [|x l Hs IH Hall]; constructor.
  - assumption.
  - rewrite Forall_forall in *. auto.
Qed.

Lemma StronglySorted_filter :
  forall (A : Type) (P : A -> A -> Prop) (p : A -> bool) (l : list A),
    StronglySorted P l -> StronglySorted P (filter p l).
Proof.
  intros A P p l Hs. induction Hs as [|x l Hs IH Hall]; simpl.
  - constructor.
  - destruct (p x); [|assumption]. constructor; [assumption|].
    rewrite Forall_forall in *. intros y Hy. apply Hall.
    apply filter_In in Hy. tauto.
Qed.

Lemma sort_unique_Zlt :
  forall l : list Z, StronglySorted Z.lt (sort_unique Z.leb l).
Proof.
  intro l. apply StronglySorted_weaken with (P := lt_strict Z.leb).
  - apply lt_strict_Zlt.
  - apply (sort_unique_sorted Z.leb Zleb_total Zleb_trans Zleb_antisym).
Qed.

(** Two strictly increasing lists with the same elements are equal. *)
Lemma sorted_ext :
  forall l1 l2 : list Z,
    StronglySorted Z.lt l1 -> StronglySorted Z.lt l2 ->
    (forall x, In x l1 <-> In x l2) -> l1 = l2.
Proof.
  intros l1 l2 H1. revert l2.
  induction H1 as [|a l1 H1 IH Ha]; intros l2 H2 Hext.
  - destruct l2 as [|b l2]; [reflexivity|].
    exfalso. apply (proj2 (Hext b)). left. reflexivity.
  - destruct H2 as [|b l2 H2 Hb].
    + exfalso. apply (proj1 (Hext a)). left. reflexivity.
    + rewrite Forall_forall in Ha, Hb.
      assert (Eab : a = b).
      { destruct (proj1 (Hext a) (or_introl eq_refl)) as [E|Hin]; [auto|].
        destruct (proj2 (Hext b) (or_introl eq_refl)) as [E|Hin']; [auto|].
        specialize (Ha _ Hin'). specialize (Hb _ Hin). lia. }
      subst b. f_equal. apply IH; [assumption|].
      intro x. split; intro Hx.
      * destruct (proj1 (Hext x) (or_intror Hx)) as [E|Hin]; [|assumption].
        specialize (Ha _ Hx). lia.
      * destruct (proj2 (Hext x) (or_intror Hx)) as [E|Hin]; [|assumption].
        specialize (Hb _ Hx). lia.
Qed.

Lemma intersect1d_sorted :
  forall a b : list Z, StronglySorted Z.lt (Analysis.intersect1d a b).
Proof.
  intros a b. unfold Analysis.intersect1d.
  apply StronglySorted_filter, sort_unique_Zlt.
Qed.

(** X9.  [subs_to_keep] is the increasing list of the participants of the
    training table that also occur in the dual-task, the button-switch and
    the lab table; the union [all_subs] it starts from adds nothing. *)
Theorem subs_to_keep_closed_form :
  forall d d_dt d_bs d_lab : list Row,
    Analysis.subs_to_keep d d_dt d_bs d_lab
    = filter (fun s => isin s (map r_subject d_dt)
                       && isin s (map r_subject d_bs)
                       && isin s (map r_subject d_lab))
             (Analysis.subjects d).
Proof.
  intros d d_dt d_bs d_lab. apply sorted_ext.
  - unfold Analysis.subs_to_keep. apply intersect1d_sorted.
  - apply StronglySorted_filter. unfold Analysis.subjects. apply sort_unique_Zlt.
  - intro s. rewrite subs_to_keep_In, filter_In, subjects_In,
      !andb_true_iff, !isin_In.
    tauto.
Qed.

Lemma stroop_scores_nonempty :
  forall (rows : list Row) (s : Z),
    Analysis.stroop_scores rows s <> [] <->
    exists r, In r rows /\ r_subject r = s /\ r_ns_correct_side r <> None.
Proof.
  intros rows s. unfold Analysis.stroop_scores.
  induction rows as [|r rows IH]; simpl.
  - split; [congruence|intros [r [[] _]]].
  - destruct (Z.eqb_spec (r_subject r) s) as [Es|Ns].
    + unfold Analysis.acc_stroop.
      destruct (r_ns_correct_side r) as [c|] eqn:Ec.
      * split; [intros _|].
        -- exists r. rewrite Ec. repeat split; auto. discriminate.
        -- intros _. destruct (r_ns_resp r); discriminate.
      * simpl. rewrite IH. split.
        -- intros [r' [H1 H2]]. exists r'. auto.
        -- intros [r' [[<-|H1] [H2 H3]]]; [congruence|]. exists r'. auto.
    + simpl. rewrite IH. split.
      * intros [r' [H1 H2]]. exists r'. auto.
      * intros [r' [[<-|H1] [H2 H3]]]; [congruence|]. exists r'. auto.
Qed.

(** X10.  A participant is left in [d_all] exactly when they occur in all
    four tables, have at least one Stroop trial (a row whose
    [ns_correct_side] is present) and answer at least four fifths of their
    Stroop trials correctly; a participant without any Stroop trial is
    dropped. *)
Theorem included_iff :
  forall (d d_dt d_bs d_lab : list Row) (s : Z),
    let all := d ++ d_dt ++ d_bs ++ d_lab in
    In s (Analysis.included_subjects d d_dt d_bs d_lab) <->
    (In s (map r_subject d) /\ In s (map r_subject d_dt) /\
     In s (map r_subject d_bs) /\ In s (map r_subject d_lab)) /\
    (exists r, In r all /\ r_subject r = s /\ r_ns_correct_side r <> None) /\
    (4 * Z.of_nat (List.length (Analysis.stroop_scores all s))
     <= 5 * fold_right Z.add 0 (Analysis.stroop_scores all s))%Z.
Proof.
  intros d d_dt d_bs d_lab s all.
  unfold Analysis.included_subjects. fold all.
  rewrite filter_In, subs_to_keep_In, <- stroop_scores_nonempty.
  unfold Analysis.stroop_ok. rewrite andb_true_iff, Z.ltb_lt, Z.leb_le.
  assert (Hne : Analysis.stroop_scores all s <> [] <->
                (0 < Z.of_nat (List.length (Analysis.stroop_scores all s)))%Z).
  { destruct (Analysis.stroop_scores all s); simpl; split; intro H;
      try congruence; try lia. }
  rewrite Hne. tauto.
Qed.

(** *** The loop and the day ranks on small inputs *)

(** The listing of the scenario above, preceded by a file of the exclusion
    list whose rows carry two day labels. *)
Definition listing_with_excluded : list DataFile :=
  mkFile "sub_008_day_18_data.csv"
    [ mkRow "" 8 18 0 "A" "A" 0 0 None None;
      mkRow "" 8 19 0 "A" "B" 0 0 None None ]%string
  :: home_listing.

Lemma load_files_one_list_per_file_witness :
  frames_held home_recs
  = (frames_held no_recs + List.length (filter kept listing_with_excluded))%nat.
Proof.
  apply (@load_files_one_list_per_file listing_with_excluded no_recs home_recs).
  vm_compute. reflexivity.
Defined.

(** Participant 3 with the day labels 5 and 9, participant 4 with the
    label 2. *)
Definition label_5 : Row := mkRow "sub_003_day_05_data.csv" 3 5 0 "A" "A" 0 0 None None.
Definition label_9 : Row := mkRow "sub_003_day_09_data.csv" 3 9 0 "B" "A" 0 0 None None.
Definition label_9' : Row := mkRow "sub_003_day_09_data.csv" 3 9 1 "B" "B" 0 0 None None.
Definition label_2 : Row := mkRow "sub_004_day_02_data.csv" 4 2 0 "A" "A" 0 0 None None.

Definition labelled_rows : list Row := [label_9; label_2; label_5; label_9'].

Lemma dense_rank_keeps_day_order_witness :
  ((dense_rank labelled_rows label_5 <= dense_rank labelled_rows label_9)%Z
   <-> (r_day label_5 <= r_day label_9)%Z) /\
  (dense_rank labelled_rows label_5 = dense_rank labelled_rows label_9
   <-> r_day label_5 = r_day label_9) /\
  (1 <= dense_rank labelled_rows label_5)%Z.
Proof.
  apply (@dense_rank_keeps_day_order labelled_rows label_5 label_9).
  - right. right. left. reflexivity.
  - left. reflexivity.
  - reflexivity.
Defined.

Lemma dense_rank_one_iff_earliest_witness :
  dense_rank labelled_rows label_5 = 1%Z <->
  (forall r', In r' labelled_rows -> r_subject r' = r_subject label_5 ->
              (r_day label_5 <= r_day r')%Z).
Proof.
  apply (@dense_rank_one_iff_earliest labelled_rows label_5).
  right. right. left. reflexivity.
Defined.

Lemma n_trials_counts_the_original_day_witness :
  n_trials_of labelled_rows label_9
  = Z.of_nat
      (List.length
         (filter (fun r' => (r_subject r' =? r_subject label_9)%Z
                            && (r_day r' =? r_day label_9)%Z) labelled_rows)).
Proof.
  apply (@n_trials_counts_the_original_day labelled_rows label_9).
  left. reflexivity.
Defined.

(** A kept file whose rows carry the labels 1 and 2. *)
Definition two_label_listing : list DataFile :=
  [ mkFile "sub_001_day_01_data.csv"
      [ mkRow "" 1 1 0 "A" "A" 0 0 None None;
        mkRow "" 1 2 0 "A" "B" 0 0 None None ] ]%string.

Lemma load_files_raises_iff_witness :
  load_files no_recs two_label_listing = None <->
  exists f r1 r2,
    In f two_label_listing /\ kept f = true /\
    In r1 (frame_of f) /\ In r2 (frame_of f) /\ r_day r1 <> r_day r2.
Proof.
  apply (@load_files_raises_iff two_label_listing no_recs).
  intros f [<-|[]] _. discriminate.
Defined.

(** ** The selector: order of the assignments and the family of a name
    ([inspect_results.py], lines 311-321) *)

Lemma filter_all :
  forall (A : Type) (P : A -> bool) (l : list A),
    (forall x, In x l -> P x = true) -> filter P l = l.
Proof.
  intros A P l. induction l as [|x l IH]; simpl; intro Hall; [reflexivity|].
  rewrite (Hall x) by (left; reflexivity). f_equal.
  apply IH. intros y Hy. apply Hall. right. assumption.
Qed.

Section SelectorOrder.
Context {B : Type} {SB : Score B}.
Variable X : Type.

(** Rows with pairwise different keys are pairwise different rows: nothing
    is dropped. *)
Lemma drop_duplicates_distinct_keys :
  forall l : list (@Kept B),
    NoDup (map (@kept_key B) l) -> drop_duplicates (@kept_eqb B _) l = l.
Proof.
  induction l as [|c l IH]; simpl; intro Hnd; [reflexivity|].
  inversion Hnd as [|? ? Hnotin Hnd']; subst.
  rewrite (IH Hnd'). f_equal. apply filter_all.
  intros c' Hc'. destruct (kept_eqb c c') eqn:E; [|reflexivity].
  exfalso. apply Hnotin. apply kept_eqb_spec in E. destruct E as [-> _].
  apply in_map. assumption.
Qed.

Lemma single_winner_keys :
  forall (T : list (FitRow B X)) (ks : list key),
    (forall k, In k ks ->
               exists c, winners (group (@row_key B X) T k) = [c]) ->
    map (@kept_key B)
        (flat_map (fun k => winners (group (@row_key B X) T k)) ks) = ks.
Proof.
  intros T ks. induction ks as [|k ks IH]; simpl; intro Hall; [reflexivity|].
  destruct (Hall k (or_introl eq_refl)) as [c Ec].
  rewrite map_app, IH by (intros k' Hk'; apply Hall; right; assumption).
  rewrite Ec. simpl. f_equal.
  apply (@winners_key B SB X T k c). rewrite Ec. left. reflexivity.
Qed.

(** X11.  On a Fit Result table with one row per (subject, day, model) the
    assignments come out in increasing (subject, day) order, one per group:
    their keys are exactly the sorted distinct keys of the table. *)
Theorem select_keys_sorted :
  forall (T : list (FitRow B X)) (out : list (Assignment B)),
    select T = Some out ->
    distinct_models T ->
    map (@a_key B) out = sort_unique key_leb (map (@row_key B X) T).
Proof.
  intros T out Hsel Hwf. apply select_eq in Hsel. subst out.
  set (ks := sort_unique key_leb (map (@row_key B X) T)).
  assert (Hkeys : map (@kept_key B)
                    (flat_map (fun k => winners (group (@row_key B X) T k)) ks)
                  = ks).
  { apply single_winner_keys. intros k Hk.
    apply winners_single; [|apply group_models_NoDup; assumption].
    apply group_keys_In in Hk. destruct Hk as [r [Hr Ek]].
    intro E. assert (Hin : In r (group (@row_key B X) T k))
      by (apply group_In; auto).
    rewrite E in Hin. contradiction. }
  rewrite drop_duplicates_distinct_keys.
  - rewrite map_map.
    rewrite (map_ext (fun c => a_key (with_class c)) (@kept_key B))
      by (intro c; apply a_key_with_class).
    exact Hkeys.
  - rewrite Hkeys. apply group_keys_NoDup.
Qed.
End SelectorOrder.

(** [sep.join(parts)]. *)
Definition join (sep : ascii) (parts : list string) : string :=
  String.concat (String sep EmptyString) parts.

Fixpoint has_char (c : ascii) (s : string) : bool :=
  match s with
  | EmptyString => false
  | String c' s' => Ascii.eqb c' c || has_char c s'
  end.

Lemma split_on_nonempty : forall (sep : ascii) (s : string), split_on sep s <> [].
Proof.
  intros sep s. destruct s as [|c s]; simpl; [discriminate|].
  destruct (Ascii.eqb c sep); [discriminate|].
  destruct (split_on sep s); discriminate.
Qed.

(** X12.  [str.split] loses nothing: joining the fields of a name with the
    separator gives the name back, and no field contains the separator. *)
Theorem split_on_join :
  forall (sep : ascii) (s : string),
    join sep (split_on sep s) = s /\
    Forall (fun w => has_char sep w = false) (split_on sep s).
Proof.
  intros sep s. unfold join. induction s as [|c s [IHj IHf]]; simpl.
  - split; [reflexivity|]. repeat constructor.
  - pose proof (split_on_nonempty sep s) as Hne.
    destruct (Ascii.eqb c sep) eqn:Ec.
    + apply Ascii.eqb_eq in Ec. subst c. split.
      * destruct (split_on sep s) as [|w ws]; [congruence|].
        simpl in *. rewrite IHj. reflexivity.
      * constructor; [reflexivity|assumption].
    + destruct (split_on sep s) as [|w ws]; [congruence|]. split.
      * simpl in *. destruct ws as [|w' ws'].
        -- rewrite IHj. reflexivity.
        -- simpl. rewrite <- IHj. reflexivity.
      * inversion IHf as [|? ? Hw Hws]; subst.
        constructor; [|assumption]. simpl. rewrite Ec, Hw. reflexivity.
Qed.

Lemma split_on_prefix :
  forall (sep : ascii) (a rest : string),
    has_char sep a = false ->
    split_on sep (a ++ String sep rest) = a :: split_on sep rest.
Proof.
  intros sep a rest. induction a as [|c a IH]; simpl; intro H.
  - rewrite Ascii.eqb_refl. reflexivity.
  - apply orb_false_iff in H. destruct H as [Hc Ha].
    rewrite Hc, (IH Ha). reflexivity.
Qed.

Lemma split_on_no_sep :
  forall (sep : ascii) (a : string),
    has_char sep a = false -> split_on sep a = [a].
Proof.
  intros sep a. induction a as [|c a IH]; simpl; intro H; [reflexivity|].
  apply orb_false_iff in H. destruct H as [Hc Ha].
  rewrite Hc, (IH Ha). reflexivity.
Qed.

(** X13.  For a model name of the form prefix_family or
    prefix_family_rest, with no underscore inside the prefix and the
    family, the strategy class is "procedural" exactly when the family is
    "glc" and "rule-based" otherwise, whatever the prefix and the rest are;
    a name without an underscore is "rule-based". *)
Theorem strategy_class_of_name :
  forall (p f : string) (tail : option string),
    has_char "_" p = false ->
    has_char "_" f = false ->
    let name := (p ++ String "_" (f ++ match tail with
                                            | Some t => String "_" t
                                            | None => EmptyString
                                            end))%string in
    model_family name = Some f /\
    strategy_class name
    = (if String.eqb f "glc" then "procedural" else "rule-based")%string /\
    strategy_class p = "rule-based"%string.
Proof.
  intros p f tail Hp Hf name.
  assert (Efam : model_family name = Some f).
  { unfold model_family, name. rewrite split_on_prefix by assumption.
    destruct tail as [t|].
    - rewrite split_on_prefix by assumption. reflexivity.
    - replace (f ++ "")%string with f.
      + rewrite split_on_no_sep by assumption. reflexivity.
      + clear. induction f as [|c f IH]; simpl; [reflexivity|].
        rewrite <- IH. reflexivity. }
  split; [assumption|]. split.
  - unfold strategy_class. rewrite Efam.
    destruct (String.eqb f "glc") eqn:E.
    + rewrite E. reflexivity.
    + reflexivity.
  - unfold strategy_class, model_family.
    rewrite split_on_no_sep by assumption. reflexivity.
Qed.

Lemma strategy_class_of_name_witness :
  model_family "nll_glc_0" = Some "glc"%string /\
  strategy_class "nll_glc_0"
  = (if String.eqb "glc" "glc" then "procedural" else "rule-based")%string /\
  strategy_class "nll" = "rule-based"%string.
Proof.
  apply (@strategy_class_of_name "nll" "glc" (Some "0"%string)).
  - reflexivity.
  - reflexivity.
Defined.

Lemma select_keys_sorted_witness :
  map (@a_key Q) demo_out = sort_unique key_leb (map (@row_key Q unit) demo_fits).
Proof.
  apply (@select_keys_sorted Q Score_Q unit demo_fits demo_out).
  - vm_compute. reflexivity.
  - exact demo_distinct.
Defined.

(** ** The trial loop: what is recorded, and when the loop can raise
    ([cat_learn_auto_pace_2026_s1/code/run_exp.py], lines 326-520) *)

Section LoopFacts.
Import RunExp.
Variable subject : string.
Variable day : option Z.
Variable ds : list Stim.

(** The feedback the script computes for a response label. *)
Definition feedback_for (category : string) (label : option string) : string :=
  match label with
  | Some l => if String.eqb category l then "Correct"%string
              else "Incorrect"%string
  | None => "Incorrect"%string
  end.

Definition is_label (label : option string) : Prop :=
  label = Some "A"%string \/ label = Some "B"%string.

(** A recorded row: the stimulus of its trial index, a response "A" or
    "B" with its reaction time, and the feedback for that response. *)
Definition row_ok (row : DataRow) : Prop :=
  d_subject row = subject /\ day = Some (d_day row) /\
  (0 <= d_trial row < n_total)%Z /\
  (exists st, iloc ds (d_trial row) = Some st /\
              d_cat row = s_cat st /\ d_x row = s_x st /\ d_y row = s_y st /\
              d_xt row = s_xt st /\ d_yt row = s_yt st) /\
  is_label (d_resp row) /\ d_rt row <> None /\
  d_fb row = feedback_for (d_cat row) (d_resp row).

Definition on_trial (m : Machine) : Prop :=
  (0 <= trial m < n_total)%Z /\
  exists st, iloc ds (trial m) = Some st /\ cat m = s_cat st.

Definition state_ok (m : Machine) : Prop :=
  match state_current m with
  | state_init | state_iti => (-1 <= trial m < n_total)%Z
  | state_finished => trial m = n_total
  | state_stim => on_trial m
  | state_feedback =>
      on_trial m /\ is_label (resp m) /\ rt m <> None /\
      fb m = feedback_for (cat m) (resp m)
  end.

Definition loop_inv (m : Machine) : Prop :=
  Forall row_ok (trial_data m) /\ state_ok m.

Lemma step_loop_inv :
  forall (fr : Frame) (m m' : Machine),
    loop_inv m -> step subject day ds fr m = Some m' -> loop_inv m'.
Proof.
  intros fr m m' [Hrows Hst] Hs. unfold step in Hs.
  destruct (escape fr).
  { injection Hs as <-. split; assumption. }
  unfold state_ok in Hst.
  destruct (state_current m) eqn:Es.
  - destruct (space fr); injection Hs as <-; split; try assumption;
      unfold state_ok; simpl; assumption.
  - injection Hs as <-. split; [assumption|]. unfold state_ok. simpl. assumption.
  - destruct (Qlt_le_dec 1000 (time_state fr)).
    + destruct (n_total <=? trial m + 1)%Z eqn:En.
      * injection Hs as <-. split; [assumption|]. unfold state_ok. simpl.
        apply Z.leb_le in En. lia.
      * destruct (iloc ds (trial m + 1)) as [st|] eqn:Ei; [|discriminate].
        injection Hs as <-. split; [assumption|]. unfold state_ok, on_trial. simpl.
        apply Z.leb_gt in En. split; [lia|]. exists st. auto.
    + injection Hs as <-. split; [assumption|]. unfold state_ok. simpl.
      rewrite ?Es. assumption.
  - destruct (key_pressed fr) as [[name secs]|].
    + destruct (iloc ds (trial m)); [|discriminate].
      injection Hs as <-. split; [assumption|]. unfold state_ok, on_trial. simpl.
      split; [exact Hst|]. split.
      * unfold is_label. destruct (String.eqb name "d"); auto.
      * split; [discriminate|reflexivity].
    + destruct (state_entry m).
      * destruct (iloc ds (trial m)); [|discriminate].
        injection Hs as <-. split; [assumption|]. unfold state_ok. simpl.
        rewrite ?Es. assumption.
      * injection Hs as <-. split; [assumption|]. unfold state_ok. simpl.
        rewrite ?Es. assumption.
  - destruct Hst as [[Hrange [st0 [Ei0 Ecat]]] [Hlab [Hrt Hfb]]].
    destruct (Qlt_le_dec 1000 (time_state fr)).
    + revert Hs. case_eq day; [intros dy Eday|intros Eday]; intro Hs;
        [|discriminate].
      rewrite Ei0 in Hs. injection Hs as <-. split.
      * simpl. apply Forall_app. split; [assumption|].
        constructor; [|constructor].
        unfold row_ok. simpl. rewrite <- Ecat.
        repeat split; try assumption; try lia.
        exists st0. rewrite Ecat. repeat split. assumption.
      * unfold state_ok. simpl. lia.
    + assert (Hkeep : loop_inv (with_state m state_feedback false)).
      { split; [assumption|]. unfold state_ok, on_trial. simpl.
        repeat split; try assumption; try lia. exists st0. auto. }
      destruct (state_entry m).
      * rewrite Ei0 in Hs. injection Hs as <-. assumption.
      * injection Hs as <-. assumption.
Qed.

Lemma run_loop_inv :
  forall (frames : list Frame) (m m' : Machine),
    loop_inv m -> run subject day ds frames m = Some m' -> loop_inv m'.
Proof.
  induction frames as [|fr frames IH]; simpl; intros m m' Hi Hr.
  - injection Hr as <-. assumption.
  - destruct (running m).
    + destruct (step subject day ds fr m) as [m1|] eqn:Es; [|discriminate].
      apply (IH m1 m'); [|assumption]. apply (@step_loop_inv fr m m1 Hi Es).
    + injection Hr as <-. assumption.
Qed.

Lemma startup_loop_inv :
  forall (existing : list (string * list DataRow)) (m0 : Machine),
    startup existing = Some m0 -> loop_inv m0.
Proof.
  intros existing m0 H. rewrite (@startup_inv existing m0 H).
  split.
  - constructor.
  - unfold state_ok. simpl. unfold n_total, n_train, n_test. lia.
Qed.

(** X14.  Every row a session records is the stimulus of its trial index
    in [ds] together with a response "A" or "B", its reaction time, and
    veridical feedback: "Correct" exactly when the response is the
    stimulus's category. *)
Theorem recorded_rows_are_veridical :
  forall (existing : list (string * list DataRow)) (frames : list Frame)
         (m0 m : Machine) (row : DataRow),
    startup existing = Some m0 ->
    run subject day ds frames m0 = Some m ->
    In row (trial_data m) ->
    (exists st, iloc ds (d_trial row) = Some st /\
                d_cat row = s_cat st /\ d_x row = s_x st /\ d_y row = s_y st /\
                d_xt row = s_xt st /\ d_yt row = s_yt st) /\
    (d_resp row = Some "A"%string \/ d_resp row = Some "B"%string) /\
    d_rt row <> None /\
    (d_fb row = "Correct"%string <-> d_resp row = Some (d_cat row)) /\
    (d_fb row = "Correct"%string \/ d_fb row = "Incorrect"%string).
Proof.
  intros existing frames m0 m row Hstart Hrun Hin.
  destruct (@run_loop_inv frames m0 m (@startup_loop_inv existing m0 Hstart) Hrun) as [Hrows _].
  rewrite Forall_forall in Hrows.
  destruct (Hrows row Hin) as [_ [_ [_ [Hst [Hlab [Hrt Hfb]]]]]].
  split; [assumption|]. split; [assumption|]. split; [assumption|].
  rewrite Hfb. unfold feedback_for.
  destruct (d_resp row) as [l|]; [|destruct Hlab; discriminate].
  destruct (String.eqb (d_cat row) l) eqn:E.
  - apply String.eqb_eq in E. subst l. split; [tauto|auto].
  - apply String.eqb_neq in E. split; [|auto].
    split; [discriminate|]. intro H. injection H as H. congruence.
Qed.

(** X15.  A session never records more than [n_total] = 650 trials, and it
    reaches [state_finished] only with exactly 650 rows recorded and saved. *)
Theorem session_length_bound :
  forall (existing : list (string * list DataRow)) (frames : list Frame)
         (m0 m : Machine),
    startup existing = Some m0 ->
    run subject day ds frames m0 = Some m ->
    (Z.of_nat (List.length (trial_data m)) <= n_total)%Z /\
    (state_current m = state_finished ->
     Z.of_nat (List.length (trial_data m)) = n_total /\
     disk m = Some (trial_data m)).
Proof.
  intros existing frames m0 m Hstart Hrun.
  destruct (@run_loop_inv frames m0 m (@startup_loop_inv existing m0 Hstart) Hrun) as [_ Hst].
  assert (Hinv0 : session_inv ds (disk m0) m0).
  { rewrite (@startup_inv existing m0 Hstart). unfold session_inv. simpl.
    repeat split. }
  destruct (@run_inv subject day ds (disk m0) frames m0 m Hinv0 Hrun)
    as [_ [Hdisk [Htrial _]]].
  unfold state_ok, on_trial in Hst.
  assert (Hlen : (Z.of_nat (List.length (trial_data m)) <= n_total)%Z).
  { destruct (state_current m).
    - lia.
    - lia.
    - lia.
    - destruct Hst as [Hr _]. lia.
    - destruct Hst as [[Hr _] _]. lia. }
  split; [exact Hlen|].
  intro Hfin. rewrite Hfin in Hst, Htrial. split; [lia|].
  rewrite Hdisk. destruct (trial_data m); [|reflexivity].
  simpl in Htrial. unfold n_total, n_train, n_test in Hst. lia.
Qed.

(** X16.  After the last trial, or once the escape key has stopped the
    loop, no later pass records or writes anything. *)
Theorem nothing_after_the_end :
  forall (frames : list Frame) (m m' : Machine),
    state_current m = state_finished \/ running m = false ->
    run subject day ds frames m = Some m' ->
    trial_data m' = trial_data m /\ disk m' = disk m /\ trial m' = trial m.
Proof.
  induction frames as [|fr frames IH]; simpl; intros m m' Hend Hr.
  - injection Hr as <-. auto.
  - destruct (running m) eqn:Erun.
    + destruct Hend as [Hfin|Hstop]; [|discriminate].
      unfold step in Hr. rewrite Hfin in Hr.
      destruct (escape fr).
      * apply IH in Hr; [|right; reflexivity]. simpl in Hr. assumption.
      * apply IH in Hr; [|left; reflexivity]. simpl in Hr. assumption.
    + injection Hr as <-. auto.
Qed.

(** With a stimulus table of at least [n_total] rows, a pass raises only
    where it reads [day] unbound. *)
Lemma step_full_table :
  forall (fr : Frame) (m : Machine),
    (n_total <= Z.of_nat (List.length ds))%Z ->
    loop_inv m ->
    step subject day ds fr m = None ->
    day = None /\ escape fr = false /\ state_current m = state_feedback /\
    (1000 < time_state fr)%Q.
Proof.
  intros fr m Hlen [_ Hst] Hs. unfold state_ok, on_trial in Hst.
  unfold step in Hs.
  destruct (escape fr); [discriminate|].
  destruct (state_current m).
  - destruct (space fr); discriminate.
  - discriminate.
  - destruct (Qlt_le_dec 1000 (time_state fr)); [|discriminate].
    destruct (n_total <=? trial m + 1)%Z eqn:En; [discriminate|].
    apply Z.leb_gt in En.
    destruct (iloc ds (trial m + 1)) as [st|] eqn:Ei; [discriminate|].
    exfalso. unfold iloc in Ei.
    destruct (Z.ltb_spec (trial m + 1) 0); [lia|].
    apply nth_error_None in Ei. lia.
  - destruct Hst as [_ [st [Ei _]]]. rewrite Ei in Hs.
    destruct (key_pressed fr) as [[name secs]|]; [discriminate|].
    destruct (state_entry m); discriminate.
  - destruct Hst as [[_ [st [Ei _]]] _]. rewrite Ei in Hs.
    destruct (Qlt_le_dec 1000 (time_state fr)) as [Hlt|].
    + revert Hs. case_eq day; [intros dy Eday Hs; discriminate|].
      intros Eday _. auto.
    + destruct (state_entry m); discriminate.
Qed.

(** With [day] unbound a pass records and writes nothing. *)
Lemma step_unbound_keeps :
  forall (fr : Frame) (m m' : Machine),
    day = None ->
    step subject day ds fr m = Some m' ->
    trial_data m' = trial_data m /\ disk m' = disk m.
Proof.
  intros fr m m' Hday Hs. unfold step in Hs. rewrite Hday in Hs.
  destruct (escape fr); [injection Hs as <-; auto|].
  destruct (state_current m).
  - destruct (space fr); injection Hs as <-; auto.
  - injection Hs as <-; auto.
  - destruct (Qlt_le_dec 1000 (time_state fr)).
    + destruct (n_total <=? trial m + 1)%Z; [injection Hs as <-; auto|].
      destruct (iloc ds (trial m + 1)); [|discriminate].
      injection Hs as <-; auto.
    + injection Hs as <-; auto.
  - destruct (key_pressed fr) as [[nm secs]|].
    + destruct (iloc ds (trial m)); [|discriminate]. injection Hs as <-; auto.
    + destruct (state_entry m).
      * destruct (iloc ds (trial m)); [|discriminate]. injection Hs as <-; auto.
      * injection Hs as <-; auto.
  - destruct (Qlt_le_dec 1000 (time_state fr)); [discriminate|].
    destruct (state_entry m).
    + destruct (iloc ds (trial m)); [|discriminate]. injection Hs as <-; auto.
    + injection Hs as <-; auto.
Qed.

(** A pass that ends a feedback interval while the loop is running. *)
Definition save_pass (m : Machine) (fr : Frame) : Prop :=
  running m = true /\ escape fr = false /\
  state_current m = state_feedback /\ (1000 < time_state fr)%Q.

Lemma run_raises_at_save :
  forall (frames : list Frame) (m0 : Machine),
    (n_total <= Z.of_nat (List.length ds))%Z ->
    loop_inv m0 ->
    run subject day ds frames m0 = None ->
    day = None /\
    exists (a : list Frame) (fr : Frame) (b : list Frame) (m : Machine),
      frames = a ++ fr :: b /\ run subject day ds a m0 = Some m /\
      save_pass m fr.
Proof.
  intros frames m0 Hlen. revert m0.
  induction frames as [|fr frames IH]; simpl; intros m Hinv Hrun;
    [discriminate|].
  destruct (running m) eqn:Er; [|discriminate].
  destruct (step subject day ds fr m) as [m1|] eqn:Es.
  - destruct (IH m1 (@step_loop_inv fr m m1 Hinv Es) Hrun)
      as [Hday [a [fr' [b [m' [Ef [Ea Hsave]]]]]]].
    split; [assumption|]. exists (fr :: a), fr', b, m'.
    split; [rewrite Ef; reflexivity|]. split; [|assumption].
    simpl. rewrite Er, Es. assumption.
  - destruct (@step_full_table fr m Hlen Hinv Es) as [Hday [He [Hs Ht]]].
    split; [assumption|]. exists [], fr, frames, m.
    split; [reflexivity|]. split; [reflexivity|].
    unfold save_pass. auto.
Qed.

Lemma run_unbound_keeps :
  forall (frames : list Frame) (m0 m : Machine),
    day = None ->
    run subject day ds frames m0 = Some m ->
    trial_data m = trial_data m0 /\ disk m = disk m0.
Proof.
  induction frames as [|fr frames IH]; simpl; intros m0 m Hday Hrun.
  - injection Hrun as <-. auto.
  - destruct (running m0); [|injection Hrun as <-; auto].
    destruct (step subject day ds fr m0) as [m1|] eqn:Es; [|discriminate].
    destruct (@step_unbound_keeps fr m0 m1 Hday Es) as [E1 E2].
    destruct (IH m1 m Hday Hrun) as [E3 E4]. split; congruence.
Qed.

(** X17.  With a stimulus table of at least [n_total] rows the loop raises
    nowhere but at the reading of [day].  When [day] is bound, every pass is
    defined, whatever the keys and the timing.  When [day] is unbound, the
    loop raises exactly if some pass ends a feedback interval, that is, at
    the first attempt to save a trial; as long as it runs, it has recorded
    nothing and has left the day file as it found it. *)
Theorem full_table_never_raises :
  forall (existing : list (string * list DataRow)) (frames : list Frame)
         (m0 : Machine),
    (n_total <= Z.of_nat (List.length ds))%Z ->
    startup existing = Some m0 ->
    (forall dy : Z, day = Some dy ->
       exists m, run subject day ds frames m0 = Some m) /\
    (day = None ->
       (run subject day ds frames m0 = None <->
        exists (a : list Frame) (fr : Frame) (b : list Frame) (m : Machine),
          frames = a ++ fr :: b /\ run subject day ds a m0 = Some m /\
          save_pass m fr) /\
       (forall m, run subject day ds frames m0 = Some m ->
                  trial_data m = [] /\ disk m = disk m0)).
Proof.
  intros existing frames m0 Hlen Hstart.
  pose proof (@startup_loop_inv existing m0 Hstart) as Hinv.
  assert (Hd0 : trial_data m0 = [])
    by (rewrite (@startup_inv existing m0 Hstart); reflexivity).
  split; [|split; [split|]].
  - intros dy Hday.
    destruct (run subject day ds frames m0) as [m|] eqn:Hrun; [eauto|].
    destruct (@run_raises_at_save frames m0 Hlen Hinv Hrun) as [Hnone _].
    congruence.
  - intro Hrun. apply (@run_raises_at_save frames m0 Hlen Hinv Hrun).
  - intros [a [fr [b [m [Ef [Ea [Hr [He [Hs Ht]]]]]]]]].
    rewrite Ef, run_app, Ea. cbn [run]. rewrite Hr.
    unfold step. rewrite He, Hs, H.
    destruct (Qlt_le_dec 1000 (time_state fr)) as [_|Hle]; [reflexivity|].
    exfalso. apply (Qle_not_lt _ _ Hle). assumption.
  - intros m Hrun. rewrite <- Hd0.
    apply (@run_unbound_keeps frames m0 m H Hrun).
Qed.
End LoopFacts.

(** ** The EEG trigger port ([run_exp.py], lines 19-120) *)

Section PortFacts.
Import EEG.

Lemma inactive_call :
  forall (c : Call) (p : EEGPort), port p = None -> call c p = p.
Proof.
  intros c p Hp. destruct c; simpl.
  - unfold flip_pulse, active. rewrite Hp, andb_false_r. reflexivity.
  - unfold pulse_now, active. rewrite Hp, andb_false_r. reflexivity.
  - unfold update, active. rewrite Hp, andb_false_r. reflexivity.
  - unfold close. rewrite Hp. reflexivity.
Qed.

(** X18.  A port object built with [enabled=False], as [EEGPort(win)] is
    with the script's [EEG_ENABLED], or built when the parallel port is
    unavailable, is inert: no sequence of [flip_pulse], [pulse_now],
    [update] and [close] calls writes, schedules or changes anything. *)
Theorem disabled_port_is_inert :
  forall (enabled0 available : bool) (ms : float) (cs : list Call),
    enabled0 && available = false ->
    calls cs (init enabled0 ms available) = init enabled0 ms available.
Proof.
  intros enabled0 available ms cs Hoff.
  assert (Hp : port (init enabled0 ms available) = None).
  { unfold init. destruct enabled0, available; try discriminate; reflexivity. }
  revert Hp. generalize (init enabled0 ms available). intros p Hp.
  unfold calls. induction cs as [|c cs IH]; simpl; [reflexivity|].
  rewrite (inactive_call c p Hp). exact IH.
Qed.

Definition is_byte (v : Z) : Prop := (0 <= v <= 255)%Z.

Lemma byte_of_is_byte : forall code : Z, is_byte (byte_of code).
Proof.
  intro code. unfold is_byte, byte_of.
  change 255%Z with (Z.ones 8). rewrite Z.land_ones by lia.
  pose proof (Z.mod_pos_bound code (2 ^ 8) ltac:(lia)) as H.
  change (2 ^ 8)%Z with 256%Z in *. change (Z.ones 8) with 255%Z. lia.
Qed.

Definition bytes_only (p : EEGPort) : Prop :=
  Forall is_byte (match port p with Some w => w | None => [] end) /\
  Forall is_byte (scheduled p).

Lemma setData_bytes :
  forall (v : Z) (p : EEGPort), is_byte v -> bytes_only p -> bytes_only (setData v p).
Proof.
  intros v p Hv [Hw Hs]. unfold bytes_only, setData. simpl. split; [|assumption].
  destruct (port p) as [w|]; [|constructor].
  apply Forall_app. split; [assumption|]. constructor; [assumption|constructor].
Qed.

Lemma zero_is_byte : is_byte 0.
Proof. unfold is_byte. lia. Qed.

Lemma call_bytes :
  forall (c : Call) (p : EEGPort), bytes_only p -> bytes_only (call c p).
Proof.
  intros c p Hb. destruct c as [code w g|code w g|g|]; simpl.
  - unfold flip_pulse. destruct (negb (active p)); [assumption|].
    assert (Hb' : bytes_only
                    (mkEEGPort (enabled p) (default_ms p) (port p) (clear_at p)
                               (scheduled p ++ [byte_of code]))).
    { destruct Hb as [Hw Hs]. split; [assumption|]. simpl.
      apply Forall_app. split; [assumption|].
      constructor; [apply byte_of_is_byte|constructor]. }
    destruct g; assumption.
  - unfold pulse_now. destruct (negb (active p)); [assumption|].
    pose proof (setData_bytes (byte_of_is_byte code) Hb) as Hb'.
    destruct g; assumption.
  - unfold update. destruct (negb (active p)); [assumption|].
    destruct (clear_at p) as [c|]; [|assumption].
    destruct g as [now|]; [|assumption].
    destruct (PrimFloat.leb c now); [|assumption].
    exact (setData_bytes zero_is_byte Hb).
  - unfold close. destruct (port p) eqn:Ep; [|assumption].
    exact (setData_bytes zero_is_byte Hb).
Qed.

(** X19.  Whatever codes the methods are called with, every value written
    to the port or scheduled for the next flip lies in 0..255, and a code
    that already lies in 0..255 is sent unchanged. *)
Theorem port_values_are_bytes :
  forall (enabled0 available : bool) (ms : float) (cs : list Call),
    bytes_only (calls cs (init enabled0 ms available)) /\
    (forall code : Z, (0 <= code <= 255)%Z -> byte_of code = code).
Proof.
  intros enabled0 available ms cs. split.
  - assert (H0 : bytes_only (init enabled0 ms available)).
    { unfold init, bytes_only.
      destruct enabled0, available; simpl; split; constructor. }
    revert H0. generalize (init enabled0 ms available).
    unfold calls. induction cs as [|c cs IH]; simpl; intros p Hp; [assumption|].
    apply IH. apply call_bytes. assumption.
  - intros code Hc. unfold byte_of. change 255%Z with (Z.ones 8).
    rewrite Z.land_ones by lia. apply Z.mod_small.
    change (2 ^ 8)%Z with 256%Z. lia.
Qed.

Lemma update_idle :
  forall (g : option float) (p : EEGPort), clear_at p = None -> update g p = p.
Proof.
  intros g p Hc. unfold update. rewrite Hc.
  destruct (negb (active p)); reflexivity.
Qed.

(** X20.  A pulse sent with a clock reading is cleared exactly once.  The
    due time is [now + width/1000] as binary64 arithmetic gives it; the
    first [update] whose clock reading is at or after that number writes 0
    and forgets the due time, an [update] with an earlier reading changes
    nothing, and after the clearing no further [update] writes. *)
Theorem pulse_is_cleared_once :
  forall (p : EEGPort) (code : Z) (width_ms : option float) (now t : float)
         (later : list (option float)),
    active p = true ->
    let p1 := pulse_now code width_ms (Some now) p in
    let due := due_time now (width_of p width_ms) in
    clear_at p1 = Some due /\
    port p1 = option_map (fun w => w ++ [byte_of code]) (port p) /\
    (PrimFloat.leb due t = false -> update (Some t) p1 = p1) /\
    (PrimFloat.leb due t = true ->
     update (Some t) p1 = set_clear_at None (setData 0 p1) /\
     fold_left (fun q g => update g q) later (update (Some t) p1)
     = update (Some t) p1).
Proof.
  intros p code width_ms now t later Hact p1 due.
  assert (Hp1 : p1 = set_clear_at (Some due) (setData (byte_of code) p)).
  { unfold p1, pulse_now. rewrite Hact. reflexivity. }
  assert (Hact1 : active p1 = true).
  { rewrite Hp1. unfold active in *. simpl.
    destruct (enabled p); [|discriminate]. destruct (port p); [reflexivity|discriminate]. }
  assert (Hc1 : clear_at p1 = Some due) by (rewrite Hp1; reflexivity).
  split; [exact Hc1|]. split.
  { rewrite Hp1. simpl. destruct (port p); reflexivity. }
  split.
  - intro Hearly. unfold update. rewrite Hact1, Hc1, Hearly. reflexivity.
  - intro Hdue.
    assert (Hup : update (Some t) p1 = set_clear_at None (setData 0 p1)).
    { unfold update. rewrite Hact1, Hc1, Hdue. reflexivity. }
    split; [exact Hup|]. rewrite Hup.
    generalize (setData 0 p1). intro q.
    induction later as [|g later IH]; simpl; [reflexivity|].
    rewrite update_idle by reflexivity. exact IH.
Qed.

(** The sum is rounded: a pulse of 10 ms sent at clock reading 0.1 is due
    at the binary64 number 0.11, and an [update] at reading 0.11 clears
    it. *)
Example due_time_is_rounded :
  due_time 0.1 10 = 0.11%float /\
  PrimFloat.leb (due_time 0.1 10) 0.11 = true.
Proof. vm_compute. split; reflexivity. Qed.

Lemma trig_In :
  forall (table : list (string * Z)) (name : string) (code : Z),
    trig table name = Some code -> In (name, code) table.
Proof.
  induction table as [|[k v] table IH]; simpl; intros name code H; [discriminate|].
  destruct (String.eqb k name) eqn:E.
  - apply String.eqb_eq in E. injection H as <-. subst k. left. reflexivity.
  - right. apply IH. assumption.
Qed.

(** X21.  In both trigger tables every code is sent as it stands, and two
    different event names send different bytes: the events stay
    distinguishable in the EEG record. *)
Theorem trigger_bytes_distinct :
  forall (table : list (string * Z)) (n1 n2 : string) (c1 c2 : Z),
    table = TRIG \/ table = TRIG_2025 ->
    trig table n1 = Some c1 ->
    trig table n2 = Some c2 ->
    byte_of c1 = c1 /\ (byte_of c1 = byte_of c2 <-> n1 = n2).
Proof.
  intros table n1 n2 c1 c2 Ht H1 H2.
  apply trig_In in H1. apply trig_In in H2.
  destruct Ht as [-> | ->]; simpl in H1, H2;
    repeat (destruct H1 as [H1|H1]; [injection H1 as <- <-|]);
    try contradiction;
    repeat (destruct H2 as [H2|H2]; [injection H2 as <- <-|]);
    try contradiction;
    (split; [reflexivity|]);
    (split; [intro H; try reflexivity; discriminate H
            |intro H; try reflexivity; discriminate H]).
Qed.
End PortFacts.

(** ** The trial loop of the 2025 experiment
    ([cat_learn_auto_pace_2025_s2/code/run_exp.py], lines 119-126 and
    211-401) *)

Section Loop2025.
Import RunExp2025.
Variable ds : list Stim.

(** The stimulus columns of a recorded row. *)
Definition stim_of (row : DataRow) : Stim :=
  mkStim (d_cat row) (d_x row) (d_y row) (d_xt row) (d_yt row).

Definition recorded (m : Machine) : nat := List.length (trial_data m).

(** What holds on every pass of a session of the 2025 experiment. *)
Definition inv2025 (m : Machine) : Prop :=
  map stim_of (trial_data m) = firstn (recorded m) ds /\
  map d_trial (trial_data m) = map Z.of_nat (seq 0 (recorded m)) /\
  disk m = match trial_data m with
           | [] => None
           | _ => Some (trial_data m)
           end /\
  (recorded m <= List.length ds)%nat /\
  match state_current m with
  | RunExp.state_init | RunExp.state_iti =>
      trial m = (Z.of_nat (recorded m) - 1)%Z
  | RunExp.state_finished =>
      trial m = Z.of_nat (recorded m) /\ recorded m = List.length ds
  | RunExp.state_stim | RunExp.state_feedback =>
      trial m = Z.of_nat (recorded m) /\ (recorded m < List.length ds)%nat
  end.

Lemma iloc_in_range :
  forall n : nat,
    (n < List.length ds)%nat ->
    exists st, iloc ds (Z.of_nat n) = Some st /\ nth_error ds n = Some st.
Proof.
  intros n Hn. unfold iloc.
  destruct (Z.ltb_spec (Z.of_nat n) 0); [lia|].
  rewrite Nat2Z.id.
  destruct (nth_error ds n) as [st|] eqn:E; [eauto|].
  apply nth_error_None in E. lia.
Qed.

Lemma firstn_snoc :
  forall (A : Type) (l : list A) (n : nat) (x : A),
    nth_error l n = Some x -> firstn (S n) l = firstn n l ++ [x].
Proof.
  intros A l. induction l as [|y l IH]; intros n x H.
  - destruct n; discriminate.
  - destruct n as [|n]; simpl in *.
    + injection H as ->. reflexivity.
    + rewrite (IH n x H). reflexivity.
Qed.

Lemma step_inv2025 :
  forall (fr : RunExp.Frame) (m : Machine),
    inv2025 m -> exists m', step ds fr m = Some m' /\ inv2025 m'.
Proof.
  intros fr m [Hstim [Hnum [Hdisk [Hle Hst]]]]. unfold step.
  destruct (RunExp.escape fr).
  { eexists. split; [reflexivity|]. unfold inv2025, recorded. simpl. auto. }
  destruct (state_current m) eqn:Es.
  - destruct (RunExp.space fr); eexists; (split; [reflexivity|]);
      unfold inv2025, recorded; simpl; rewrite ?Es; auto.
  - eexists. split; [reflexivity|]. unfold inv2025, recorded. simpl. auto.
  - destruct (Qlt_le_dec 1000 (RunExp.time_state fr)).
    + unfold n_trial. destruct (Z.leb_spec (Z.of_nat (List.length ds)) (trial m + 1)).
      * eexists. split; [reflexivity|]. unfold inv2025, recorded in *. simpl.
        repeat split; auto; lia.
      * assert (Hlt : (recorded m < List.length ds)%nat) by (unfold recorded in *; lia).
        destruct (@iloc_in_range _ Hlt) as [st [Ei _]].
        replace (trial m + 1)%Z with (Z.of_nat (recorded m)) by lia.
        rewrite Ei. eexists. split; [reflexivity|].
        unfold inv2025, recorded in *. simpl. repeat split; auto.
    + eexists. split; [reflexivity|]. unfold inv2025, recorded. simpl.
      rewrite ?Es. auto.
  - destruct Hst as [Ht Hlt].
    destruct (RunExp.key_pressed fr) as [[name secs]|];
      eexists; (split; [reflexivity|]); unfold inv2025, recorded in *; simpl;
      rewrite ?Es; repeat split; auto.
  - destruct Hst as [Ht Hlt].
    destruct (Qlt_le_dec 1000 (RunExp.time_state fr)).
    + destruct (@iloc_in_range _ Hlt) as [st [Ei En]]. rewrite Ht, Ei.
      eexists. split; [reflexivity|].
      unfold inv2025, recorded in *. simpl.
      rewrite !List.length_app, !map_app. simpl. rewrite Nat.add_1_r.
      split; [|split; [|split; [|split]]].
      * rewrite (firstn_snoc _ _ En), Hstim. destruct st; reflexivity.
      * rewrite seq_S, map_app, Hnum. reflexivity.
      * destruct (trial_data m); reflexivity.
      * lia.
      * lia.
    + eexists. split; [reflexivity|]. unfold inv2025, recorded in *. simpl.
      rewrite ?Es. repeat split; auto.
Qed.

Lemma run_inv2025 :
  forall (frames : list RunExp.Frame) (m : Machine),
    inv2025 m -> exists m', run ds frames m = Some m' /\ inv2025 m'.
Proof.
  induction frames as [|fr frames IH]; simpl; intros m Hinv.
  - eauto.
  - destruct (running m); [|eauto].
    destruct (@step_inv2025 fr m Hinv) as [m1 [Es H1]]. rewrite Es.
    apply IH. assumption.
Qed.

Lemma startup_inv2025 :
  forall (on_disk : option (list DataRow)) (m0 : Machine),
    startup on_disk = Some m0 -> on_disk = None /\ inv2025 m0.
Proof.
  intros on_disk m0 H. unfold startup in H.
  destruct on_disk; [discriminate|]. injection H as <-.
  split; [reflexivity|]. unfold inv2025, recorded. simpl.
  repeat split; auto. lia.
Qed.

(** X22.  The 2025 loop never raises: it stops taking stimuli at
    [n_trial = ds.shape[0]], so every index into [ds] is in range, whatever
    the stimulus table, the keys and the timing. *)
Theorem loop_2025_never_raises :
  forall (on_disk : option (list DataRow)) (frames : list RunExp.Frame)
         (m0 : Machine),
    startup on_disk = Some m0 ->
    exists m, run ds frames m0 = Some m.
Proof.
  intros on_disk frames m0 Hstart.
  destruct (@startup_inv2025 on_disk m0 Hstart) as [_ Hinv].
  destruct (@run_inv2025 frames m0 Hinv) as [m [Hrun _]].
  exists m. exact Hrun.
Qed.

(** X23.  A session of the 2025 experiment starts only when the day file
    does not exist, and from then on the file, once written, holds exactly
    the rows of this session: the first stimuli of [ds] in order, numbered
    from 0; the session reaches [state_finished] exactly when all of [ds]
    has been recorded. *)
Theorem session_2025_writes_its_own_rows :
  forall (on_disk : option (list DataRow)) (frames : list RunExp.Frame)
         (m0 m : Machine),
    startup on_disk = Some m0 ->
    run ds frames m0 = Some m ->
    on_disk = None /\
    map stim_of (trial_data m) = firstn (List.length (trial_data m)) ds /\
    map d_trial (trial_data m)
    = map Z.of_nat (seq 0 (List.length (trial_data m))) /\
    disk m = match trial_data m with
             | [] => None
             | _ => Some (trial_data m)
             end /\
    (state_current m = RunExp.state_finished ->
     List.length (trial_data m) = List.length ds).
Proof.
  intros on_disk frames m0 m Hstart Hrun.
  destruct (@startup_inv2025 on_disk m0 Hstart) as [Hnone Hinv].
  destruct (@run_inv2025 frames m0 Hinv) as [m' [Hrun' Hinv']].
  assert (Em : m' = m) by congruence. subst m'.
  destruct Hinv' as [Hstim [Hnum [Hdisk [_ Hst]]]].
  split; [assumption|]. split; [assumption|]. split; [assumption|].
  split; [assumption|].
  intro Hfin. rewrite Hfin in Hst. apply Hst.
Qed.
End Loop2025.

(** *** The loops and the port on small inputs *)

Definition resumed_file : list (string * list RunExp.DataRow) :=
  [("sub_a1b2c3d4e5f6_date_20260101_data.csv"%string, earlier_rows)].

Definition first_row : RunExp.DataRow :=
  Eval vm_compute in
    match RunExp.trial_data after_first_trial with
    | row :: _ => row
    | [] => RunExp.mkDataRow "" 0 0 "" 0 0 0 0 None None ""
    end.

Lemma recorded_rows_are_veridical_witness :
  (exists st, RunExp.iloc one_stimulus (RunExp.d_trial first_row) = Some st /\
              RunExp.d_cat first_row = RunExp.s_cat st /\
              RunExp.d_x first_row = RunExp.s_x st /\
              RunExp.d_y first_row = RunExp.s_y st /\
              RunExp.d_xt first_row = RunExp.s_xt st /\
              RunExp.d_yt first_row = RunExp.s_yt st) /\
  (RunExp.d_resp first_row = Some "A"%string \/
   RunExp.d_resp first_row = Some "B"%string) /\
  RunExp.d_rt first_row <> None /\
  (RunExp.d_fb first_row = "Correct"%string <->
   RunExp.d_resp first_row = Some (RunExp.d_cat first_row)) /\
  (RunExp.d_fb first_row = "Correct"%string \/
   RunExp.d_fb first_row = "Incorrect"%string).
Proof.
  apply (@recorded_rows_are_veridical "a1b2c3d4e5f6" (Some 1%Z) one_stimulus
           resumed_file first_trial_frames resumed_start after_first_trial
           first_row).
  - vm_compute. reflexivity.
  - vm_compute. reflexivity.
  - left. reflexivity.
Defined.

Lemma session_length_bound_witness :
  (Z.of_nat (List.length (RunExp.trial_data after_first_trial))
   <= RunExp.n_total)%Z /\
  (RunExp.state_current after_first_trial = RunExp.state_finished ->
   Z.of_nat (List.length (RunExp.trial_data after_first_trial))
   = RunExp.n_total /\
   RunExp.disk after_first_trial
   = Some (RunExp.trial_data after_first_trial)).
Proof.
  apply (@session_length_bound "a1b2c3d4e5f6" (Some 1%Z) one_stimulus
           resumed_file first_trial_frames resumed_start after_first_trial).
  - vm_compute. reflexivity.
  - vm_compute. reflexivity.
Defined.

(** A session in [state_finished], and what four more passes leave. *)
Definition finished_session : RunExp.Machine :=
  RunExp.mkMachine true RunExp.state_finished false None None 650
                   "B" "Incorrect" [first_row] (Some [first_row]).

Definition after_finished : RunExp.Machine :=
  Eval vm_compute in
    match RunExp.run "a1b2c3d4e5f6" (Some 1%Z) one_stimulus
                     first_trial_frames finished_session with
    | Some m => m
    | None => halted
    end.

Lemma nothing_after_the_end_witness :
  RunExp.trial_data after_finished = RunExp.trial_data finished_session /\
  RunExp.disk after_finished = RunExp.disk finished_session /\
  RunExp.trial after_finished = RunExp.trial finished_session.
Proof.
  apply (@nothing_after_the_end "a1b2c3d4e5f6" (Some 1%Z) one_stimulus
           first_trial_frames finished_session after_finished).
  - left. reflexivity.
  - vm_compute. reflexivity.
Defined.

(** A stimulus table of 650 rows, and a session that finds no file. *)
Definition full_table : list RunExp.Stim :=
  repeat (RunExp.mkStim "A" 0 0 0 0 RunExp.train) 650.

Definition fresh_start : RunExp.Machine :=
  Eval vm_compute in
    match RunExp.startup [] with
    | Some m => m
    | None => halted
    end.

Lemma full_table_never_raises_witness :
  (exists m,
     RunExp.run "a1b2c3d4e5f6" (Some 1%Z) full_table first_trial_frames
                fresh_start = Some m) /\
  RunExp.run "a1b2c3d4e5f6" None full_table first_trial_frames fresh_start
  = None.
Proof.
  split.
  - apply (@full_table_never_raises "a1b2c3d4e5f6" (Some 1%Z) full_table []
             first_trial_frames fresh_start) with (dy := 1%Z).
    + vm_compute. discriminate.
    + vm_compute. reflexivity.
    + reflexivity.
  - apply (@full_table_never_raises "a1b2c3d4e5f6" None full_table []
             first_trial_frames fresh_start).
    + vm_compute. discriminate.
    + vm_compute. reflexivity.
    + reflexivity.
    + exists (firstn 3 first_trial_frames),
             (RunExp.mkFrame false false None (1001 # 1)), [],
             (RunExp.mkMachine true RunExp.state_feedback true
                (Some "A"%string) (Some 400%float) 0 "A" "Correct" [] None).
      split; [reflexivity|]. split; [vm_compute; reflexivity|].
      unfold save_pass. simpl. repeat split.
Defined.

Definition some_calls : list EEG.Call :=
  [ EEG.call_flip_pulse 10 None (Some 0%float);
    EEG.call_pulse_now 30 None (Some 1%float);
    EEG.call_update (Some 2%float);
    EEG.call_close ].

Lemma disabled_port_is_inert_witness :
  EEG.calls some_calls (EEG.init EEG.EEG_ENABLED EEG.EEG_DEFAULT_PULSE_MS true)
  = EEG.init EEG.EEG_ENABLED EEG.EEG_DEFAULT_PULSE_MS true.
Proof.
  apply (@disabled_port_is_inert EEG.EEG_ENABLED true EEG.EEG_DEFAULT_PULSE_MS
           some_calls).
  reflexivity.
Defined.

Definition live_port : EEG.EEGPort := EEG.init true EEG.EEG_DEFAULT_PULSE_MS true.

(** A pulse sent at clock reading 0.1 and an [update] at reading 0.11. *)
Lemma pulse_is_cleared_once_witness :
  let p1 := EEG.pulse_now 30 None (Some 0.1%float) live_port in
  let due := EEG.due_time 0.1 (EEG.width_of live_port None) in
  EEG.clear_at p1 = Some due /\
  EEG.port p1 = option_map (fun w => w ++ [EEG.byte_of 30]) (EEG.port live_port) /\
  (PrimFloat.leb due 0.11 = false -> EEG.update (Some 0.11%float) p1 = p1) /\
  (PrimFloat.leb due 0.11 = true ->
   EEG.update (Some 0.11%float) p1 = EEG.set_clear_at None (EEG.setData 0 p1) /\
   fold_left (fun q g => EEG.update g q) [Some 3%float; None]
             (EEG.update (Some 0.11%float) p1)
   = EEG.update (Some 0.11%float) p1).
Proof.
  apply (@pulse_is_cleared_once live_port 30%Z None 0.1%float 0.11%float
           [Some 3%float; None]).
  reflexivity.
Defined.

Example pulse_cleared_at_rounded_due_time :
  EEG.update (Some 0.11%float)
             (EEG.pulse_now 30 None (Some 0.1%float) live_port)
  = EEG.mkEEGPort true 10 (Some [30; 0]%Z) None [].
Proof. vm_compute. reflexivity. Qed.

Lemma trigger_bytes_distinct_witness :
  EEG.byte_of 10 = 10%Z /\
  (EEG.byte_of 10 = EEG.byte_of 15 <-> "EXP_START"%string = "EXP_END"%string).
Proof.
  apply (@trigger_bytes_distinct EEG.TRIG "EXP_START" "EXP_END" 10%Z 15%Z).
  - left. reflexivity.
  - reflexivity.
  - reflexivity.
Defined.

Definition one_stimulus_2025 : list RunExp2025.Stim :=
  [RunExp2025.mkStim "B" 0 0 0 0].

Definition stopped_2025 : RunExp2025.Machine :=
  RunExp2025.mkMachine false RunExp.state_init false None None 0
                       EmptyString EmptyString [] None.

Definition start_2025 : RunExp2025.Machine :=
  Eval vm_compute in
    match RunExp2025.startup None with
    | Some m => m
    | None => stopped_2025
    end.

Definition after_first_trial_2025 : RunExp2025.Machine :=
  Eval vm_compute in
    match RunExp2025.run one_stimulus_2025 first_trial_frames start_2025 with
    | Some m => m
    | None => stopped_2025
    end.

Lemma loop_2025_never_raises_witness :
  exists m,
    RunExp2025.run one_stimulus_2025 first_trial_frames start_2025 = Some m.
Proof.
  apply (@loop_2025_never_raises one_stimulus_2025 None first_trial_frames
           start_2025).
  reflexivity.
Defined.

Lemma session_2025_writes_its_own_rows_witness :
  @None (list RunExp2025.DataRow) = None /\
  map stim_of (RunExp2025.trial_data after_first_trial_2025)
  = firstn (List.length (RunExp2025.trial_data after_first_trial_2025))
           one_stimulus_2025 /\
  map RunExp2025.d_trial (RunExp2025.trial_data after_first_trial_2025)
  = map Z.of_nat
        (seq 0 (List.length (RunExp2025.trial_data after_first_trial_2025))) /\
  RunExp2025.disk after_first_trial_2025
  = match RunExp2025.trial_data after_first_trial_2025 with
    | [] => None
    | _ => Some (RunExp2025.trial_data after_first_trial_2025)
    end /\
  (RunExp2025.state_current after_first_trial_2025 = RunExp.state_finished ->
   List.length (RunExp2025.trial_data after_first_trial_2025)
   = List.length one_stimulus_2025).
Proof.
  apply (@session_2025_writes_its_own_rows one_stimulus_2025 None
           first_trial_frames start_2025 after_first_trial_2025).
  - reflexivity.
  - vm_compute. reflexivity.
Defined.

(** ** The day column of the dual-task and button-switch tables
    ([inspect_results.py], lines 165-177 and 210-230) *)

Definition labelled (days : list Z) (df : list Row) : Prop :=
  forall r, In r df -> In (r_day r) days.

(** The frames the loop appends to [df_dt_rec] carry the label 22, those it
    appends to [df_bs_rec] the label 23 or 24. *)
Definition labels_ok (recs : Recs) : Prop :=
  Forall (labelled [22%Z]) (df_dt_rec recs) /\
  Forall (labelled [23%Z; 24%Z]) (df_bs_rec recs).

Lemma load_file_labels :
  forall (recs recs' : Recs) (f : DataFile),
    load_file recs f = Some recs' -> labels_ok recs -> labels_ok recs'.
Proof.
  intros recs recs' f E [Hdt Hbs]. unfold load_file in E.
  destruct (excluded (fs f)).
  { injection E as <-. split; assumption. }
  destruct (unique_days (fix_file (fs f) (content f))) as [|dy [|]] eqn:Eu;
    try discriminate.
  injection E as <-. unfold labels_ok. cbn [df_dt_rec df_bs_rec].
  unfold append_if. split.
  - destruct (Z.eqb_spec dy 22) as [->|]; [|assumption].
    apply Forall_app. split; [assumption|]. constructor; [|constructor].
    intros r Hr. rewrite (unique_days_single _ Eu r Hr). left. reflexivity.
  - try change ((dy =? 23)%Z || ((dy =? 24)%Z || false))
        with (isin dy [23; 24]%Z).
    destruct (isin dy [23; 24]%Z) eqn:Ei; [|assumption].
    apply Forall_app. split; [assumption|]. constructor; [|constructor].
    intros r Hr. rewrite (unique_days_single _ Eu r Hr).
    apply isin_In. assumption.
Qed.

Lemma load_files_labels :
  forall (files : list DataFile) (recs recs' : Recs),
    load_files recs files = Some recs' -> labels_ok recs -> labels_ok recs'.
Proof.
  induction files as [|f files IH]; simpl; intros recs recs' E Hok.
  - injection E as <-. assumption.
  - destruct (load_file recs f) as [recs1|] eqn:E1; [|discriminate].
    apply (IH recs1 recs' E). apply (@load_file_labels recs recs1 f E1 Hok).
Qed.

Lemma no_recs_labels : labels_ok no_recs.
Proof. split; constructor. Qed.

Lemma concat_labelled :
  forall (days : list Z) (frames : list (list Row)),
    Forall (labelled days) frames -> labelled days (sort_values (List.concat frames)).
Proof.
  intros days frames Hall r Hr.
  apply (proj1 (sort_values_In _ _)) in Hr. apply in_concat in Hr.
  destruct Hr as [df [Hdf Hr]]. rewrite Forall_forall in Hall.
  apply (Hall df Hdf r Hr).
Qed.

Lemma assign_session_days :
  forall (day_map : Z -> option Z) (T rest : list Row) (above : list Z),
    map Sessions.q_day (Sessions.assign_session day_map T above rest)
    = map (fun r => day_map (dense_rank T r)) rest.
Proof.
  intros day_map T rest. induction rest as [|r rest IH]; intro above; simpl.
  - reflexivity.
  - rewrite IH. reflexivity.
Qed.

(** X25.  No row of the dual-task table has a missing day: the loop sends
    only files labelled 22 to [df_dt_rec], so every participant has one
    label, rank 1, and the map gives 22. *)
Theorem dual_task_days_all_22 :
  forall (home : list DataFile) (recs : Recs),
    load_files no_recs home = Some recs ->
    Forall (fun q => Sessions.q_day q = Some 22%Z)
           (Sessions.dual_task_table (df_dt_rec recs)).
Proof.
  intros home recs Hload.
  destruct (@load_files_labels home no_recs recs Hload no_recs_labels)
    as [Hdt _].
  pose proof (concat_labelled Hdt) as Hlab.
  unfold Sessions.dual_task_table, Sessions.session_table.
  set (T := sort_values (List.concat (df_dt_rec recs))) in *.
  apply Forall_forall. intros q Hq.
  apply (in_map Sessions.q_day) in Hq. rewrite assign_session_days in Hq.
  apply in_map_iff in Hq. destruct Hq as [r [<- Hr]].
  rewrite dense_rank_earliest; [reflexivity|assumption|].
  intros r' Hr' _.
  destruct (Hlab r Hr) as [<-|[]]. destruct (Hlab r' Hr') as [<-|[]]. lia.
Qed.

Lemma dense_rank_at_most_two :
  forall (T : list Row) (r : Row),
    labelled [23%Z; 24%Z] T -> (dense_rank T r <= 2)%Z.
Proof.
  intros T r Hlab. rewrite dense_rank_days_of.
  assert (Hincl : incl (days_of T r) [23%Z; 24%Z]).
  { intros d Hd. apply days_of_In in Hd. destruct Hd as [r' [Hr' [_ <-]]].
    apply Hlab. assumption. }
  pose proof (NoDup_incl_length (days_of_NoDup T r) Hincl) as Hlen.
  pose proof (filter_length_le (fun d => (d <=? r_day r)%Z) (days_of T r)).
  simpl in Hlen. lia.
Qed.

(** Whether the participant of [r] has a row labelled 23 in [T]. *)
Definition has_day_23 (T : list Row) (r : Row) : bool :=
  existsb (fun r' => (r_subject r' =? r_subject r)%Z && (r_day r' =? 23)%Z) T.

(** X26.  In the button-switch table no day is missing, and a row is under
    day 24 only if its label is 24 and the participant also has a file
    labelled 23; a participant whose only button-switch label is 24 appears
    under day 23. *)
Theorem button_switch_days :
  forall (home : list DataFile) (recs : Recs),
    load_files no_recs home = Some recs ->
    let T := sort_values (List.concat (df_bs_rec recs)) in
    map Sessions.q_day (Sessions.button_switch_table (df_bs_rec recs))
    = map (fun r => Some (if (r_day r =? 24)%Z && has_day_23 T r
                          then 24%Z else 23%Z)) T.
Proof.
  intros home recs Hload T.
  destruct (@load_files_labels home no_recs recs Hload no_recs_labels)
    as [_ Hbs].
  pose proof (concat_labelled Hbs) as Hlab. fold T in Hlab.
  unfold Sessions.button_switch_table, Sessions.session_table. fold T.
  rewrite assign_session_days. apply map_ext_in. intros r Hr.
  assert (Hday : r_day r = 23%Z \/ r_day r = 24%Z).
  { destruct (Hlab r Hr) as [H|[H|[]]]; auto. }
  destruct Hday as [E23|E24].
  - rewrite E23. simpl. rewrite dense_rank_earliest; [reflexivity|assumption|].
    intros r' Hr' _. destruct (Hlab r' Hr') as [H|[H|[]]]; lia.
  - rewrite E24. simpl. destruct (has_day_23 T r) eqn:Eh.
    + unfold has_day_23 in Eh. apply existsb_exists in Eh.
      destruct Eh as [r' [Hr' Hc]]. apply andb_true_iff in Hc.
      destruct Hc as [Es Ed]. apply Z.eqb_eq in Es, Ed.
      assert (H1 : dense_rank T r' = 1%Z).
      { apply dense_rank_earliest; [assumption|].
        intros r'' Hr'' _. destruct (Hlab r'' Hr'') as [H|[H|[]]]; lia. }
      pose proof (dense_rank_le_iff T r r' Hr Hr' (eq_sym Es)) as Hle.
      pose proof (dense_rank_at_most_two r Hlab) as H2.
      assert (E2 : dense_rank T r = 2%Z) by lia.
      rewrite E2. reflexivity.
    + rewrite dense_rank_earliest; [reflexivity|assumption|].
      intros r' Hr' Es.
      destruct (Hlab r' Hr') as [H|[H|[]]]; [|lia].
      exfalso. assert (has_day_23 T r = true); [|congruence].
      unfold has_day_23. apply existsb_exists. exists r'.
      split; [assumption|]. rewrite Es, <- H, !Z.eqb_refl. reflexivity.
Qed.

(** A participant with a single button-switch file, labelled 24. *)
Definition only_day_24 : list DataFile :=
  [ mkFile "sub_005_day_24_data.csv"
      [mkRow "" 5 24 0 "A" "A" 0 0 None None] ]%string.

Definition only_day_24_recs : Recs :=
  Eval vm_compute in
    match load_files no_recs only_day_24 with
    | Some recs => recs
    | None => no_recs
    end.

Example day_24_becomes_23 :
  map Sessions.q_day (Sessions.button_switch_table (df_bs_rec only_day_24_recs))
  = [Some 23%Z].
Proof. vm_compute. reflexivity. Qed.

Lemma button_switch_days_witness :
  let T := sort_values (List.concat (df_bs_rec only_day_24_recs)) in
  map Sessions.q_day (Sessions.button_switch_table (df_bs_rec only_day_24_recs))
  = map (fun r => Some (if (r_day r =? 24)%Z && has_day_23 T r
                        then 24%Z else 23%Z)) T.
Proof.
  apply (@button_switch_days only_day_24 only_day_24_recs).
  vm_compute. reflexivity.
Defined.

Lemma dual_task_days_all_22_witness :
  Forall (fun q => Sessions.q_day q = Some 22%Z)
         (Sessions.dual_task_table (df_dt_rec home_recs)).
Proof.
  apply (@dual_task_days_all_22 home_listing home_recs).
  vm_compute. reflexivity.
Defined.

(** ** The selector does not depend on the order of the rows
    ([inspect_results.py], lines 304-316) *)

Section SortedLists.
Variable A : Type.
Variable le : A -> A -> bool.

(** Two strictly increasing lists with the same elements are equal. *)
Lemma strictly_sorted_ext :
  forall l1 l2 : list A,
    StronglySorted (lt_strict le) l1 -> StronglySorted (lt_strict le) l2 ->
    (forall x, In x l1 <-> In x l2) -> l1 = l2.
Proof.
  intros l1 l2 H1. revert l2.
  induction H1 as [|a l1 H1 IH Ha]; intros l2 H2 Hext.
  - destruct l2 as [|b l2]; [reflexivity|].
    exfalso. apply (proj2 (Hext b)). left. reflexivity.
  - destruct H2 as [|b l2 H2 Hb].
    + exfalso. apply (proj1 (Hext a)). left. reflexivity.
    + rewrite Forall_forall in Ha, Hb.
      assert (Hclash : forall x y, lt_strict le x y -> lt_strict le y x -> False).
      { intros x y [Hxy _] [_ Hyx]. congruence. }
      assert (Eab : a = b).
      { destruct (proj1 (Hext a) (or_introl eq_refl)) as [E|Hin]; [auto|].
        destruct (proj2 (Hext b) (or_introl eq_refl)) as [E|Hin']; [auto|].
        exfalso. apply (Hclash a b); auto. }
      subst b. f_equal. apply IH; [assumption|].
      intro x. split; intro Hx.
      * destruct (proj1 (Hext x) (or_intror Hx)) as [E|Hin]; [|assumption].
        exfalso. subst x. apply (Hclash a a); auto.
      * destruct (proj2 (Hext x) (or_intror Hx)) as [E|Hin]; [|assumption].
        exfalso. subst x. apply (Hclash a a); auto.
Qed.

Hypothesis le_total : forall x y, le x y = true \/ le y x = true.
Hypothesis le_trans :
  forall x y z, le x y = true -> le y z = true -> le x z = true.
Hypothesis le_antisym : forall x y, le x y = true -> le y x = true -> x = y.

(** [np.unique] depends on the set of values only. *)
Lemma sort_unique_ext :
  forall l l' : list A,
    (forall x, In x l <-> In x l') -> sort_unique le l = sort_unique le l'.
Proof.
  intros l l' Hext. apply strictly_sorted_ext.
  - apply sort_unique_sorted; assumption.
  - apply sort_unique_sorted; assumption.
  - intro x. rewrite !(sort_unique_In le le_antisym). apply Hext.
Qed.
End SortedLists.

Section SelectorRowOrder.
Context {B : Type} {SB : Score B}.
Variable X : Type.

Local Abbreviation rkey := (@row_key B X).

Lemma best_or_ext :
  forall g g' : list (FitRow B X),
    g <> [] -> (forall r, In r g <-> In r g') -> best_or g = best_or g'.
Proof.
  intros g g' Hg Hext.
  assert (Hg' : g' <> []).
  { destruct g as [|r g]; [congruence|]. intro E.
    assert (Hin : In r g') by (apply Hext; left; reflexivity).
    rewrite E in Hin. contradiction. }
  assert (Hmin : forall r, is_min_bic g r <-> is_min_bic g' r).
  { intro r. unfold is_min_bic. rewrite Hext. split; intros [H1 H2];
      (split; [assumption|]); intros r' Hr'; apply H2; apply Hext; assumption. }
  destruct (best_model_of_spec Hg) as [b [Eb [[r [Hr Er]] Hleast]]].
  destruct (best_model_of_spec Hg') as [b' [Eb' [[r' [Hr' Er']] Hleast']]].
  unfold best_or. rewrite Eb, Eb'.
  apply String.leb_antisym.
  - rewrite <- Er'. apply Hleast. apply Hmin. assumption.
  - rewrite <- Er. apply Hleast'. apply Hmin. assumption.
Qed.

Lemma winners_of_best_row :
  forall (g : list (FitRow B X)) (r : FitRow B X),
    NoDup (map (@model B X) g) -> In r g -> model r = best_or g ->
    winners g = [kept_cols (r, best_or g)].
Proof.
  intros g r Hnd Hr Em. unfold winners. rewrite filter_map_comm. simpl.
  rewrite <- Em. rewrite (filter_unique_image (@model B X) g r Hnd Hr).
  reflexivity.
Qed.

Lemma winners_ext :
  forall g g' : list (FitRow B X),
    g <> [] -> (forall r, In r g <-> In r g') ->
    NoDup (map (@model B X) g) -> NoDup (map (@model B X) g') ->
    winners g = winners g'.
Proof.
  intros g g' Hg Hext Hnd Hnd'.
  pose proof (@best_or_ext g g' Hg Hext) as Ebest.
  destruct (best_model_of_spec Hg) as [b [Eb [[r [[Hr _] Er]] _]]].
  assert (Em : model r = best_or g) by (unfold best_or; rewrite Eb; assumption).
  rewrite (@winners_of_best_row g r Hnd Hr Em).
  assert (Em' : model r = best_or g') by congruence.
  rewrite (@winners_of_best_row g' r Hnd' (proj1 (Hext r) Hr) Em').
  rewrite Ebest. reflexivity.
Qed.

Lemma flat_map_ext_in :
  forall (K C : Type) (f g : K -> list C) (ks : list K),
    (forall k, In k ks -> f k = g k) -> flat_map f ks = flat_map g ks.
Proof.
  intros K C f g ks. induction ks as [|k ks IH]; simpl; intro H; [reflexivity|].
  rewrite (H k (or_introl eq_refl)), IH; [reflexivity|].
  intros k' Hk'. apply H. right. assumption.
Qed.

(** X27.  On a Fit Result table with one row per (subject, day, model) the
    Best-Model Assignments do not depend on the order of the table's rows:
    any rearrangement of the rows gives the same assignments, in the same
    order. *)
Theorem select_ignores_row_order :
  forall T T' : list (FitRow B X),
    Permutation T T' -> distinct_models T -> select T = select T'.
Proof.
  intros T T' Hperm Hwf.
  destruct T as [|r0 T0].
  { apply Permutation_nil in Hperm. subst T'. reflexivity. }
  assert (HT : r0 :: T0 <> []) by discriminate.
  assert (HT' : T' <> []).
  { intro E. subst T'. apply Permutation_sym, Permutation_nil in Hperm.
    discriminate. }
  revert Hperm Hwf HT. generalize (r0 :: T0). intros T Hperm Hwf HT.
  rewrite (select_rows HT), (select_rows HT'). unfold selected.
  do 3 f_equal.
  assert (Hin : forall r, In r T <-> In r T').
  { intro r. split; apply Permutation_in;
      [assumption|apply Permutation_sym; assumption]. }
  assert (Hwf' : distinct_models T').
  { unfold distinct_models in *.
    apply (Permutation_NoDup (Permutation_map _ Hperm) Hwf). }
  assert (Hkeys : sort_unique key_leb (map rkey T)
                  = sort_unique key_leb (map rkey T')).
  { apply (sort_unique_ext key_leb key_leb_total key_leb_trans key_leb_antisym).
    intro k. rewrite !in_map_iff. split; intros [r [E Hr]]; exists r;
      (split; [assumption|]); apply Hin; assumption. }
  rewrite <- Hkeys. apply flat_map_ext_in. intros k Hk.
  apply group_keys_In in Hk. destruct Hk as [r [Hr Ek]].
  apply winners_ext.
  - intro E. assert (Hg : In r (group rkey T k)) by (apply group_In; auto).
    rewrite E in Hg. contradiction.
  - intro r'. rewrite !group_In, Hin. tauto.
  - apply group_models_NoDup. assumption.
  - apply group_models_NoDup. assumption.
Qed.
End SelectorRowOrder.

Lemma select_ignores_row_order_witness :
  select demo_fits = select (rev demo_fits).
Proof.
  apply (@select_ignores_row_order Q Score_Q unit demo_fits (rev demo_fits)).
  - apply Permutation_rev.
  - exact demo_distinct.
Defined.

(** ** Where the session tables raise
    ([inspect_results.py], lines 198-261) *)

Section MergedTable.
Import Sessions.

Lemma all_present_None :
  forall rows : list (Z * option Q),
    all_present rows = None <-> exists s, In (s, None) rows.
Proof.
  induction rows as [|[s [dy|]] rows IH]; simpl.
  - split; [discriminate|]. intros [s []].
  - destruct (all_present rows) as [rs|].
    + split; [discriminate|]. intros [s' [H|H]]; [discriminate|].
      exfalso. assert (E : Some rs = None) by (apply (proj2 IH); eauto).
      discriminate E.
    + split; [|reflexivity]. intros _.
      destruct (proj1 IH eq_refl) as [s' H]. eauto.
  - split; [|reflexivity]. intros _. exists s. left. reflexivity.
Qed.

Lemma rank_days_None :
  forall rows : list (Z * option Q),
    rank_days rows = None <-> exists s, In (s, None) rows.
Proof.
  intro rows. unfold rank_days. rewrite <- all_present_None.
  destruct (all_present rows); split; congruence.
Qed.

Lemma assign_lab_days :
  forall (T rest : list Row) (above : list Z),
    map (fun l => (l_subject l, l_day l)) (assign_lab T above rest)
    = map (fun r => (r_subject r, lab_day (dense_rank T r))) rest.
Proof.
  intros T rest. induction rest as [|r rest IH]; intro above; simpl.
  - reflexivity.
  - rewrite IH. reflexivity.
Qed.

Lemma assign_session_rows :
  forall (day_map : Z -> option Z) (T rest : list Row) (above : list Z),
    map (fun q => (q_subject q, option_map inject_Z (q_day q)))
        (assign_session day_map T above rest)
    = map (fun r => (r_subject r,
                     option_map inject_Z (day_map (dense_rank T r)))) rest.
Proof.
  intros day_map T rest. induction rest as [|r rest IH]; intro above; simpl.
  - reflexivity.
  - rewrite IH. reflexivity.
Qed.

Lemma dense_rank_pos :
  forall (T : list Row) (r : Row), In r T -> (1 <= dense_rank T r)%Z.
Proof.
  intros T r Hr. rewrite dense_rank_days_of.
  pose proof (@count_le_pos (days_of T r) (r_day r) (own_day_In T r Hr)).
  lia.
Qed.

Lemma dense_rank_le_days :
  forall (T : list Row) (r : Row),
    (dense_rank T r <= Z.of_nat (List.length (days_of T r)))%Z.
Proof.
  intros T r. rewrite dense_rank_days_of.
  pose proof (filter_length_le (fun d => (d <=? r_day r)%Z) (days_of T r)).
  lia.
Qed.

Lemma list_max_In :
  forall l : list Z, l <> [] ->
    exists m, In m l /\ forall x, In x l -> (x <= m)%Z.
Proof.
  induction l as [|a l IH]; intro Hne; [congruence|].
  destruct l as [|b l].
  - exists a. split; [left; reflexivity|]. intros x [<-|[]]. lia.
  - destruct (IH ltac:(discriminate)) as [m [Hm Hall]].
    destruct (Z.le_gt_cases a m).
    + exists m. split; [right; assumption|].
      intros x [<-|Hx]; [assumption|auto].
    + exists a. split; [left; reflexivity|].
      intros x [<-|Hx]; [lia|]. specialize (Hall x Hx). lia.
Qed.

(** The row of a participant's latest day has the number of the
    participant's distinct days as its rank. *)
Lemma dense_rank_latest :
  forall (T : list Row) (r : Row),
    In r T ->
    exists r', In r' T /\ r_subject r' = r_subject r /\
               dense_rank T r' = Z.of_nat (List.length (days_of T r)).
Proof.
  intros T r Hr.
  destruct (@list_max_In (days_of T r)) as [m [Hm Hall]].
  { intro E. pose proof (own_day_In T r Hr) as H. rewrite E in H.
    contradiction. }
  apply days_of_In in Hm. destruct Hm as [r' [Hr' [Es Ed]]].
  exists r'. split; [assumption|]. split; [assumption|].
  rewrite dense_rank_days_of, (days_of_same_subject T r' r Es).
  f_equal. f_equal. apply filter_all. intros x Hx.
  apply Z.leb_le. rewrite Ed. apply Hall. assumption.
Qed.

Lemma lab_day_None :
  forall rank : Z, (1 <= rank)%Z -> (lab_day rank = None <-> (5 < rank)%Z).
Proof.
  intros rank Hpos. unfold lab_day.
  destruct (Z.eqb_spec rank 1); [split; [discriminate|lia]|].
  destruct (Z.eqb_spec rank 2); [split; [discriminate|lia]|].
  destruct (Z.eqb_spec rank 3); [split; [discriminate|lia]|].
  destruct (Z.eqb_spec rank 4); [split; [discriminate|lia]|].
  destruct (Z.eqb_spec rank 5); [split; [discriminate|lia]|].
  split; [lia|reflexivity].
Qed.

(** A day of the lab table is missing exactly for the rows of a
    participant's sixth and later distinct day labels. *)
Lemma lab_table_missing :
  forall frames : list (list Row),
    (exists s, In (s, None) (map (fun l => (l_subject l, l_day l))
                                 (lab_table frames))) <->
    exists r, In r (List.concat frames) /\
              (5 < List.length (days_of (List.concat frames) r))%nat.
Proof.
  intro frames. unfold lab_table. rewrite assign_lab_days.
  set (T := List.concat frames). split.
  - intros [s Hs]. apply in_map_iff in Hs. destruct Hs as [r [E Hr]].
    injection E as _ E. exists r. split; [assumption|].
    apply (lab_day_None (dense_rank_pos T r Hr)) in E.
    pose proof (dense_rank_le_days T r). lia.
  - intros [r [Hr Hlen]].
    destruct (dense_rank_latest T r Hr) as [r' [Hr' [Es Erank]]].
    exists (r_subject r'). apply in_map_iff. exists r'.
    split; [|assumption]. f_equal.
    apply (lab_day_None (dense_rank_pos T r' Hr')). lia.
Qed.

(** No day of the dual-task and button-switch tables is missing. *)
Lemma home_sessions_present :
  forall (home : list DataFile) (recs : Recs) (s : Z),
    load_files no_recs home = Some recs ->
    ~ In (s, None)
         (map (fun q => (q_subject q, option_map inject_Z (q_day q)))
              (dual_task_table (df_dt_rec recs))) /\
    ~ In (s, None)
         (map (fun q => (q_subject q, option_map inject_Z (q_day q)))
              (button_switch_table (df_bs_rec recs))).
Proof.
  intros home recs s Hload.
  destruct (@load_files_labels home no_recs recs Hload no_recs_labels)
    as [Hdt Hbs].
  pose proof (concat_labelled Hdt) as Ldt.
  pose proof (concat_labelled Hbs) as Lbs.
  unfold dual_task_table, button_switch_table, session_table.
  rewrite !assign_session_rows. split.
  - intro Hin. apply in_map_iff in Hin. destruct Hin as [r [E Hr]].
    injection E as _ E.
    rewrite dense_rank_earliest in E; [discriminate|assumption|].
    intros r' Hr' _.
    destruct (Ldt r Hr) as [<-|[]]. destruct (Ldt r' Hr') as [<-|[]]. lia.
  - intro Hin. apply in_map_iff in Hin. destruct Hin as [r [E Hr]].
    injection E as _ E.
    pose proof (dense_rank_pos _ r Hr) as Hpos.
    pose proof (dense_rank_at_most_two r Lbs) as Htwo.
    unfold bs_day in E.
    destruct (Z.eqb_spec (dense_rank (sort_values (List.concat (df_bs_rec recs))) r) 1);
      [discriminate|].
    destruct (Z.eqb_spec (dense_rank (sort_values (List.concat (df_bs_rec recs))) r) 2);
      [discriminate|].
    lia.
Qed.

Lemma pd_concat_None :
  forall frames : list (list Row), Analysis.pd_concat frames = None <-> frames = [].
Proof. intros [|a l]; simpl; split; congruence. Qed.

(** X24.  The session tables of lines 198-261 raise in these cases and no
    other: the file loop raises; one of the four lists of frames is empty,
    so that [pd.concat] raises; or some participant has more than five
    distinct day labels in the lab files, so that the day of the rows past
    the fifth label is missing and the conversion of line 261 raises. *)
Theorem session_tables_raise_iff :
  forall home lab : list DataFile,
    all_sessions home lab = None <->
    load_files no_recs home = None \/
    exists recs : Recs,
      load_files no_recs home = Some recs /\
      (df_train_rec recs = [] \/ df_dt_rec recs = [] \/
       df_bs_rec recs = [] \/ load_lab_files lab = [] \/
       exists r : Row,
         In r (List.concat (load_lab_files lab)) /\
         (5 < List.length (days_of (List.concat (load_lab_files lab)) r))%nat).
Proof.
  intros home lab. unfold all_sessions.
  destruct (load_files no_recs home) as [recs|] eqn:Hload.
  2:{ split; [auto|reflexivity]. }
  cbv zeta.
  assert (Hmerged :
    rank_days (merged_days (training_table (df_train_rec recs))
                           (dual_task_table (df_dt_rec recs))
                           (button_switch_table (df_bs_rec recs))
                           (lab_table (load_lab_files lab))) = None <->
    exists r : Row,
      In r (List.concat (load_lab_files lab)) /\
      (5 < List.length (days_of (List.concat (load_lab_files lab)) r))%nat).
  { rewrite rank_days_None, <- lab_table_missing. unfold merged_days. split.
    - intros [s Hs]. exists s.
      apply in_app_or in Hs. destruct Hs as [Hs|Hs].
      { apply in_map_iff in Hs. destruct Hs as [t [E _]]. discriminate. }
      apply in_app_or in Hs. destruct Hs as [Hs|Hs].
      { exfalso. apply (proj1 (@home_sessions_present home recs s Hload) Hs). }
      apply in_app_or in Hs. destruct Hs as [Hs|Hs].
      { exfalso. apply (proj2 (@home_sessions_present home recs s Hload) Hs). }
      assumption.
    - intros [s Hs]. exists s.
      apply in_or_app. right. apply in_or_app. right. apply in_or_app. right.
      assumption. }
  split.
  - intro Hnone. right. exists recs. split; [reflexivity|].
    destruct (df_train_rec recs) as [|a1 l1] eqn:E1; [auto|].
    destruct (df_dt_rec recs) as [|a2 l2] eqn:E2; [auto|].
    destruct (df_bs_rec recs) as [|a3 l3] eqn:E3; [auto|].
    destruct (load_lab_files lab) as [|a4 l4] eqn:E4; [auto|].
    right. right. right. right.
    apply Hmerged. exact Hnone.
  - intros [Hnone|[recs' [E Hcase]]]; [discriminate|].
    injection E as <-.
    destruct Hcase as [E1|[E2|[E3|[E4|Hlab]]]].
    + rewrite E1. reflexivity.
    + rewrite E2. destruct (Analysis.pd_concat (df_train_rec recs)); reflexivity.
    + rewrite E3. destruct (Analysis.pd_concat (df_train_rec recs));
        [|reflexivity].
      destruct (Analysis.pd_concat (df_dt_rec recs)); reflexivity.
    + rewrite E4. destruct (Analysis.pd_concat (df_train_rec recs));
        [|reflexivity].
      destruct (Analysis.pd_concat (df_dt_rec recs)); [|reflexivity].
      destruct (Analysis.pd_concat (df_bs_rec recs)); reflexivity.
    + destruct (Analysis.pd_concat (df_train_rec recs)); [|reflexivity].
      destruct (Analysis.pd_concat (df_dt_rec recs)); [|reflexivity].
      destruct (Analysis.pd_concat (df_bs_rec recs)); [|reflexivity].
      destruct (Analysis.pd_concat (load_lab_files lab)); [|reflexivity].
      apply Hmerged. exact Hlab.
Qed.
End MergedTable.

(** *** Six lab sessions of one participant

    With the at-home files of [home_listing], one lab session lets the
    tables through (the lab day 0.5 ranks first, before the training day)
    and six lab sessions of subject 1 make line 261 raise. *)

Definition six_lab_sessions : list DataFile :=
  [ mkFile "sub_001_day_201_data.csv" [mkRow "" 1 201 0 "A" "A" 0 0 None None];
    mkFile "sub_001_day_202_data.csv" [mkRow "" 1 202 0 "A" "A" 0 0 None None];
    mkFile "sub_001_day_203_data.csv" [mkRow "" 1 203 0 "A" "A" 0 0 None None];
    mkFile "sub_001_day_204_data.csv" [mkRow "" 1 204 0 "A" "A" 0 0 None None];
    mkFile "sub_001_day_205_data.csv" [mkRow "" 1 205 0 "A" "A" 0 0 None None];
    mkFile "sub_001_day_206_data.csv" [mkRow "" 1 206 0 "A" "A" 0 0 None None]
  ]%string.

Example one_lab_session_runs :
  Sessions.all_sessions home_listing lab_listing
  = Some [(1, 2); (7, 1); (1, 3); (1, 4); (1, 1)]%Z.
Proof. vm_compute. reflexivity. Qed.

Example sixth_lab_session_raises :
  Sessions.all_sessions home_listing six_lab_sessions = None /\
  map Sessions.l_day (Sessions.lab_table (load_lab_files six_lab_sessions))
  = [Some (1 # 2); Some (9 # 2); Some (17 # 2); Some (25 # 2); Some (21 # 1);
     None].
Proof. vm_compute. split; reflexivity. Qed.
